(** * SpaceX extraction-and-upsert core: a shallow embedding

    The development follows three source files:
    - [include/extractors/spacex_extractor.py]  (class [SpaceXExtractor]),
    - [include/utils/database_utils.py]         ([check_data_quality]),
    - [dags/spacex_etl_dag.py]                  ([run_data_quality_checks]).

    Python code that talks to PostgreSQL and to the HTTP API is written in a
    state-and-exception monad over a [world]: the committed database, the
    number of open connections, the scripted behaviour of the environment
    (HTTP answers, database faults, clock readings) and what the code emits
    (log records, XCom values). *)

From Stdlib Require Import List String Ascii ZArith NArith PArith Bool Lia.
From Stdlib Require Import DecimalString.
From Stdlib Require DecimalZ DecimalFacts.
From Stdlib Require Import Sorting.Sorted Sorting.Permutation.
Import ListNotations.

Open Scope string_scope.
Open Scope Z_scope.

Set Warnings "-register-all".

(** ** JSON documents and Python values decoded from them *)

(** What [response.json()] can return.  Numbers are the integer ones; a
    Python [dict] is an association list in which the first binding of a key
    is the live one. *)
Inductive json : Type :=
| JNull
| JBool (b : bool)
| JNum (n : Z)
| JStr (s : string)
| JArr (items : list json)
| JObj (fields : list (string * json)).

Fixpoint assoc {A : Type} (k : string) (m : list (string * A)) : option A :=
  match m with
  | [] => None
  | (k', v) :: m' => if String.eqb k' k then Some v else assoc k m'
  end.

(** Python exceptions the core can meet, all subclasses of [Exception]. *)
Inductive exn : Type :=
| RequestException (msg : string)      (* requests: network failure, timeout *)
| HTTPError (status : Z)               (* response.raise_for_status() *)
| JSONDecodeError                      (* response.json() on a non-JSON body *)
| KeyError (key : string)
| TypeError (msg : string)
| OperationalError (msg : string)      (* psycopg2: connectivity *)
| DatabaseError (msg : string)         (* psycopg2: value or constraint refused *)
| PlainException (msg : string).       (* raise Exception("...") *)

Definition decimal (n : Z) : string := NilZero.string_of_int (Z.to_int n).

(** [str(e)] *)
Definition str (e : exn) : string :=
  match e with
  | RequestException msg => msg
  | HTTPError status => decimal status ++ " Error"
  | JSONDecodeError => "Expecting value: line 1 column 1 (char 0)"
  | KeyError key => "'" ++ key ++ "'"
  | TypeError msg => msg
  | OperationalError msg => msg
  | DatabaseError msg => msg
  | PlainException msg => msg
  end.

Inductive result (A : Type) : Type :=
| Ok (a : A)
| Raise (e : exn).
Arguments Ok {A} a.
Arguments Raise {A} e.

(** [v[key]] on a decoded value *)
Definition getitem (v : json) (key : string) : result json :=
  match v with
  | JObj fields =>
      match assoc key fields with
      | Some x => Ok x
      | None => Raise (KeyError key)
      end
  | JArr _ => Raise (TypeError "list indices must be integers or slices, not str")
  | JStr _ => Raise (TypeError "string indices must be integers")
  | _ => Raise (TypeError "object is not subscriptable")
  end.

Fixpoint chars (s : string) : list json :=
  match s with
  | EmptyString => []
  | String c s' => JStr (String c EmptyString) :: chars s'
  end.

(** [for x in v]: the items Python iterates over *)
Definition py_iter (v : json) : result (list json) :=
  match v with
  | JArr items => Ok items
  | JObj fields => Ok (map (fun kv => JStr (fst kv)) fields)
  | JStr s => Ok (chars s)
  | _ => Raise (TypeError "object is not iterable")
  end.

(** [len(v)] *)
Definition py_len (v : json) : result Z :=
  match v with
  | JArr items => Ok (Z.of_nat (List.length items))
  | JObj fields => Ok (Z.of_nat (List.length fields))
  | JStr s => Ok (Z.of_nat (String.length s))
  | _ => Raise (TypeError "object has no len()")
  end.

(** ** PostgreSQL side of JSON: the operators [->] and [->>] *)

Definition dquote : ascii := ascii_of_nat 34.
Definition backslash : ascii := ascii_of_nat 92.

Fixpoint escape (s : string) : string :=
  match s with
  | EmptyString => EmptyString
  | String c s' =>
      if Ascii.eqb c dquote then String backslash (String c (escape s'))
      else if Ascii.eqb c backslash then String backslash (String c (escape s'))
      else String c (escape s')
  end.

Definition quote (s : string) : string :=
  String dquote (escape s ++ String dquote EmptyString).

(** Text form of a document, as the server prints it. *)
Fixpoint json_out (v : json) : string :=
  match v with
  | JNull => "null"
  | JBool true => "true"
  | JBool false => "false"
  | JNum n => decimal n
  | JStr s => quote s
  | JArr items =>
      "[" ++ (fix outs (l : list json) : string :=
                match l with
                | [] => EmptyString
                | [x] => json_out x
                | x :: l' => json_out x ++ ", " ++ outs l'
                end) items ++ "]"
  | JObj fields =>
      "{" ++ (fix outs (l : list (string * json)) : string :=
                match l with
                | [] => EmptyString
                | [(k, x)] => quote k ++ ": " ++ json_out x
                | (k, x) :: l' => quote k ++ ": " ++ json_out x ++ ", " ++ outs l'
                end) fields ++ "}"
  end.

(** [doc -> 'key']: the field as a document, SQL NULL ([None]) when [doc] is
    NULL, is no object or has no such field. *)
Definition arrow (doc : option json) (key : string) : option json :=
  match doc with
  | Some (JObj fields) => assoc key fields
  | _ => None
  end.

(** [doc ->> 'key']: the field as text; a JSON null gives SQL NULL. *)
Definition arrow_text (doc : option json) (key : string) : option string :=
  match arrow doc key with
  | None => None
  | Some JNull => None
  | Some (JStr s) => Some s
  | Some v => Some (json_out v)
  end.

(** [a = 'lit'] inside [CASE WHEN]: true only for a non-NULL equal text. *)
Definition sql_text_is (a : option string) (lit : string) : bool :=
  match a with
  | Some s => String.eqb s lit
  | None => false
  end.

Definition is_null {A : Type} (a : option A) : bool :=
  match a with
  | Some _ => false
  | None => true
  end.

(** ** The relational store *)

(** One row of [bronze.launches], [bronze.starlink] or [bronze.rockets].
    [xmax] is the system column read by [RETURNING (xmax = 0)]: zero on a
    tuple made by a plain insert, the id of the updating transaction on a
    tuple version made by [ON CONFLICT ... DO UPDATE]. *)
Record row : Type := mkRow {
  id : string;
  data : json;
  extracted_at : Z;
  source_system : string;
  xmax : N
}.

Definition table : Type := list row.

(** One row of [bronze.pipeline_metadata]. *)
Record run_log : Type := mkRunLog {
  pipeline_name : string;
  status : string;
  records_processed : Z;
  run_date : Z;
  error_message : option string
}.

Record database : Type := mkDatabase {
  launches : table;
  starlink : table;
  rockets : table;
  pipeline_metadata : list run_log
}.

Inductive raw_table : Type := Launches | Starlink | Rockets.

Definition get_table (t : raw_table) (db : database) : table :=
  match t with
  | Launches => launches db
  | Starlink => starlink db
  | Rockets => rockets db
  end.

Definition set_table (t : raw_table) (rows : table) (db : database) : database :=
  match t with
  | Launches => mkDatabase rows (starlink db) (rockets db) (pipeline_metadata db)
  | Starlink => mkDatabase (launches db) rows (rockets db) (pipeline_metadata db)
  | Rockets => mkDatabase (launches db) (starlink db) rows (pipeline_metadata db)
  end.

Definition add_run_log (r : run_log) (db : database) : database :=
  mkDatabase (launches db) (starlink db) (rockets db) (pipeline_metadata db ++ [r]).

(** [INSERT INTO t (id, data, extracted_at, source_system) VALUES (...)
     ON CONFLICT (id) DO UPDATE SET data = EXCLUDED.data,
                                    extracted_at = EXCLUDED.extracted_at]
    run by transaction [x]: the table afterwards and the tuple written.  The
    conflicting row keeps its [id] and [source_system]. *)
Fixpoint upsert (t : table) (k : string) (d : json) (ts : Z) (src : string)
    (x : positive) : table * row :=
  match t with
  | [] =>
      let r := mkRow k d ts src 0%N in ([r], r)
  | r :: t' =>
      if String.eqb (id r) k then
        let r' := mkRow (id r) d ts (source_system r) (Npos x) in
        (r' :: t', r')
      else
        let (t'', w) := upsert t' k d ts src x in (r :: t'', w)
  end.

(** ** The world and the monad *)

Inductive http_result : Type :=
| NetError (msg : string)
| Response (status_code : Z) (body : option json).

Inductive log_record : Type :=
| Info_retrieved (n : Z) (what : string)
| Info_loaded_new_updated (what : string) (inserted_count updated_count : Z)
| Info_loaded_records (what : string) (n : Z)
| Info_quality_completed (checks : list (string * Z))
| Error_connection_failed (e : exn)
| Error_log_pipeline_run (e : exn)
| Error_extracting (what : string) (e : exn)
| Error_quality_check (e : exn)
| Error_extraction_summary (e : exn).

Inductive xcom_value : Type :=
| XInt (n : Z)
| XChecks (checks : list (string * Z)).

Record world : Type := mkWorld {
  committed : database;              (* what every new transaction sees *)
  open_connections : nat;            (* connections made and not yet closed *)
  next_xid : positive;               (* next transaction id *)
  faults : list (option string);     (* per database round trip: the error, if any *)
  clock : nat -> Z;                  (* successive clock readings, in seconds *)
  ticks : nat;
  api : string -> http_result;       (* answer of the upstream API per URL *)
  logs : list log_record;
  xcom : list (string * xcom_value)
}.

Definition M (A : Type) : Type := world -> result A * world.

Definition ret {A : Type} (a : A) : M A := fun w => (Ok a, w).

Definition raise {A : Type} (e : exn) : M A := fun w => (Raise e, w).

Definition bind {A B : Type} (m : M A) (f : A -> M B) : M B :=
  fun w =>
    match m w with
    | (Ok a, w') => f a w'
    | (Raise e, w') => (Raise e, w')
    end.

(** [try: m  except Exception as e: handler e] *)
Definition try_except {A : Type} (m : M A) (handler : exn -> M A) : M A :=
  fun w =>
    match m w with
    | (Ok a, w') => (Ok a, w')
    | (Raise e, w') => handler e w'
    end.

Definition lift {A : Type} (r : result A) : M A := fun w => (r, w).

Declare Scope monad_scope.
Delimit Scope monad_scope with monad.
Notation "x <- m ;; k" := (bind m (fun x => k))
  (at level 61, m at next level, right associativity) : monad_scope.
Notation "' pat <- m ;; k" := (bind m (fun x => match x with pat => k end))
  (at level 61, pat pattern, m at next level, right associativity) : monad_scope.
Notation "m ;; k" := (bind m (fun _ => k))
  (at level 61, right associativity) : monad_scope.
Open Scope monad_scope.

Definition set_committed (db : database) (w : world) : world :=
  mkWorld db (open_connections w) (next_xid w) (faults w) (clock w) (ticks w)
          (api w) (logs w) (xcom w).

Definition set_open_connections (n : nat) (w : world) : world :=
  mkWorld (committed w) n (next_xid w) (faults w) (clock w) (ticks w)
          (api w) (logs w) (xcom w).

Definition set_next_xid (x : positive) (w : world) : world :=
  mkWorld (committed w) (open_connections w) x (faults w) (clock w) (ticks w)
          (api w) (logs w) (xcom w).

Definition set_faults (f : list (option string)) (w : world) : world :=
  mkWorld (committed w) (open_connections w) (next_xid w) f (clock w) (ticks w)
          (api w) (logs w) (xcom w).

Definition set_ticks (n : nat) (w : world) : world :=
  mkWorld (committed w) (open_connections w) (next_xid w) (faults w) (clock w) n
          (api w) (logs w) (xcom w).

Definition set_logs (l : list log_record) (w : world) : world :=
  mkWorld (committed w) (open_connections w) (next_xid w) (faults w) (clock w)
          (ticks w) (api w) l (xcom w).

Definition set_xcom (x : list (string * xcom_value)) (w : world) : world :=
  mkWorld (committed w) (open_connections w) (next_xid w) (faults w) (clock w)
          (ticks w) (api w) (logs w) x.

(** [logger.info(...)], [logger.error(...)] *)
Definition logger (r : log_record) : M unit :=
  fun w => (Ok tt, set_logs (logs w ++ [r]) w).

(** [datetime.now()] on the client, [NOW()] on the server *)
Definition now : M Z :=
  fun w => (Ok (clock w (ticks w)), set_ticks (S (ticks w)) w).

(** One round trip to the database server: it goes through, or the driver
    raises what the environment scripted for it. *)
Definition round_trip : M unit :=
  fun w =>
    match faults w with
    | [] => (Ok tt, w)
    | None :: rest => (Ok tt, set_faults rest w)
    | Some msg :: rest => (Raise (OperationalError msg), set_faults rest w)
    end.

(** ** The database driver *)

(** A connection carries its transaction: the database as the transaction
    sees it (the committed state when it began, plus its own writes) and the
    transaction id.  The extractor runs one connection at a time and nothing
    else commits in between, so a commit publishes the working copy. *)
Record connection : Type := mkConn {
  work : database;
  xid : positive
}.

(** [psycopg2.connect] with the configured settings *)
Definition psycopg2_connect : M connection :=
  round_trip ;;
  fun w =>
    (Ok (mkConn (committed w) (next_xid w)),
     set_open_connections (S (open_connections w))
       (set_next_xid (Pos.succ (next_xid w)) w)).

(** [conn.cursor()] and [cursor.close()] stay on the client. *)
Definition cursor (conn : connection) : M unit := ret tt.
Definition cursor_close : M unit := ret tt.

(** [conn.commit()] *)
Definition commit (conn : connection) : M unit :=
  round_trip ;;
  fun w => (Ok tt, set_committed (work conn) w).

(** [conn.close()]: the transaction in progress, if any, is abandoned. *)
Definition close (conn : connection) : M unit :=
  fun w => (Ok tt, set_open_connections (Nat.pred (open_connections w)) w).

(** [cursor.fetchone()[0]] after a statement whose result set is [res] *)
Definition fetchone_0 {A : Type} (res : option A) : M A :=
  match res with
  | Some a => ret a
  | None => raise (DatabaseError "no results to fetch")
  end.

(** [INSERT INTO bronze.pipeline_metadata
       (pipeline_name, status, records_processed, error_message)
     VALUES (%s, %s, %s, %s)]; [run_date] takes its default, the server's
    clock. *)
Definition execute_insert_metadata (conn : connection) (name st : string)
    (records : Z) (error : option string) : M connection :=
  round_trip ;;
  ts <- now ;;
  ret (mkConn (add_run_log (mkRunLog name st records ts error) (work conn))
              (xid conn)).

(** *** Aggregates of the quality and summary queries *)

Definition count_where (p : row -> bool) (t : table) : Z :=
  Z.of_nat (List.length (filter p t)).

(** [COUNT( * )] *)
Definition count_star (t : table) : Z := Z.of_nat (List.length t).

(** [COUNT(DISTINCT id)] *)
Definition count_distinct_id (t : table) : Z :=
  Z.of_nat (List.length (nodup string_dec (map id t))).

(** [data->>'name' IS NULL OR data->>'date_utc' IS NULL] *)
Definition missing_data (r : row) : bool :=
  is_null (arrow_text (Some (data r)) "name")
  || is_null (arrow_text (Some (data r)) "date_utc").

(** [data->'spaceTrack'->>'DECAYED'] *)
Definition decayed (r : row) : option string :=
  arrow_text (arrow (Some (data r)) "spaceTrack") "DECAYED".

(** [CASE WHEN data->'spaceTrack'->>'DECAYED' = '0' THEN 1 END] is not NULL *)
Definition is_active (r : row) : bool := sql_text_is (decayed r) "0".

(** [CASE WHEN data->'spaceTrack'->>'DECAYED' = '1' THEN 1 END] is not NULL *)
Definition is_inactive (r : row) : bool := sql_text_is (decayed r) "1".

Definition seven_days : Z := 7 * 24 * 60 * 60.

(** [extracted_at >= NOW() - INTERVAL '7 days'] *)
Definition is_recent (server_now : Z) (r : row) : bool :=
  server_now - seven_days <=? extracted_at r.

(** [MAX(extracted_at)]: NULL on an empty table *)
Fixpoint max_extracted_at (t : table) : option Z :=
  match t with
  | [] => None
  | r :: t' =>
      match max_extracted_at t' with
      | None => Some (extracted_at r)
      | Some m => Some (Z.max (extracted_at r) m)
      end
  end.

(** [SELECT COUNT( * ), COUNT(DISTINCT id) FROM bronze.launches] *)
Definition execute_launch_counts (conn : connection) : M (Z * Z) :=
  round_trip ;;
  ret (count_star (launches (work conn)),
       count_distinct_id (launches (work conn))).

(** [SELECT COUNT( * ) FROM bronze.launches WHERE data->>'name' IS NULL OR ...] *)
Definition execute_missing_data (conn : connection) : M Z :=
  round_trip ;;
  ret (count_where missing_data (launches (work conn))).

(** [SELECT COUNT( * ) as total, COUNT(CASE ...) as active,
            COUNT(CASE ...) as inactive FROM bronze.starlink] *)
Definition execute_starlink_status (conn : connection) : M (Z * Z * Z) :=
  round_trip ;;
  ret (count_star (starlink (work conn)),
       count_where is_active (starlink (work conn)),
       count_where is_inactive (starlink (work conn))).

(** [SELECT COUNT( * ) FROM bronze.launches
     WHERE extracted_at >= NOW() - INTERVAL '7 days'] *)
Definition execute_recent_launches (conn : connection) : M Z :=
  round_trip ;;
  server_now <- now ;;
  ret (count_where (is_recent server_now) (launches (work conn))).

(** The five scalar subqueries of [get_extraction_summary]. *)
Definition execute_summary (conn : connection)
  : M (Z * Z * Z * option Z * option Z) :=
  round_trip ;;
  ret (count_star (launches (work conn)),
       count_star (starlink (work conn)),
       count_star (rockets (work conn)),
       max_extracted_at (launches (work conn)),
       max_extracted_at (starlink (work conn))).

(** ** Python dictionaries with string keys *)

Fixpoint dict_set {A : Type} (k : string) (v : A) (d : list (string * A))
  : list (string * A) :=
  match d with
  | [] => [(k, v)]
  | (k', v') :: d' =>
      if String.eqb k' k then (k', v) :: d' else (k', v') :: dict_set k v d'
  end.

(** [d.get(k, default)] *)
Definition dict_get {A : Type} (d : list (string * A)) (k : string) (default : A) : A :=
  match assoc k d with
  | Some v => v
  | None => default
  end.

(** ** HTTP *)

Record response : Type := mkResponse {
  status_code : Z;
  body : option json
}.

(** [requests.get(url, timeout=...)] *)
Definition requests_get (url : string) (timeout : Z) : M response :=
  fun w =>
    match api w url with
    | NetError msg => (Raise (RequestException msg), w)
    | Response code b => (Ok (mkResponse code b), w)
    end.

(** [response.raise_for_status()]: client and server error codes raise. *)
Definition raise_for_status (r : response) : M unit :=
  if (400 <=? status_code r) && (status_code r <? 600)
  then raise (HTTPError (status_code r))
  else ret tt.

(** [response.json()] *)
Definition response_json (r : response) : M json :=
  match body r with
  | Some v => ret v
  | None => raise JSONDecodeError
  end.

(** The keyword arguments Airflow passes to a task; [dag] holds
    [context.get('dag').dag_id] when the key is there. *)
Record context : Type := mkContext {
  dag : option string
}.

(** [context.get('dag').dag_id if context.get('dag') else 'manual'] *)
Definition dag_id_of (ctx : context) : string :=
  match dag ctx with
  | Some d => d
  | None => "manual"
  end.

(** [context['task_instance'].xcom_push(key=..., value=...)] *)
Definition xcom_push (key : string) (value : xcom_value) : M unit :=
  fun w => (Ok tt, set_xcom (xcom w ++ [(key, value)]) w).

Definition base_url : string := "https://api.spacexdata.com/v4".

(** ** [SpaceXExtractor]: connection and run ledger *)

(** [SpaceXExtractor.get_connection] *)
Definition get_connection : M connection :=
  try_except psycopg2_connect
    (fun e => logger (Error_connection_failed e) ;; raise e).

(** [SpaceXExtractor.log_pipeline_run] *)
Definition log_pipeline_run (dag_id task_id status : string) (records : Z)
    (error : option string) : M unit :=
  try_except
    (conn <- get_connection ;;
     cursor conn ;;
     conn <- execute_insert_metadata conn (dag_id ++ "." ++ task_id) status
               records error ;;
     commit conn ;;
     cursor_close ;;
     close conn)
    (fun e => logger (Error_log_pipeline_run e)).

(** ** [SpaceXExtractor.get_extraction_summary] *)

Inductive summary_value : Type :=
| SCount (n : Z)
| STime (t : option Z).

Definition get_extraction_summary : M (list (string * summary_value)) :=
  try_except
    (conn <- get_connection ;;
     cursor conn ;;
     result <- execute_summary conn ;;
     cursor_close ;;
     close conn ;;
     let '(r0, r1, r2, r3, r4) := result in
     ret [("launches_count", SCount r0);
          ("starlink_count", SCount r1);
          ("rockets_count", SCount r2);
          ("last_launch_update", STime r3);
          ("last_starlink_update", STime r4)])
    (fun e => logger (Error_extraction_summary e) ;; ret []).

(** ** [database_utils]: the quality gate *)

(** [database_utils.get_db_connection] *)
Definition get_db_connection : M connection := psycopg2_connect.

(** [database_utils.check_data_quality] *)
Definition check_data_quality (ctx : context) : M (list (string * Z)) :=
  try_except
    (conn <- get_db_connection ;;
     cursor conn ;;
     let checks := [] in
     counts <- execute_launch_counts conn ;;
     let '(total, unique) := counts in
     let checks := dict_set "launches_duplicates" (total - unique) checks in
     missing <- execute_missing_data conn ;;
     let checks := dict_set "launches_missing_data" missing checks in
     counts <- execute_starlink_status conn ;;
     let '(total, active, inactive) := counts in
     let checks := dict_set "starlink_total" total checks in
     let checks := dict_set "starlink_active" active checks in
     let checks := dict_set "starlink_inactive" inactive checks in
     recent <- execute_recent_launches conn ;;
     let checks := dict_set "recent_launches" recent checks in
     cursor_close ;;
     close conn ;;
     logger (Info_quality_completed checks) ;;
     ret checks)
    (fun e => logger (Error_quality_check e) ;; raise e).

(** ** [spacex_etl_dag.run_data_quality_checks]

    The task returns a message built from the results; the results stand for
    it here. *)
Definition run_data_quality_checks (ctx : context) : M (list (string * Z)) :=
  quality_results <- check_data_quality ctx ;;
  xcom_push "quality_checks" (XChecks quality_results) ;;
  if dict_get quality_results "launches_missing_data" 0 >? 50
  then raise (PlainException "Too many launches with missing data")
  else if dict_get quality_results "starlink_total" 0 =? 0
  then raise (PlainException "No Starlink satellite data found")
  else ret quality_results.

(** ** [SpaceXExtractor]: the three extractions *)

(** What the store makes of the value bound to the [id] parameter when the
    whole of it is a JSON string; other Python values are refused. *)
Definition text_id (v : json) : result string :=
  match v with
  | JStr s => Ok s
  | _ => Raise (DatabaseError "invalid value for column id")
  end.

Section Extraction.

(** The definitions of the [bronze] tables are not part of the sources: what
    the [id] column makes of the Python value bound to it (coercion to its
    type, or an error) is a parameter of the development. *)
Variable id_column : json -> result string.

(** [cursor.execute(<upsert into table t>, (id, data, extracted_at, source))].
    With [returning] the statement ends in [RETURNING (xmax = 0) AS inserted]
    and its result set is that one flag; without, there is no result set. *)
Definition execute_upsert (t : raw_table) (returning : bool) (conn : connection)
    (id_param data_param : json) (ts : Z) (src : string)
  : M (connection * option bool) :=
  round_trip ;;
  k <- lift (id_column id_param) ;;
  let (rows, written) :=
    upsert (get_table t (work conn)) k data_param ts src (xid conn) in
  ret (mkConn (set_table t rows (work conn)) (xid conn),
       if returning then Some (N.eqb (xmax written) 0) else None).

(** The loop of [extract_launches] and [extract_starlink]. *)
Fixpoint upsert_counting (t : raw_table) (conn : connection) (items : list json)
    (inserted_count updated_count : Z) : M (connection * Z * Z) :=
  match items with
  | [] => ret (conn, inserted_count, updated_count)
  | item :: rest =>
      id_param <- lift (getitem item "id") ;;
      ts <- now ;;
      r <- execute_upsert t true conn id_param item ts "spacex_api_v4" ;;
      is_inserted <- fetchone_0 (snd r) ;;
      if is_inserted
      then upsert_counting t (fst r) rest (inserted_count + 1) updated_count
      else upsert_counting t (fst r) rest inserted_count (updated_count + 1)
  end.

(** The loop of [extract_rockets]: the same statement without [RETURNING],
    and nothing is fetched. *)
Fixpoint upsert_plain (t : raw_table) (conn : connection) (items : list json)
  : M connection :=
  match items with
  | [] => ret conn
  | item :: rest =>
      id_param <- lift (getitem item "id") ;;
      ts <- now ;;
      r <- execute_upsert t false conn id_param item ts "spacex_api_v4" ;;
      upsert_plain t (fst r) rest
  end.

(** The [try] block shared by [extract_launches] and [extract_starlink],
    which differ in the endpoint, the timeout, the table and the names. *)
Definition extract_counting_body (t : raw_table) (path : string) (timeout : Z)
    (what task_id : string) (ctx : context) : M Z :=
  resp <- requests_get (base_url ++ path) timeout ;;
  raise_for_status resp ;;
  records <- response_json resp ;;
  n <- lift (py_len records) ;;
  logger (Info_retrieved n what) ;;
  conn <- get_connection ;;
  cursor conn ;;
  items <- lift (py_iter records) ;;
  r <- upsert_counting t conn items 0 0 ;;
  let '(conn, inserted_count, updated_count) := r in
  commit conn ;;
  cursor_close ;;
  close conn ;;
  logger (Info_loaded_new_updated what inserted_count updated_count) ;;
  log_pipeline_run (dag_id_of ctx) task_id "success" n None ;;
  ret n.

(** The [except Exception as e] block of the three extractions. *)
Definition extract_failed (what task_id : string) (ctx : context) (e : exn) : M Z :=
  logger (Error_extracting what e) ;;
  log_pipeline_run (dag_id_of ctx) task_id "failed" 0 (Some (str e)) ;;
  raise e.

Definition extract_counting (t : raw_table) (path : string) (timeout : Z)
    (what task_id : string) (ctx : context) : M Z :=
  try_except (extract_counting_body t path timeout what task_id ctx)
             (extract_failed what task_id ctx).

(** [SpaceXExtractor.extract_launches] *)
Definition extract_launches : context -> M Z :=
  extract_counting Launches "/launches" 60 "launches" "extract_launches".

(** [SpaceXExtractor.extract_starlink] *)
Definition extract_starlink : context -> M Z :=
  extract_counting Starlink "/starlink" 120 "satellites" "extract_starlink".

Definition extract_rockets_body (ctx : context) : M Z :=
  resp <- requests_get (base_url ++ "/rockets") 30 ;;
  raise_for_status resp ;;
  records <- response_json resp ;;
  n <- lift (py_len records) ;;
  logger (Info_retrieved n "rockets") ;;
  conn <- get_connection ;;
  cursor conn ;;
  items <- lift (py_iter records) ;;
  conn <- upsert_plain Rockets conn items ;;
  commit conn ;;
  cursor_close ;;
  close conn ;;
  logger (Info_loaded_records "rockets" n) ;;
  log_pipeline_run (dag_id_of ctx) "extract_rockets" "success" n None ;;
  ret n.

(** [SpaceXExtractor.extract_rockets] *)
Definition extract_rockets (ctx : context) : M Z :=
  try_except (extract_rockets_body ctx)
             (extract_failed "rockets" "extract_rockets" ctx).

Inductive extraction : Type := Extract_launches | Extract_starlink | Extract_rockets.

Definition run_extraction (x : extraction) : context -> M Z :=
  match x with
  | Extract_launches => extract_launches
  | Extract_starlink => extract_starlink
  | Extract_rockets => extract_rockets
  end.

Definition target (x : extraction) : raw_table :=
  match x with
  | Extract_launches => Launches
  | Extract_starlink => Starlink
  | Extract_rockets => Rockets
  end.

End Extraction.

(** ** The rest of the three files *)

(** The [logger.info] and [logger.error] lines of the functions of this part
    are not among the records a [world] keeps. *)
Definition logger_unrecorded : M unit := ret tt.

(** [cursor.execute("SELECT 1")] and [cursor.fetchone()] *)
Definition execute_select_1 (conn : connection) : M Z :=
  round_trip ;; ret 1.

(** [spacex_extractor.test_connection] *)
Definition test_connection : M bool :=
  try_except
    (conn <- get_connection ;;
     cursor conn ;;
     result <- execute_select_1 conn ;;
     cursor_close ;;
     close conn ;;
     logger_unrecorded ;;
     ret true)
    (fun e => logger_unrecorded ;; ret false).

(** [spacex_etl_dag.test_database_connection] *)
Definition test_database_connection (ctx : context) : M string :=
  ok <- test_connection ;;
  if negb ok
  then raise (PlainException "Database connection test failed")
  else ret "Database connection successful".

Definition one_day : Z := 24 * 60 * 60.

(** [run_date >= NOW() - INTERVAL '24 hours'] *)
Definition in_last_day (server_now : Z) (r : run_log) : bool :=
  server_now - one_day <=? run_date r.

(** [ORDER BY run_date DESC]: insertion into a list in descending order of
    [run_date].  SQL leaves the order of rows with equal [run_date] open;
    this is one of the orders it allows. *)
Fixpoint insert_by_run_date (r : run_log) (l : list run_log) : list run_log :=
  match l with
  | [] => [r]
  | h :: t =>
      if run_date h <=? run_date r then r :: h :: t
      else h :: insert_by_run_date r t
  end.

Definition order_by_run_date_desc (l : list run_log) : list run_log :=
  fold_right insert_by_run_date [] l.

(** [SELECT pipeline_name, status, records_processed, run_date, error_message
     FROM bronze.pipeline_metadata
     WHERE run_date >= NOW() - INTERVAL '24 hours'
     ORDER BY run_date DESC LIMIT 10] and [cursor.fetchall()] *)
Definition execute_recent_runs (conn : connection) : M (list run_log) :=
  round_trip ;;
  server_now <- now ;;
  ret (firstn 10
         (order_by_run_date_desc
            (filter (in_last_day server_now) (pipeline_metadata (work conn))))).

(** [database_utils.get_pipeline_status]; the value is the list under
    ['recent_runs'], each dictionary of the five columns being the row. *)
Definition get_pipeline_status : M (list run_log) :=
  try_except
    (conn <- get_db_connection ;;
     cursor conn ;;
     rows <- execute_recent_runs conn ;;
     let runs := map (fun row => row) rows in
     cursor_close ;;
     close conn ;;
     ret runs)
    (fun e => logger_unrecorded ;; ret []).

Section DagTasks.

Variable id_column : json -> result string.

(** [spacex_etl_dag.extract_spacex_launches] *)
Definition extract_spacex_launches (ctx : context) : M string :=
  records_count <- extract_launches id_column ctx ;;
  xcom_push "launches_count" (XInt records_count) ;;
  ret ("Extracted " ++ decimal records_count ++ " launch records").

(** [spacex_etl_dag.extract_spacex_starlink] *)
Definition extract_spacex_starlink (ctx : context) : M string :=
  records_count <- extract_starlink id_column ctx ;;
  xcom_push "starlink_count" (XInt records_count) ;;
  ret ("Extracted " ++ decimal records_count ++ " Starlink satellite records").

(** [spacex_etl_dag.extract_spacex_rockets] *)
Definition extract_spacex_rockets (ctx : context) : M string :=
  records_count <- extract_rockets id_column ctx ;;
  xcom_push "rockets_count" (XInt records_count) ;;
  ret ("Extracted " ++ decimal records_count ++ " rocket records").

(** The task callable of each extraction, and the XCom key it pushes. *)
Definition run_extraction_task (x : extraction) : context -> M string :=
  match x with
  | Extract_launches => extract_spacex_launches
  | Extract_starlink => extract_spacex_starlink
  | Extract_rockets => extract_spacex_rockets
  end.

End DagTasks.

Definition xcom_key (x : extraction) : string :=
  match x with
  | Extract_launches => "launches_count"
  | Extract_starlink => "starlink_count"
  | Extract_rockets => "rockets_count"
  end.

(** ** The task graph of [spacex_etl_dag] *)

Module Dag.

Inductive task : Type :=
| test_db_connection
| extract_launches
| extract_starlink
| extract_rockets
| data_quality_checks
| extraction_summary
| silver_transformations
| gold_analytics
| dbt_tests
| generate_docs
| final_validation
| completion_notification.

Definition all_tasks : list task :=
  [test_db_connection; extract_launches; extract_starlink; extract_rockets;
   data_quality_checks; extraction_summary; silver_transformations;
   gold_analytics; dbt_tests; generate_docs; final_validation;
   completion_notification].

Definition task_eqb (a b : task) : bool :=
  match a, b with
  | test_db_connection, test_db_connection
  | extract_launches, extract_launches
  | extract_starlink, extract_starlink
  | extract_rockets, extract_rockets
  | data_quality_checks, data_quality_checks
  | extraction_summary, extraction_summary
  | silver_transformations, silver_transformations
  | gold_analytics, gold_analytics
  | dbt_tests, dbt_tests
  | generate_docs, generate_docs
  | final_validation, final_validation
  | completion_notification, completion_notification => true
  | _, _ => false
  end.

(** [ups >> downs]: every task of [downs] is set downstream of every task of
    [ups]. *)
Definition rshift (ups downs : list task) : list (task * task) :=
  list_prod ups downs.

(** The dependency statements at the end of the file, in order. *)
Definition edges : list (task * task) :=
  (rshift [test_db_connection] [extract_launches; extract_starlink; extract_rockets]
   ++ rshift [extract_launches; extract_starlink; extract_rockets] [data_quality_checks]
   ++ rshift [data_quality_checks] [extraction_summary]
   ++ rshift [extraction_summary] [silver_transformations]
   ++ rshift [silver_transformations] [gold_analytics]
   ++ rshift [gold_analytics] [dbt_tests; generate_docs]
   ++ rshift [dbt_tests; generate_docs] [final_validation]
   ++ rshift [final_validation] [completion_notification])%list.

(** Direct upstream tasks of [t]. *)
Definition upstream (t : task) : list task :=
  map fst (filter (fun e => task_eqb (snd e) t) edges).

(** [a] is upstream of [b], directly or through other tasks. *)
Inductive before : task -> task -> Prop :=
| before_edge a b : In (a, b) edges -> before a b
| before_trans a b c : before a b -> before b c -> before a c.

(** The position of a task along the pipeline. *)
Definition stage (t : task) : nat :=
  match t with
  | test_db_connection => 0
  | extract_launches | extract_starlink | extract_rockets => 1
  | data_quality_checks => 2
  | extraction_summary => 3
  | silver_transformations => 4
  | gold_analytics => 5
  | dbt_tests | generate_docs => 6
  | final_validation => 7
  | completion_notification => 8
  end.

End Dag.

(** ** Notions used to state the properties *)

(** A satellite row is unknown when it is neither active nor explicitly
    decayed. *)
Definition is_unknown (r : row) : bool :=
  negb (is_active r) && negb (is_inactive r).

Definition empty_database : database := mkDatabase [] [] [] [].

(** The raw tables hold the same rows in both databases. *)
Definition same_raw (a b : database) : Prop :=
  launches a = launches b /\ starlink a = starlink b /\ rockets a = rockets b.

(** Whether the first two round trips (here: connect, one statement) go
    through under the fault script [f]. *)
Definition first_two_ok (f : list (option string)) : bool :=
  match f with
  | [] => true
  | Some _ :: _ => false
  | None :: f1 =>
      match f1 with
      | Some _ :: _ => false
      | _ => true
      end
  end.

(** The mapping returned on the success path. *)
Definition summary_of (db : database) : list (string * summary_value) :=
  [("launches_count", SCount (count_star (launches db)));
   ("starlink_count", SCount (count_star (starlink db)));
   ("rockets_count", SCount (count_star (rockets db)));
   ("last_launch_update", STime (max_extracted_at (launches db)));
   ("last_starlink_update", STime (max_extracted_at (starlink db)))].

(** The claim as the specification words it: the mapping gives, for each of
    the three raw tables, its row count and its last-updated timestamp. *)
Definition covers_all_tables (s : list (string * summary_value)) (db : database)
  : Prop :=
  forall t : raw_table,
    (exists key, assoc key s = Some (SCount (count_star (get_table t db))))
    /\ (exists key, assoc key s = Some (STime (max_extracted_at (get_table t db)))).

Definition has_id (k : string) (t : table) : bool :=
  existsb (fun r => String.eqb (id r) k) t.

Definition find_row (k : string) (t : table) : option row :=
  find (fun r => String.eqb (id r) k) t.

Definition frame {A : Type} (R : world -> world -> Prop) (m : M A) : Prop :=
  forall w r w', m w = (r, w') -> R w w'.

(** Only the fault script and the clock position move. *)
Definition quiet (w w' : world) : Prop :=
  committed w' = committed w
  /\ open_connections w' = open_connections w
  /\ next_xid w' = next_xid w
  /\ clock w' = clock w
  /\ api w' = api w
  /\ logs w' = logs w
  /\ xcom w' = xcom w.

(** The committed database stays as it is. *)
Definition keeps_committed (w w' : world) : Prop := committed w' = committed w.

(** A computation that, when it raises, has left the committed database as
    it was. *)
Definition raise_keeps {A : Type} (m : M A) : Prop :=
  forall w e w', m w = (Raise e, w') -> committed w' = committed w.

Definition mem (k : string) (l : list string) : bool := existsb (String.eqb k) l.

(** How many of [keys], taken in order, are not yet present when their turn
    comes: the writes that meet no row with their id. *)
Fixpoint fresh_count (present keys : list string) : Z :=
  match keys with
  | [] => 0
  | k :: rest =>
      if mem k present then fresh_count present rest
      else 1 + fresh_count (present ++ [k]) rest
  end.

(** One write of a batch: key, payload, timestamp. *)
Definition entry : Type := (string * json * Z)%type.
Definition entry_key (e : entry) : string := fst (fst e).
Definition entry_payload (e : entry) : json := snd (fst e).
Definition entry_time (e : entry) : Z := snd e.

(** The statements of one batch, run in order by transaction [x]. *)
Fixpoint upsert_all (t : table) (entries : list entry) (x : positive) : table :=
  match entries with
  | [] => t
  | e :: rest =>
      upsert_all
        (fst (upsert t (entry_key e) (entry_payload e) (entry_time e)
                     "spacex_api_v4" x))
        rest x
  end.

(** The payload of the last entry with key [k], if any. *)
Fixpoint last_payload (k : string) (entries : list entry) : option json :=
  match entries with
  | [] => None
  | e :: rest =>
      match last_payload k rest with
      | Some d => Some d
      | None => if String.eqb (entry_key e) k then Some (entry_payload e) else None
      end
  end.

(** Whether the three round trips of a ledger write (connect, insert,
    commit) all go through under the fault script [f]. *)
Definition ledger_write_ok (f : list (option string)) : bool :=
  match f with
  | [] => true
  | Some _ :: _ => false
  | None :: f1 =>
      match f1 with
      | [] => true
      | Some _ :: _ => false
      | None :: f2 =>
          match f2 with
          | Some _ :: _ => false
          | _ => true
          end
      end
  end.

Definition task_name (x : extraction) : string :=
  match x with
  | Extract_launches => "extract_launches"
  | Extract_starlink => "extract_starlink"
  | Extract_rockets => "extract_rockets"
  end.

Definition what_of (x : extraction) : string :=
  match x with
  | Extract_launches => "launches"
  | Extract_starlink => "satellites"
  | Extract_rockets => "rockets"
  end.

Definition endpoint (x : extraction) : string :=
  match x with
  | Extract_launches => base_url ++ "/launches"
  | Extract_starlink => base_url ++ "/starlink"
  | Extract_rockets => base_url ++ "/rockets"
  end.

(** The claim of the specification on the counts: an extraction that returns
    has reported an inserted and an updated count that add up to the number
    of records it returns. *)
Definition reports_partition (extract : context -> M Z) : Prop :=
  forall ctx w n w',
    extract ctx w = (Ok n, w') ->
    exists what i u,
      In (Info_loaded_new_updated what i u) (logs w') /\ i + u = n.

Definition good_status (code : Z) : Prop :=
  (400 <=? code) && (code <? 600) = false.

Section Batches.

Variable id_column : json -> result string.

(** The key under which a record is stored: [record['id']] as the [id]
    column takes it. *)
Definition record_key (item : json) : result string :=
  match getitem item "id" with
  | Ok v => id_column v
  | Raise e => Raise e
  end.

(** The entries are the given records, in order, each under its key. *)
Definition entries_of (items : list json) (entries : list entry) : Prop :=
  map entry_payload entries = items
  /\ Forall (fun e => record_key (entry_payload e) = Ok (entry_key e)) entries.

Definition keyed (item : json) : Prop := exists k, record_key item = Ok k.

(** The [try] block of each extraction. *)
Definition try_block (x : extraction) (ctx : context) : M Z :=
  match x with
  | Extract_launches =>
      extract_counting_body id_column Launches "/launches" 60 "launches"
        "extract_launches" ctx
  | Extract_starlink =>
      extract_counting_body id_column Starlink "/starlink" 120 "satellites"
        "extract_starlink" ctx
  | Extract_rockets => extract_rockets_body id_column ctx
  end.

(** Worlds that a sequence of extraction calls can reach from empty raw
    tables, the environment moving freely between the calls. *)
Inductive reachable : world -> Prop :=
| reachable_init w :
    committed w = empty_database -> reachable w
| reachable_env w w' :
    reachable w -> committed w' = committed w -> reachable w'
| reachable_extract w x ctx :
    reachable w -> reachable (snd (run_extraction id_column x ctx w)).

End Batches.

(** ** Sample data *)

Definition sample_clock (n : nat) : Z := Z.of_nat n + 1700000000.

Definition sample_world (db : database) (f : list (option string))
    (answer : string -> http_result) : world :=
  mkWorld db 0 3%positive f sample_clock 0 answer [] [].

Definition always (b : json) (url : string) : http_result :=
  Response 200 (Some b).

Definition launch_without_date (n : nat) : row :=
  mkRow (decimal (Z.of_nat n))
        (JObj [("id", JStr (decimal (Z.of_nat n))); ("name", JStr "Falcon Test")])
        1700000000 "spacex_api_v4" 0.

Definition satellite_without_flag (n : nat) : row :=
  mkRow (decimal (Z.of_nat n))
        (JObj [("id", JStr (decimal (Z.of_nat n))); ("spaceTrack", JObj [])])
        1700000000 "spacex_api_v4" 0.

(** 60 launch rows missing [date_utc], 5 satellite rows with no decay flag. *)
Definition sixty_missing : database :=
  mkDatabase (map launch_without_date (seq 0 60))
             (map satellite_without_flag (seq 0 5)) [] [].

Definition satellite (k : string) (flag : json) : row :=
  mkRow k (JObj [("id", JStr k); ("spaceTrack", JObj [("DECAYED", flag)])])
        1700000000 "spacex_api_v4" 0.

Definition mixed_constellation : database :=
  mkDatabase []
             [satellite "s1" (JNum 0); satellite "s2" (JNum 1);
              satellite "s3" (JStr "0"); satellite "s4" JNull;
              satellite_without_flag 5]
             [] [].

Definition pipeline_context : context := mkContext (Some "spacex_etl_pipeline").

Definition sample_launch (k name : string) : json :=
  JObj [("id", JStr k); ("name", JStr name); ("date_utc", JStr "2024-01-01")].

(** A batch with a repeated id. *)
Definition batch_with_duplicate : json :=
  JArr [sample_launch "L1" "Falcon Test"; sample_launch "L2" "Starlink 4-1";
        sample_launch "L1" "Falcon Test v2"].

(** A batch whose second record has no id. *)
Definition batch_with_bad_record : json :=
  JArr [sample_launch "L1" "Falcon Test"; JObj [("name", JStr "no id")]].

Definition unreachable_api (url : string) : http_result :=
  NetError "HTTPSConnectionPool: Read timed out".

Definition connection_lost : option string :=
  Some "server closed the connection unexpectedly".

(** One row in each raw table, extracted at different times. *)
Definition three_tables : database :=
  mkDatabase [mkRow "L1" (sample_launch "L1" "Falcon Test") 5 "spacex_api_v4" 0]
             [mkRow "S1" (JObj [("id", JStr "S1")]) 6 "spacex_api_v4" 0]
             [mkRow "R1" (JObj [("id", JStr "R1")]) 7 "spacex_api_v4" 0]
             [].

(** The world in which an extraction is called again: the database that the
    earlier call committed, a fresh answer from the API. *)
Definition next_run (db : database) (answer : string -> http_result) : world :=
  mkWorld db 0 10%positive [] sample_clock 100 answer [] [].

Definition sixty_missing_checks : list (string * Z) :=
  [("launches_duplicates", 0); ("launches_missing_data", 60);
   ("starlink_total", 5); ("starlink_active", 0);
   ("starlink_inactive", 0); ("recent_launches", 60)].

Definition mixed_constellation_checks : list (string * Z) :=
  [("launches_duplicates", 0); ("launches_missing_data", 0);
   ("starlink_total", 5); ("starlink_active", 2);
   ("starlink_inactive", 1); ("recent_launches", 0)].

Definition gate_world (db : database) : world := sample_world db [] (always JNull).

Definition duplicate_run : world :=
  sample_world empty_database [] (always batch_with_duplicate).

Definition after_duplicate_run : world :=
  snd (run_extraction text_id Extract_launches pipeline_context duplicate_run).

Definition fresh_connection : connection := mkConn empty_database 3%positive.

Definition one_launch_written : connection :=
  mkConn (mkDatabase
            [mkRow "L1" (sample_launch "L1" "Falcon Test") 0 "spacex_api_v4" 0]
            [] [] [])
         3%positive.

Definition first_run : world :=
  sample_world empty_database []
    (always (JArr [sample_launch "L1" "Falcon Test"])).

Definition second_answer : string -> http_result :=
  always (JArr [sample_launch "L1" "Falcon Test v2"]).

Definition api_down : world := sample_world empty_database [] unreachable_api.

Definition bad_record_run : world :=
  sample_world empty_database [] (always batch_with_bad_record).

(** ** Notions for the properties of the rest of the code *)

(** Frame used in the proofs about the extractor and [database_utils]: XCom
    is as before; the remaining parts hold of every computation built from
    the primitives above (the environment is read, never replaced; log
    records are appended; time, transaction ids and the fault script only
    move on) and are carried along for the induction. *)
Definition tame (w w' : world) : Prop :=
  xcom w' = xcom w
  /\ api w' = api w
  /\ clock w' = clock w
  /\ (exists extra, logs w' = (logs w ++ extra)%list)
  /\ (ticks w <= ticks w')%nat
  /\ (next_xid w <= next_xid w')%positive
  /\ (faults w = [] -> faults w' = []).

(** The error with which the fetch part of an extraction ends on the answer
    [a] of the API, if it does: network failure, error status, body that is
    no JSON, body without a length. *)
Definition fetch_error (a : http_result) : option exn :=
  match a with
  | NetError msg => Some (RequestException msg)
  | Response code b =>
      if (400 <=? code) && (code <? 600) then Some (HTTPError code)
      else match b with
           | None => Some JSONDecodeError
           | Some v =>
               match py_len v with
               | Raise e => Some e
               | Ok _ => None
               end
           end
  end.

(** The ledger row that records the outcome [r] of extraction [x]. *)
Definition outcome_entry (ctx : context) (x : extraction) (r : result Z) (ts : Z)
  : run_log :=
  match r with
  | Ok n => mkRunLog (dag_id_of ctx ++ "." ++ task_name x) "success" n ts None
  | Raise e =>
      mkRunLog (dag_id_of ctx ++ "." ++ task_name x) "failed" 0 ts (Some (str e))
  end.

(** [b] is not newer than [a]. *)
Definition not_newer (a b : run_log) : Prop := run_date b <= run_date a.

(** The key of the summary under which the row count of a table is. *)
Definition count_key (t : raw_table) : string :=
  match t with
  | Launches => "launches_count"
  | Starlink => "starlink_count"
  | Rockets => "rockets_count"
  end.

(** A row as this core writes it: stored under the key of its own payload,
    tagged with the one provenance the extractions use. *)
Definition written_by_core (id_column : json -> result string) (r : row) : Prop :=
  record_key id_column (data r) = Ok (id r)
  /\ source_system r = "spacex_api_v4".

(** More sample worlds. *)
Definition server_error_api (url : string) : http_result :=
  Response 503 (Some (JObj [("error", JStr "Service Unavailable")])).

Definition rerun_on_three_tables : world :=
  sample_world three_tables [] (always batch_with_duplicate).

Definition empty_answer_run : world :=
  sample_world three_tables [] (always (JArr [])).

Definition server_error_run : world :=
  sample_world three_tables [] server_error_api.

Definition stored_falcon_v2 : row :=
  mkRow "L1" (sample_launch "L1" "Falcon Test v2") 1700000002 "spacex_api_v4" 3.

(** The database, the open connections and the next transaction id are as
    they were, and an exhausted fault script stays so. *)
Definition settled (w w' : world) : Prop :=
  committed w' = committed w
  /\ open_connections w' = open_connections w
  /\ next_xid w' = next_xid w
  /\ (faults w = [] -> faults w' = []).

(** * Properties *)

(** ** Stepping through monadic code *)

Lemma bind_Ok_inv {A B : Type} (m : M A) (f : A -> M B) w b w' :
  bind m f w = (Ok b, w') ->
  exists a w1, m w = (Ok a, w1) /\ f a w1 = (Ok b, w').
Proof.
  unfold bind. destruct (m w) as [[a | e] w1]; intros H.
  - exists a, w1. split; [reflexivity | exact H].
  - discriminate H.
Qed.

Lemma bind_Raise_inv {A B : Type} (m : M A) (f : A -> M B) w e w' :
  bind m f w = (Raise e, w') ->
  m w = (Raise e, w') \/ exists a w1, m w = (Ok a, w1) /\ f a w1 = (Raise e, w').
Proof.
  unfold bind. destruct (m w) as [[a | e0] w1]; intros H.
  - right. exists a, w1. split; [reflexivity | exact H].
  - left. injection H as -> ->. reflexivity.
Qed.

Lemma bind_eq_Ok {A B : Type} (m : M A) (f : A -> M B) w a w1 :
  m w = (Ok a, w1) -> bind m f w = f a w1.
Proof. unfold bind. intros ->. reflexivity. Qed.

Lemma bind_eq_Raise {A B : Type} (m : M A) (f : A -> M B) w e w1 :
  m w = (Raise e, w1) -> bind m f w = (Raise e, w1).
Proof. unfold bind. intros ->. reflexivity. Qed.

Lemma assoc_In {A : Type} (k : string) (m : list (string * A)) (v : A) :
  assoc k m = Some v -> In v (map snd m).
Proof.
  induction m as [| [k' v'] m IH]; cbn [assoc map snd]; [discriminate |].
  destruct (String.eqb k' k).
  - intros H. injection H as ->. left. reflexivity.
  - intros H. right. exact (IH H).
Qed.

Lemma run_result {A : Type} (m : M A) (w : world) (r : result A) :
  fst (m w) = r -> m w = (r, snd (m w)).
Proof. destruct (m w) as [r0 w0]. cbn. intros ->. reflexivity. Qed.

(** Case analysis on the fault script, one round trip at a time. *)
Ltac fault_case :=
  match goal with
  | |- context [match ?l with [] => _ | _ :: _ => _ end] =>
      is_var l; destruct l as [| [?msg |] ?rest]; cbn
  | H : context [match ?l with [] => _ | _ :: _ => _ end] |- _ =>
      is_var l; destruct l as [| [?msg |] ?rest]; cbn in H
  end.

Ltac inv_pair H := injection H as ?; subst.

(** ** The run ledger *)

(** C5: [log_pipeline_run] returns normally on every input and in every
    world, whatever round trip of its connection, insert or commit fails;
    the raw tables are untouched and the ledger gains its one row or
    nothing. *)
Theorem log_pipeline_run_never_raises :
  forall (dag_id task_id st : string) (records : Z) (error : option string)
         (w : world),
  exists w',
    log_pipeline_run dag_id task_id st records error w = (Ok tt, w')
    /\ same_raw (committed w') (committed w)
    /\ (pipeline_metadata (committed w') = pipeline_metadata (committed w)
        \/ exists ts,
             pipeline_metadata (committed w')
             = (pipeline_metadata (committed w)
                ++ [mkRunLog (dag_id ++ "." ++ task_id) st records ts error])%list).
Proof.
  intros dag_id task_id st records error [db oc nx fl clk tk ap lg xc].
  unfold log_pipeline_run, try_except, get_connection, try_except,
    psycopg2_connect, execute_insert_metadata, commit, close, cursor,
    cursor_close, now, logger, raise, ret, bind, round_trip, same_raw.
  cbn.
  repeat fault_case;
    (eexists; split; [reflexivity | cbn; split; [auto | eauto]]).
Qed.

(** ** The extraction summary reader *)

(** C9, as amended: the summary reader never raises and leaves the committed
    database unchanged.  When the connection and the query both go through
    it returns the three row counts with the last-updated timestamps of
    launches and starlink (none for rockets); when the connection or the
    query fails it returns the empty mapping, and in no other case: the
    mapping is empty exactly when one of the two failed. *)
Theorem get_extraction_summary_never_raises :
  forall w : world,
  exists s w',
    get_extraction_summary w = (Ok s, w')
    /\ committed w' = committed w
    /\ (if first_two_ok (faults w)
        then s = [("launches_count",
                   SCount (count_star (launches (committed w))));
                  ("starlink_count",
                   SCount (count_star (starlink (committed w))));
                  ("rockets_count",
                   SCount (count_star (rockets (committed w))));
                  ("last_launch_update",
                   STime (max_extracted_at (launches (committed w))));
                  ("last_starlink_update",
                   STime (max_extracted_at (starlink (committed w))))]
             /\ s = summary_of (committed w)
        else s = [])
    /\ (s = [] <-> first_two_ok (faults w) = false).
Proof.
  intros [db oc nx fl clk tk ap lg xc].
  unfold get_extraction_summary, try_except, get_connection, try_except,
    psycopg2_connect, execute_summary, close, cursor, cursor_close, logger,
    raise, ret, bind, round_trip, summary_of.
  cbn.
  repeat fault_case;
    (do 2 eexists; split; [reflexivity |]; cbn;
     split; [reflexivity |];
     split; [first [reflexivity | split; reflexivity] |];
     split; intros H; first [reflexivity | discriminate H]).
Qed.

(** ** The quality gate *)

Lemma filter_partition_length {A : Type} (p q : A -> bool) (l : list A) :
  (forall x, In x l -> p x && q x = false) ->
  (List.length (filter p l) + List.length (filter q l)
   + List.length (filter (fun x => negb (p x) && negb (q x)) l))%nat
  = List.length l.
Proof.
  induction l as [| x l IH]; intros Hdisj; [reflexivity |].
  assert (Hx : p x && q x = false) by (apply Hdisj; left; reflexivity).
  assert (Hl : forall y, In y l -> p y && q y = false)
    by (intros y Hy; apply Hdisj; right; exact Hy).
  specialize (IH Hl). simpl.
  destruct (p x), (q x); simpl in *; try discriminate; lia.
Qed.

Lemma active_inactive_disjoint (r : row) : is_active r && is_inactive r = false.
Proof.
  unfold is_active, is_inactive, sql_text_is.
  destruct (decayed r) as [s |]; [| reflexivity].
  destruct (String.eqb_spec s "0") as [-> | _]; reflexivity.
Qed.

Lemma status_counts_partition (t : table) :
  count_where is_active t + count_where is_inactive t + count_where is_unknown t
  = count_star t.
Proof.
  unfold count_where, count_star.
  rewrite <- (filter_partition_length is_active is_inactive t)
    by (intros; apply active_inactive_disjoint).
  unfold is_unknown. lia.
Qed.

Lemma count_where_nonneg (p : row -> bool) (t : table) : 0 <= count_where p t.
Proof. unfold count_where. lia. Qed.

(** What [check_data_quality] returns when it returns. *)
Lemma check_data_quality_Ok ctx w checks w' :
  check_data_quality ctx w = (Ok checks, w') ->
  exists server_now,
    checks =
      [("launches_duplicates",
        count_star (launches (committed w)) - count_distinct_id (launches (committed w)));
       ("launches_missing_data", count_where missing_data (launches (committed w)));
       ("starlink_total", count_star (starlink (committed w)));
       ("starlink_active", count_where is_active (starlink (committed w)));
       ("starlink_inactive", count_where is_inactive (starlink (committed w)));
       ("recent_launches",
        count_where (is_recent server_now) (launches (committed w)))]
    /\ committed w' = committed w
    /\ open_connections w' = open_connections w.
Proof.
  destruct w as [db oc nx fl clk tk ap lg xc].
  unfold check_data_quality, try_except, get_db_connection, psycopg2_connect,
    execute_launch_counts, execute_missing_data, execute_starlink_status,
    execute_recent_launches, close, cursor, cursor_close, now, logger, raise,
    ret, bind, round_trip.
  cbn. intros H.
  repeat fault_case; try discriminate H;
    inv_pair H; eexists; cbn; repeat split; reflexivity.
Qed.

(** C7: the satellite counts reported by the quality gate split the rows of
    [bronze.starlink] three ways: no row is both active and inactive,
    active + inactive + unknown = total, hence active + inactive <= total
    and unknown = total - active - inactive. *)
Theorem starlink_counts_three_way_partition :
  forall ctx w checks w',
    check_data_quality ctx w = (Ok checks, w') ->
    let t := starlink (committed w) in
    let total := dict_get checks "starlink_total" 0 in
    let active := dict_get checks "starlink_active" 0 in
    let inactive := dict_get checks "starlink_inactive" 0 in
    total = count_star t
    /\ active = count_where is_active t
    /\ inactive = count_where is_inactive t
    /\ (forall r, In r t ->
          (is_active r = true /\ is_inactive r = false /\ is_unknown r = false)
          \/ (is_active r = false /\ is_inactive r = true /\ is_unknown r = false)
          \/ (is_active r = false /\ is_inactive r = false /\ is_unknown r = true))
    /\ active + inactive + count_where is_unknown t = total
    /\ active + inactive <= total
    /\ count_where is_unknown t = total - active - inactive.
Proof.
  intros ctx w checks w' H.
  destruct (check_data_quality_Ok _ _ _ _ H) as (sn & -> & _ & _).
  cbn.
  pose proof (status_counts_partition (starlink (committed w))) as Hp.
  pose proof (count_where_nonneg is_unknown (starlink (committed w))) as Hu.
  repeat split; try reflexivity; try lia.
  intros r _. pose proof (active_inactive_disjoint r) as Hd.
  unfold is_unknown.
  destruct (is_active r), (is_inactive r); simpl in *; try discriminate; auto.
Qed.

Lemma run_data_quality_checks_decision ctx w checks w1 :
  check_data_quality ctx w = (Ok checks, w1) ->
  run_data_quality_checks ctx w =
    (if dict_get checks "launches_missing_data" 0 >? 50
     then Raise (PlainException "Too many launches with missing data")
     else if dict_get checks "starlink_total" 0 =? 0
     then Raise (PlainException "No Starlink satellite data found")
     else Ok checks,
     set_xcom (xcom w1 ++ [("quality_checks", XChecks checks)]) w1).
Proof.
  intros H. unfold run_data_quality_checks.
  rewrite (bind_eq_Ok _ _ _ _ _ H).
  unfold xcom_push, bind, raise, ret.
  destruct (dict_get checks "launches_missing_data" 0 >? 50); [reflexivity |].
  destruct (dict_get checks "starlink_total" 0 =? 0); reflexivity.
Qed.

(** C6: once the quality gate has returned its result, the calling task raises
    exactly when [launches_missing_data] is above 50 or [starlink_total] is
    0, whatever the other check values are; the two values are the counts of
    the tables; 60 launches with missing data raise the 50-row failure. *)
Theorem quality_gate_caller_decision :
  forall ctx w checks w1,
    check_data_quality ctx w = (Ok checks, w1) ->
    let missing := dict_get checks "launches_missing_data" 0 in
    let total := dict_get checks "starlink_total" 0 in
    ((exists e w', run_data_quality_checks ctx w = (Raise e, w'))
     <-> (missing > 50 \/ total = 0))
    /\ (~ (missing > 50 \/ total = 0) ->
        exists w', run_data_quality_checks ctx w = (Ok checks, w'))
    /\ missing = count_where missing_data (launches (committed w))
    /\ total = count_star (starlink (committed w))
    /\ (missing = 60 ->
        exists w',
          run_data_quality_checks ctx w
          = (Raise (PlainException "Too many launches with missing data"), w')).
Proof.
  intros ctx w checks w1 H missing total.
  pose proof (run_data_quality_checks_decision _ _ _ _ H) as Hrun.
  fold missing total in Hrun.
  assert (Hvals : missing = count_where missing_data (launches (committed w))
                  /\ total = count_star (starlink (committed w))).
  { destruct (check_data_quality_Ok _ _ _ _ H) as (sn & Hc & _ & _).
    subst missing total. rewrite Hc. cbn. split; reflexivity. }
  rewrite Z.gtb_ltb in Hrun.
  refine (conj _ (conj _ (conj (proj1 Hvals) (conj (proj2 Hvals) _)))).
  - destruct (Z.ltb_spec 50 missing) as [Hm | Hm].
    + split; [intros _; left; lia | intros _; do 2 eexists; exact Hrun].
    + destruct (Z.eqb_spec total 0) as [Ht | Ht].
      * split; [intros _; right; exact Ht | intros _; do 2 eexists; exact Hrun].
      * split.
        -- intros (e & w' & He). rewrite Hrun in He. discriminate He.
        -- intros [Hgt | H0]; [lia | contradiction].
  - intros Hn.
    destruct (Z.ltb_spec 50 missing) as [Hm | Hm];
      [exfalso; apply Hn; left; lia |].
    destruct (Z.eqb_spec total 0) as [Ht | Ht];
      [exfalso; apply Hn; right; exact Ht |].
    eexists. exact Hrun.
  - intros H60.
    destruct (Z.ltb_spec 50 missing) as [Hm | Hm]; [| lia].
    eexists. exact Hrun.
Qed.

(** ** The upsert statement on a table *)

Lemma has_id_In k t : has_id k t = true <-> In k (map id t).
Proof.
  unfold has_id. rewrite existsb_exists, in_map_iff.
  split; intros (r & H1 & H2).
  - exists r. apply String.eqb_eq in H2. auto.
  - exists r. subst k. rewrite String.eqb_refl. auto.
Qed.

Lemma has_id_false_In k t : has_id k t = false <-> ~ In k (map id t).
Proof.
  rewrite <- has_id_In. destruct (has_id k t); split; intros H;
    try discriminate; try reflexivity; try (intros Hc; discriminate Hc).
  exfalso. apply H. reflexivity.
Qed.

Lemma upsert_ids t k d ts src x :
  map id (fst (upsert t k d ts src x))
  = if has_id k t then map id t else (map id t ++ [k])%list.
Proof.
  induction t as [| r t IH]; [reflexivity |].
  simpl. destruct (String.eqb (id r) k) eqn:E; simpl; [reflexivity |].
  destruct (upsert t k d ts src x) as [t'' wr] eqn:U. simpl in *.
  rewrite IH. destruct (has_id k t); reflexivity.
Qed.

(** The flag computed by [RETURNING (xmax = 0)] says whether the id was
    absent from the table before the statement. *)
Lemma upsert_flag t k d ts src x :
  N.eqb (xmax (snd (upsert t k d ts src x))) 0 = negb (has_id k t).
Proof.
  induction t as [| r t IH]; [reflexivity |].
  simpl. destruct (String.eqb (id r) k) eqn:E; simpl; [reflexivity |].
  destruct (upsert t k d ts src x) as [t'' wr] eqn:U. simpl in *. exact IH.
Qed.

Lemma upsert_NoDup t k d ts src x :
  NoDup (map id t) -> NoDup (map id (fst (upsert t k d ts src x))).
Proof.
  intros H. rewrite upsert_ids. destruct (has_id k t) eqn:E; [exact H |].
  apply has_id_false_In in E.
  apply NoDup_app; [exact H | constructor; [intros [] | constructor] |].
  intros a Ha [Hk | []]. subst a. exact (E Ha).
Qed.

Lemma upsert_find_same t k d ts src x :
  exists r, find_row k (fst (upsert t k d ts src x)) = Some r
            /\ id r = k /\ data r = d /\ extracted_at r = ts.
Proof.
  induction t as [| r t IH].
  - simpl. rewrite String.eqb_refl. eexists. repeat split.
  - simpl. destruct (String.eqb (id r) k) eqn:E; simpl.
    + rewrite E. eexists. repeat split. simpl. apply String.eqb_eq. exact E.
    + destruct (upsert t k d ts src x) as [t'' wr] eqn:U. simpl in *.
      rewrite E. exact IH.
Qed.

Lemma upsert_find_other t k d ts src x k' :
  k' <> k ->
  find_row k' (fst (upsert t k d ts src x)) = find_row k' t.
Proof.
  intros Hne. induction t as [| r t IH].
  - simpl. destruct (String.eqb_spec k k'); [congruence | reflexivity].
  - simpl. destruct (String.eqb (id r) k) eqn:E; simpl.
    + apply String.eqb_eq in E.
      destruct (String.eqb_spec (id r) k'); [congruence | reflexivity].
    + destruct (upsert t k d ts src x) as [t'' wr] eqn:U. simpl in *.
      rewrite IH. reflexivity.
Qed.

Lemma raw_table_eq_dec (a b : raw_table) : {a = b} + {a <> b}.
Proof. decide equality. Qed.

Lemma get_set_table_same t rows db : get_table t (set_table t rows db) = rows.
Proof. destruct t; reflexivity. Qed.

Lemma get_set_table_other t t' rows db :
  t' <> t -> get_table t' (set_table t rows db) = get_table t' db.
Proof. destruct t, t'; intros H; try reflexivity; congruence. Qed.

Lemma metadata_set_table t rows db :
  pipeline_metadata (set_table t rows db) = pipeline_metadata db.
Proof. destruct t; reflexivity. Qed.

(** [COUNT( * ) - COUNT(DISTINCT id)] is zero exactly on duplicate-free ids. *)
Lemma no_duplicates_count (t : table) :
  NoDup (map id t) -> count_star t - count_distinct_id t = 0.
Proof.
  intros H. unfold count_star, count_distinct_id.
  rewrite (nodup_fixed_point string_dec H), length_map. lia.
Qed.

(** ** Frames: what a computation leaves alone, whatever its outcome *)

Lemma quiet_refl w : quiet w w.
Proof. repeat split. Qed.

Lemma quiet_trans w1 w2 w3 : quiet w1 w2 -> quiet w2 w3 -> quiet w1 w3.
Proof.
  unfold quiet. intros (a1 & a2 & a3 & a4 & a5 & a6 & a7)
    (b1 & b2 & b3 & b4 & b5 & b6 & b7).
  repeat split; congruence.
Qed.

Lemma quiet_keeps w w' : quiet w w' -> keeps_committed w w'.
Proof. intros H. exact (proj1 H). Qed.

Section Frames.

Context {R : world -> world -> Prop}.
Hypothesis R_refl : forall w, R w w.
Hypothesis R_trans : forall w1 w2 w3, R w1 w2 -> R w2 w3 -> R w1 w3.

Lemma frame_ret {A : Type} (a : A) : frame R (ret a).
Proof. intros w r w' H. injection H as _ <-. apply R_refl. Qed.

Lemma frame_raise {A : Type} (e : exn) : frame R (@raise A e).
Proof. intros w r w' H. injection H as _ <-. apply R_refl. Qed.

Lemma frame_lift {A : Type} (x : result A) : frame R (lift x).
Proof. intros w r w' H. injection H as _ <-. apply R_refl. Qed.

Lemma frame_bind {A B : Type} (m : M A) (f : A -> M B) :
  frame R m -> (forall a, frame R (f a)) -> frame R (bind m f).
Proof.
  intros Hm Hf w r w'. unfold bind.
  destruct (m w) as [[a | e] w1] eqn:E; intros H.
  - eapply R_trans; [exact (Hm _ _ _ E) | exact (Hf a _ _ _ H)].
  - injection H as _ <-. exact (Hm _ _ _ E).
Qed.

Lemma frame_try_except {A : Type} (m : M A) (h : exn -> M A) :
  frame R m -> (forall e, frame R (h e)) -> frame R (try_except m h).
Proof.
  intros Hm Hh w r w'. unfold try_except.
  destruct (m w) as [[a | e] w1] eqn:E; intros H.
  - injection H as _ <-. exact (Hm _ _ _ E).
  - eapply R_trans; [exact (Hm _ _ _ E) | exact (Hh e _ _ _ H)].
Qed.

End Frames.

Lemma frame_weaken {A : Type} (R S : world -> world -> Prop) (m : M A) :
  (forall w w', R w w' -> S w w') -> frame R m -> frame S m.
Proof. intros HRS Hm w r w' H. apply HRS. exact (Hm _ _ _ H). Qed.

Lemma round_trip_quiet : frame quiet round_trip.
Proof.
  intros w r w'. unfold round_trip.
  destruct (faults w) as [| [msg |] rest]; intros H; injection H as _ <-;
    repeat split.
Qed.

Lemma now_quiet : frame quiet now.
Proof. intros w r w' H. injection H as _ <-. repeat split. Qed.

Lemma requests_get_pure url timeout : frame eq (requests_get url timeout).
Proof.
  intros w r w'. unfold requests_get.
  destruct (api w url); intros H; injection H as _ <-; reflexivity.
Qed.

Lemma raise_for_status_pure resp : frame eq (raise_for_status resp).
Proof.
  unfold raise_for_status.
  destruct ((400 <=? status_code resp) && (status_code resp <? 600));
    intros w r w' H; injection H as _ <-; reflexivity.
Qed.

Lemma response_json_pure resp : frame eq (response_json resp).
Proof.
  unfold response_json.
  destruct (body resp); intros w r w' H; injection H as _ <-; reflexivity.
Qed.

Lemma lift_pure {A : Type} (x : result A) : frame eq (lift x).
Proof. intros w r w' H. injection H as _ <-. reflexivity. Qed.

Lemma fetchone_0_quiet {A : Type} (res : option A) : frame quiet (fetchone_0 res).
Proof.
  destruct res; [apply frame_ret | apply frame_raise]; apply quiet_refl.
Qed.

Lemma keeps_committed_refl w : keeps_committed w w.
Proof. reflexivity. Qed.

Lemma keeps_committed_trans w1 w2 w3 :
  keeps_committed w1 w2 -> keeps_committed w2 w3 -> keeps_committed w1 w3.
Proof. unfold keeps_committed. congruence. Qed.

Lemma logger_keeps l : frame keeps_committed (logger l).
Proof. intros w r w' H. injection H as _ <-. reflexivity. Qed.

Lemma psycopg2_connect_keeps : frame keeps_committed psycopg2_connect.
Proof.
  intros w r w'. unfold psycopg2_connect, bind, round_trip.
  destruct (faults w) as [| [msg |] rest]; intros H; injection H as _ <-;
    reflexivity.
Qed.

Lemma get_connection_keeps : frame keeps_committed get_connection.
Proof.
  apply (frame_try_except keeps_committed_trans).
  - apply psycopg2_connect_keeps.
  - intros e. apply (frame_bind keeps_committed_trans).
    + apply logger_keeps.
    + intros _. apply (frame_raise keeps_committed_refl).
Qed.

Lemma close_keeps conn : frame keeps_committed (close conn).
Proof. intros w r w' H. injection H as _ <-. reflexivity. Qed.

(** ** The upsert loops *)

Lemma has_id_mem k t : has_id k t = mem k (map id t).
Proof.
  unfold has_id, mem. induction t as [| r t IH]; [reflexivity |].
  simpl. rewrite IH, (String.eqb_sym (id r) k). reflexivity.
Qed.

Lemma fresh_count_bounds present keys :
  0 <= fresh_count present keys <= Z.of_nat (List.length keys).
Proof.
  revert present.
  induction keys as [| k keys IH]; intros present; cbn [fresh_count List.length].
  - lia.
  - destruct (mem k present).
    + specialize (IH present). lia.
    + specialize (IH (present ++ [k])%list). lia.
Qed.

Lemma upsert_all_NoDup entries x : forall t,
  NoDup (map id t) -> NoDup (map id (upsert_all t entries x)).
Proof.
  induction entries as [| e entries IH]; intros t H; simpl; [exact H |].
  apply IH. apply upsert_NoDup. exact H.
Qed.

(** Last write per id wins; ids outside the batch keep their row. *)
Lemma upsert_all_last_wins entries x : forall t k,
  match last_payload k entries with
  | Some d => exists r, find_row k (upsert_all t entries x) = Some r
                        /\ id r = k /\ data r = d
  | None => find_row k (upsert_all t entries x) = find_row k t
  end.
Proof.
  induction entries as [| e entries IH]; intros t k; simpl; [reflexivity |].
  specialize (IH (fst (upsert t (entry_key e) (entry_payload e) (entry_time e)
                              "spacex_api_v4" x)) k).
  destruct (last_payload k entries) as [d |]; [exact IH |].
  destruct (String.eqb_spec (entry_key e) k) as [<- | Hne].
  - rewrite IH.
    destruct (upsert_find_same t (entry_key e) (entry_payload e) (entry_time e)
                "spacex_api_v4" x) as (r & Hr & Hid & Hd & _).
    exists r. auto.
  - rewrite IH. apply upsert_find_other. congruence.
Qed.

Lemma upsert_length t k d ts src x :
  List.length (fst (upsert t k d ts src x))
  = if has_id k t then List.length t else S (List.length t).
Proof.
  rewrite <- (length_map id (fst _)), upsert_ids.
  destruct (has_id k t); [apply length_map |].
  rewrite length_app, length_map. simpl. lia.
Qed.

Lemma upsert_all_length entries x : forall t,
  Z.of_nat (List.length (upsert_all t entries x))
  = Z.of_nat (List.length t) + fresh_count (map id t) (map entry_key entries).
Proof.
  induction entries as [| e entries IH]; intros t;
    cbn [upsert_all map fresh_count]; [lia |].
  rewrite IH, upsert_ids, upsert_length, <- has_id_mem.
  destruct (has_id (entry_key e) t); lia.
Qed.

Lemma set_get_table t db : set_table t (get_table t db) db = db.
Proof. destruct t, db; reflexivity. Qed.

Lemma set_set_table t a b db : set_table t a (set_table t b db) = set_table t a db.
Proof. destruct t; reflexivity. Qed.

Section ExtractionLoops.

Variable id_column : json -> result string.

Lemma execute_upsert_quiet t returning conn v d ts src :
  frame quiet (execute_upsert id_column t returning conn v d ts src).
Proof.
  unfold execute_upsert.
  apply (frame_bind quiet_trans); [apply round_trip_quiet | intros _].
  apply (frame_bind quiet_trans); [apply (frame_lift quiet_refl) | intros k].
  destruct (upsert _ _ _ _ _ _). apply (frame_ret quiet_refl).
Qed.

Lemma execute_upsert_Ok t returning conn v d ts src w conn' res w' :
  execute_upsert id_column t returning conn v d ts src w = (Ok (conn', res), w') ->
  exists k,
    id_column v = Ok k
    /\ conn' = mkConn (set_table t
                         (fst (upsert (get_table t (work conn)) k d ts src (xid conn)))
                         (work conn))
                      (xid conn)
    /\ res = if returning
             then Some (negb (has_id k (get_table t (work conn))))
             else None.
Proof.
  unfold execute_upsert. intros H.
  apply bind_Ok_inv in H as (u & w1 & _ & H).
  apply bind_Ok_inv in H as (k & w2 & Hk & H).
  unfold lift in Hk. injection Hk as Hk _.
  exists k. split; [exact Hk |].
  pose proof (upsert_flag (get_table t (work conn)) k d ts src (xid conn)) as Hflag.
  destruct (upsert (get_table t (work conn)) k d ts src (xid conn)) as [rows wr].
  simpl in *. unfold ret in H. injection H as <- <- _.
  rewrite Hflag. split; reflexivity.
Qed.

Lemma upsert_counting_quiet t items : forall conn i u,
  frame quiet (upsert_counting id_column t conn items i u).
Proof.
  induction items as [| item rest IH]; intros conn i u; cbn [upsert_counting].
  - apply (frame_ret quiet_refl).
  - apply (frame_bind quiet_trans); [apply (frame_lift quiet_refl) | intros v].
    apply (frame_bind quiet_trans); [apply now_quiet | intros ts].
    apply (frame_bind quiet_trans); [apply execute_upsert_quiet | intros r].
    apply (frame_bind quiet_trans); [apply fetchone_0_quiet | intros b].
    destruct b; apply IH.
Qed.

Lemma upsert_plain_quiet t items : forall conn,
  frame quiet (upsert_plain id_column t conn items).
Proof.
  induction items as [| item rest IH]; intros conn; cbn [upsert_plain].
  - apply (frame_ret quiet_refl).
  - apply (frame_bind quiet_trans); [apply (frame_lift quiet_refl) | intros v].
    apply (frame_bind quiet_trans); [apply now_quiet | intros ts].
    apply (frame_bind quiet_trans); [apply execute_upsert_quiet | intros r].
    apply IH.
Qed.

(** A loop that ends normally has run the statements of [upsert_all], and
    its two counters have moved by the fresh and the met ids. *)
Lemma upsert_counting_Ok t items : forall conn i u w conn' i' u' w',
  upsert_counting id_column t conn items i u w = (Ok (conn', i', u'), w') ->
  exists entries,
    entries_of id_column items entries
    /\ conn' = mkConn (set_table t
                         (upsert_all (get_table t (work conn)) entries (xid conn))
                         (work conn))
                      (xid conn)
    /\ i' = i + fresh_count (map id (get_table t (work conn)))
                            (map entry_key entries)
    /\ i' + u' = i + u + Z.of_nat (List.length items).
Proof.
  induction items as [| item rest IH]; intros conn i u w conn' i' u' w' H;
    cbn [upsert_counting] in H.
  - unfold ret in H. injection H as <- <- <- _.
    exists []. simpl. rewrite set_get_table. destruct conn.
    repeat split; try constructor; simpl; lia.
  - apply bind_Ok_inv in H as (v & w1 & Hv & H).
    unfold lift in Hv. injection Hv as Hv _.
    apply bind_Ok_inv in H as (ts & w2 & _ & H).
    apply bind_Ok_inv in H as ([conn1 res] & w3 & Hex & H).
    apply execute_upsert_Ok in Hex as (k & Hk & -> & ->).
    apply bind_Ok_inv in H as (b & w4 & Hb & H).
    cbn in Hb. unfold ret in Hb. injection Hb as <- _.
    cbn [fst] in H.
    assert (Hkey : record_key id_column item = Ok k) by (unfold record_key; rewrite Hv; exact Hk).
    destruct (has_id k (get_table t (work conn))) eqn:Hhas; cbn [negb] in H;
      apply IH in H as (entries & (Hmap & Hall) & -> & -> & Hsum);
      cbn [work xid] in *; rewrite get_set_table_same in *;
      exists ((k, item, ts) :: entries);
      (split; [split; [simpl; rewrite Hmap; reflexivity
                      | constructor; [exact Hkey | exact Hall]] |]);
      cbn [upsert_all map entry_key entry_payload entry_time fst snd fresh_count];
      rewrite set_set_table, <- has_id_mem, Hhas, upsert_ids, Hhas;
      rewrite upsert_ids, Hhas in Hsum;
      (split; [reflexivity |]); cbn [List.length]; split; lia.
Qed.

Lemma upsert_plain_Ok t items : forall conn w conn' w',
  upsert_plain id_column t conn items w = (Ok conn', w') ->
  exists entries,
    entries_of id_column items entries
    /\ conn' = mkConn (set_table t
                         (upsert_all (get_table t (work conn)) entries (xid conn))
                         (work conn))
                      (xid conn).
Proof.
  induction items as [| item rest IH]; intros conn w conn' w' H;
    cbn [upsert_plain] in H.
  - unfold ret in H. injection H as <- _.
    exists []. simpl. rewrite set_get_table. destruct conn.
    repeat split; constructor.
  - apply bind_Ok_inv in H as (v & w1 & Hv & H).
    unfold lift in Hv. injection Hv as Hv _.
    apply bind_Ok_inv in H as (ts & w2 & _ & H).
    apply bind_Ok_inv in H as ([conn1 res] & w3 & Hex & H).
    apply execute_upsert_Ok in Hex as (k & Hk & -> & ->).
    cbn [fst] in H.
    assert (Hkey : record_key id_column item = Ok k) by (unfold record_key; rewrite Hv; exact Hk).
    apply IH in H as (entries & (Hmap & Hall) & ->).
    cbn [work xid] in *. rewrite get_set_table_same in *.
    exists ((k, item, ts) :: entries).
    split; [split; [simpl; rewrite Hmap; reflexivity
                   | constructor; [exact Hkey | exact Hall]] |].
    cbn [upsert_all entry_key entry_payload entry_time fst snd].
    rewrite set_set_table. reflexivity.
Qed.

End ExtractionLoops.

(** ** The run ledger, seen from the extractions *)

Lemma log_pipeline_run_effect dag_id task_id st records error w :
  exists w' extra,
    log_pipeline_run dag_id task_id st records error w = (Ok tt, w')
    /\ same_raw (committed w') (committed w)
    /\ pipeline_metadata (committed w')
       = (pipeline_metadata (committed w)
          ++ if ledger_write_ok (faults w)
             then [mkRunLog (dag_id ++ "." ++ task_id) st records
                            (clock w (ticks w)) error]
             else [])%list
    /\ logs w' = (logs w ++ extra)%list
    /\ (forall what i u, ~ In (Info_loaded_new_updated what i u) extra)
    /\ (open_connections w' = open_connections w
        \/ open_connections w' = S (open_connections w))
    /\ (ledger_write_ok (faults w) = true ->
        open_connections w' = open_connections w).
Proof.
  destruct w as [db oc nx fl clk tk ap lg xc].
  unfold log_pipeline_run, try_except, get_connection, try_except,
    psycopg2_connect, execute_insert_metadata, commit, close, cursor,
    cursor_close, now, logger, raise, ret, bind, round_trip, same_raw.
  cbn.
  repeat fault_case;
    (do 2 eexists; split; [reflexivity |]; cbn;
     split; [auto |];
     split; [first [reflexivity | symmetry; apply app_nil_r] |];
     split; [first [reflexivity
                   | rewrite <- app_assoc; reflexivity
                   | symmetry; apply app_nil_r] |];
     split; [intros what i u Hin; cbn in Hin; intuition discriminate |];
     split; [auto | intros Hok; first [reflexivity | discriminate Hok]]).
Qed.

Lemma py_len_iter v n items :
  py_len v = Ok n -> py_iter v = Ok items -> n = Z.of_nat (List.length items).
Proof.
  destruct v; cbn; intros H1 H2; try discriminate;
    injection H1 as <-; injection H2 as <-.
  - induction s as [| c s IH]; cbn [chars String.length List.length];
      [reflexivity | lia].
  - reflexivity.
  - rewrite length_map. reflexivity.
Qed.

Lemma get_connection_Ok w conn w' :
  get_connection w = (Ok conn, w') ->
  conn = mkConn (committed w) (next_xid w)
  /\ committed w' = committed w
  /\ open_connections w' = S (open_connections w)
  /\ logs w' = logs w
  /\ xcom w' = xcom w.
Proof.
  unfold get_connection, try_except, psycopg2_connect, bind, round_trip, logger,
    raise.
  destruct (faults w) as [| [msg |] rest]; cbn; intros H;
    try discriminate H; injection H as <- <-; repeat split.
Qed.

Lemma commit_Ok conn w w' :
  commit conn w = (Ok tt, w') ->
  committed w' = work conn
  /\ open_connections w' = open_connections w
  /\ logs w' = logs w
  /\ xcom w' = xcom w.
Proof.
  unfold commit, bind, round_trip.
  destruct (faults w) as [| [msg |] rest]; cbn; intros H;
    try discriminate H; injection H as <-; repeat split.
Qed.

Lemma commit_Raise conn w e w' :
  commit conn w = (Raise e, w') -> quiet w w'.
Proof.
  unfold commit, bind, round_trip.
  destruct (faults w) as [| [msg |] rest]; cbn; intros H;
    try discriminate H; injection H as _ <-; repeat split.
Qed.

(** ** The three extractions *)

Lemma raise_keeps_bind {A B : Type} (m : M A) (f : A -> M B) :
  frame keeps_committed m -> (forall a, raise_keeps (f a)) ->
  raise_keeps (bind m f).
Proof.
  intros Hm Hf w e w' H.
  apply bind_Raise_inv in H as [H | (a & w1 & Hs & H)].
  - exact (Hm _ _ _ H).
  - rewrite (Hf a _ _ _ H). exact (Hm _ _ _ Hs).
Qed.

Lemma eq_keeps w w' : w = w' -> keeps_committed w w'.
Proof. intros <-. reflexivity. Qed.

Create HintDb frames.

Lemma requests_get_keeps url timeout :
  frame keeps_committed (requests_get url timeout).
Proof. exact (frame_weaken _ _ _ eq_keeps (requests_get_pure url timeout)). Qed.

Lemma raise_for_status_keeps resp : frame keeps_committed (raise_for_status resp).
Proof. exact (frame_weaken _ _ _ eq_keeps (raise_for_status_pure resp)). Qed.

Lemma response_json_keeps resp : frame keeps_committed (response_json resp).
Proof. exact (frame_weaken _ _ _ eq_keeps (response_json_pure resp)). Qed.

Lemma lift_keeps {A : Type} (x : result A) : frame keeps_committed (lift x).
Proof. exact (frame_lift keeps_committed_refl x). Qed.

Lemma cursor_keeps conn : frame keeps_committed (cursor conn).
Proof. exact (frame_ret keeps_committed_refl tt). Qed.

#[local] Hint Resolve requests_get_keeps raise_for_status_keeps
  response_json_keeps lift_keeps cursor_keeps logger_keeps
  get_connection_keeps : frames.

Lemma same_raw_refl db : same_raw db db.
Proof. repeat split. Qed.

Lemma same_raw_trans a b c : same_raw a b -> same_raw b c -> same_raw a c.
Proof.
  unfold same_raw. intros (a1 & a2 & a3) (b1 & b2 & b3).
  repeat split; congruence.
Qed.

Lemma same_raw_get_table a b t : same_raw a b -> get_table t a = get_table t b.
Proof. intros (H1 & H2 & H3). destruct t; assumption. Qed.

(** The end of every [try] block: commit, close, log, ledger, return. *)
Lemma tail_Raise conn l dag_id task_id n w e w' :
  (commit conn ;; cursor_close ;; close conn ;; logger l ;;
   log_pipeline_run dag_id task_id "success" n None ;; ret n) w = (Raise e, w') ->
  committed w' = committed w.
Proof.
  intros H.
  apply bind_Raise_inv in H as [H | (a & w1 & _ & H)];
    [exact (proj1 (commit_Raise _ _ _ _ H)) |].
  apply bind_Raise_inv in H as [H | (a1 & w2 & _ & H)]; [discriminate H |].
  apply bind_Raise_inv in H as [H | (a2 & w3 & _ & H)]; [discriminate H |].
  apply bind_Raise_inv in H as [H | (a3 & w4 & _ & H)]; [discriminate H |].
  apply bind_Raise_inv in H as [H | (a4 & w5 & _ & H)]; [| discriminate H].
  destruct (log_pipeline_run_effect dag_id task_id "success" n None w4)
    as (w6 & extra & Heq & _).
  rewrite Heq in H. discriminate H.
Qed.

Lemma tail_Ok conn l dag_id task_id n w m w' :
  (commit conn ;; cursor_close ;; close conn ;; logger l ;;
   log_pipeline_run dag_id task_id "success" n None ;; ret n) w = (Ok m, w') ->
  m = n
  /\ same_raw (committed w') (work conn)
  /\ (exists extra,
        logs w' = (logs w ++ l :: extra)%list
        /\ forall what i u, ~ In (Info_loaded_new_updated what i u) extra)
  /\ (exists ledger,
        pipeline_metadata (committed w')
        = (pipeline_metadata (work conn) ++ ledger)%list
        /\ (ledger = []
            \/ exists ts, ledger = [mkRunLog (dag_id ++ "." ++ task_id)
                                             "success" n ts None]))
  /\ (open_connections w' = Nat.pred (open_connections w)
      \/ open_connections w' = S (Nat.pred (open_connections w))).
Proof.
  intros H.
  apply bind_Ok_inv in H as (a & w1 & Hc & H).
  destruct a. apply commit_Ok in Hc as (Hc1 & Hc2 & Hc3 & _).
  apply bind_Ok_inv in H as (a1 & w2 & Hs & H).
  unfold cursor_close, ret in Hs. injection Hs as _ <-.
  apply bind_Ok_inv in H as (a2 & w3 & Hs & H).
  unfold close in Hs. injection Hs as _ <-.
  apply bind_Ok_inv in H as (a3 & w4 & Hs & H).
  unfold logger in Hs. injection Hs as _ <-.
  apply bind_Ok_inv in H as (a4 & w5 & Hs & H).
  unfold ret in H. injection H as <- <-.
  match type of Hs with
  | log_pipeline_run _ _ _ _ _ ?wx = _ =>
      destruct (log_pipeline_run_effect dag_id task_id "success" n None wx)
        as (w6 & extra & Heq & Hraw & Hmeta & Hlogs & Hextra & Hopen & _)
  end.
  rewrite Heq in Hs. injection Hs as Hw. subst w5.
  cbn in Hraw, Hmeta, Hlogs, Hopen.
  rewrite Hc1 in Hraw, Hmeta. rewrite Hc3 in Hlogs. rewrite Hc2 in Hopen.
  split; [reflexivity |].
  split; [exact Hraw |].
  split; [exists extra; split; [| exact Hextra];
          rewrite Hlogs, <- app_assoc; reflexivity |].
  split; [| exact Hopen].
  eexists. split; [exact Hmeta |].
  destruct (ledger_write_ok _); [right; eexists; reflexivity | left; reflexivity].
Qed.

Lemma extract_failed_effect what task_id ctx e w :
  exists w',
    extract_failed what task_id ctx e w = (Raise e, w')
    /\ same_raw (committed w') (committed w)
    /\ pipeline_metadata (committed w')
       = (pipeline_metadata (committed w)
          ++ if ledger_write_ok (faults w)
             then [mkRunLog (dag_id_of ctx ++ "." ++ task_id) "failed" 0
                            (clock w (ticks w)) (Some (str e))]
             else [])%list
    /\ (open_connections w' = open_connections w
        \/ open_connections w' = S (open_connections w)).
Proof.
  unfold extract_failed.
  destruct (log_pipeline_run_effect (dag_id_of ctx) task_id "failed" 0
              (Some (str e)) (set_logs (logs w ++ [Error_extracting what e]) w))
    as (w' & extra & Heq & Hraw & Hmeta & _ & _ & Hopen & _).
  exists w'. unfold bind, logger, raise. rewrite Heq.
  cbn in Hraw, Hmeta, Hopen. auto.
Qed.

Lemma try_extract_inv (try_block : M Z) what task_id ctx w r w' :
  try_except try_block (extract_failed what task_id ctx) w = (r, w') ->
  (exists n, r = Ok n /\ try_block w = (Ok n, w'))
  \/ (exists e w1, r = Raise e
                   /\ try_block w = (Raise e, w1)
                   /\ extract_failed what task_id ctx e w1 = (Raise e, w')).
Proof.
  unfold try_except. destruct (try_block w) as [[n | e] w1]; intros H.
  - left. exists n. injection H as <- <-. auto.
  - right. exists e, w1.
    destruct (extract_failed_effect what task_id ctx e w1) as (w2 & Heq & _).
    rewrite Heq in H. injection H as <- <-. auto.
Qed.

Section ExtractionBodies.

Variable id_column : json -> result string.

Lemma upsert_counting_keeps t conn items i u :
  frame keeps_committed (upsert_counting id_column t conn items i u).
Proof.
  exact (frame_weaken _ _ _ quiet_keeps (upsert_counting_quiet id_column t items conn i u)).
Qed.

Lemma upsert_plain_keeps t conn items :
  frame keeps_committed (upsert_plain id_column t conn items).
Proof.
  exact (frame_weaken _ _ _ quiet_keeps (upsert_plain_quiet id_column t items conn)).
Qed.

Ltac keeps_step :=
  apply raise_keeps_bind;
  [ first [ apply upsert_counting_keeps | apply upsert_plain_keeps
          | solve [auto with frames] ]
  | intros ? ].

(** A [try] block that raises has committed nothing. *)
Lemma extract_counting_body_Raise t path timeout what task_id ctx :
  raise_keeps (extract_counting_body id_column t path timeout what task_id ctx).
Proof.
  unfold extract_counting_body.
  do 9 keeps_step.
  destruct a7 as [[conn' i] u].
  intros w e w' H. exact (tail_Raise _ _ _ _ _ _ _ _ H).
Qed.

Lemma extract_rockets_body_Raise ctx :
  raise_keeps (extract_rockets_body id_column ctx).
Proof.
  unfold extract_rockets_body.
  do 9 keeps_step.
  intros w e w' H. exact (tail_Raise _ _ _ _ _ _ _ _ H).
Qed.

(** The steps of a [try] block up to its loop, when they all go through. *)
Ltac step_into H a wx Hs := apply bind_Ok_inv in H as (a & wx & Hs & H).

Ltac fetch_steps H code records items Hapi Hlen Hiter :=
  let resp := fresh "resp" in
  let Hs := fresh "Hs" in
  let Hw := fresh "Hw" in
  let b := fresh "b" in
  let msg := fresh "msg" in
  let conn := fresh "conn" in
  let rj := fresh "rj" in
  let x := fresh "x" in
  let y := fresh "y" in
  let z := fresh "z" in
  let n0 := fresh "n" in
  let w1 := fresh "wa" in
  let w2 := fresh "wb" in
  let w3 := fresh "wc" in
  let w4 := fresh "wd" in
  let w5 := fresh "we" in
  let w6 := fresh "wf" in
  let w7 := fresh "wg" in
  let w8 := fresh "wh" in
  step_into H resp w1 Hs;
  pose proof (requests_get_pure _ _ _ _ _ Hs) as Hw; subst w1;
  unfold requests_get in Hs;
  match type of Hs with
  | context [api ?w ?url] =>
      destruct (api w url) as [msg | code b] eqn:Hapi; [discriminate Hs |]
  end;
  injection Hs; clear Hs; intros; subst resp;
  step_into H x w2 Hs;
  pose proof (raise_for_status_pure _ _ _ _ Hs) as Hw; subst w2; clear Hs x;
  step_into H rj w3 Hs;
  pose proof (response_json_pure _ _ _ _ Hs) as Hw; subst w3;
  unfold response_json in Hs; cbn [body] in Hs;
  destruct b as [records |]; [| discriminate Hs];
  injection Hs; clear Hs; intros; subst rj;
  step_into H n0 w4 Hlen;
  pose proof (lift_pure _ _ _ _ Hlen) as Hw; subst w4;
  unfold lift in Hlen; injection Hlen; clear Hlen; intros Hlen;
  step_into H y w5 Hs;
  unfold logger in Hs; injection Hs; clear Hs; intros; subst w5;
  step_into H conn w6 Hs;
  apply get_connection_Ok in Hs as (-> & ? & ? & ? & ?);
  step_into H z w7 Hs;
  unfold cursor, ret in Hs; injection Hs; clear Hs; intros; subst w7;
  step_into H items w8 Hiter;
  pose proof (lift_pure _ _ _ _ Hiter) as Hw; subst w8;
  unfold lift in Hiter; injection Hiter; clear Hiter; intros Hiter.

Lemma extract_counting_body_Ok t path timeout what task_id ctx w n w' :
  extract_counting_body id_column t path timeout what task_id ctx w = (Ok n, w') ->
  exists code records items entries extra,
    api w (base_url ++ path) = Response code (Some records)
    /\ py_len records = Ok n
    /\ py_iter records = Ok items
    /\ entries_of id_column items entries
    /\ same_raw (committed w')
                (set_table t
                   (upsert_all (get_table t (committed w)) entries (next_xid w))
                   (committed w))
    /\ logs w'
       = (logs w
          ++ Info_retrieved n what
          :: Info_loaded_new_updated what
               (fresh_count (map id (get_table t (committed w)))
                            (map entry_key entries))
               (n - fresh_count (map id (get_table t (committed w)))
                                (map entry_key entries))
          :: extra)%list
    /\ (forall what' i u, ~ In (Info_loaded_new_updated what' i u) extra).
Proof.
  unfold extract_counting_body. intros H.
  fetch_steps H code records items Hapi Hlen Hiter.
  apply bind_Ok_inv in H as ([[conn' i] u] & wi & Hloop & H).
  pose proof (upsert_counting_quiet _ _ _ _ _ _ _ _ _ Hloop)
    as (_ & _ & _ & _ & _ & Hq & _).
  apply upsert_counting_Ok in Hloop as (entries & Hent & -> & -> & Hsum).
  cbn [work xid committed next_xid set_logs] in *.
  apply tail_Ok in H as (-> & Hraw & (extra & Hlogs & Hextra) & _ & _).
  cbn [work] in Hraw.
  pose proof (py_len_iter _ _ _ Hlen Hiter) as Hn.
  exists code, records, items, entries, extra.
  split; [reflexivity |]. split; [exact Hlen |]. split; [exact Hiter |].
  split; [exact Hent |]. split; [exact Hraw |]. split; [| exact Hextra].
  rewrite Hlogs, Hq.
  match goal with Hl : logs _ = logs (set_logs _ _) |- _ => rewrite Hl end.
  cbn [logs set_logs]. rewrite <- app_assoc. cbn [app].
  repeat f_equal. lia.
Qed.

Lemma extract_rockets_body_Ok ctx w n w' :
  extract_rockets_body id_column ctx w = (Ok n, w') ->
  exists code records items entries extra,
    api w (base_url ++ "/rockets") = Response code (Some records)
    /\ py_len records = Ok n
    /\ py_iter records = Ok items
    /\ entries_of id_column items entries
    /\ same_raw (committed w')
                (set_table Rockets
                   (upsert_all (rockets (committed w)) entries (next_xid w))
                   (committed w))
    /\ logs w'
       = (logs w
          ++ Info_retrieved n "rockets" :: Info_loaded_records "rockets" n
          :: extra)%list
    /\ (forall what' i u, ~ In (Info_loaded_new_updated what' i u) extra).
Proof.
  unfold extract_rockets_body. intros H.
  fetch_steps H code records items Hapi Hlen Hiter.
  apply bind_Ok_inv in H as (conn' & wi & Hloop & H).
  pose proof (upsert_plain_quiet _ _ _ _ _ _ _ Hloop)
    as (_ & _ & _ & _ & _ & Hq & _).
  apply upsert_plain_Ok in Hloop as (entries & Hent & ->).
  cbn [work xid committed next_xid set_logs] in *.
  apply tail_Ok in H as (-> & Hraw & (extra & Hlogs & Hextra) & _ & _).
  cbn [work get_table] in Hraw.
  exists code, records, items, entries, extra.
  split; [reflexivity |]. split; [exact Hlen |]. split; [exact Hiter |].
  split; [exact Hent |]. split; [exact Hraw |]. split; [| exact Hextra].
  rewrite Hlogs, Hq.
  match goal with Hl : logs _ = logs (set_logs _ _) |- _ => rewrite Hl end.
  cbn [logs set_logs]. rewrite <- app_assoc. reflexivity.
Qed.

(** *** With a reachable API and store, the extractions return *)

Lemma py_iter_len v items :
  py_iter v = Ok items -> py_len v = Ok (Z.of_nat (List.length items)).
Proof.
  destruct v; cbn; intros H; try discriminate; injection H as <-.
  - f_equal. induction s as [| c s IH]; cbn [chars String.length List.length];
      [reflexivity | lia].
  - reflexivity.
  - rewrite length_map. reflexivity.
Qed.

Lemma execute_upsert_total t returning conn v k d ts src w :
  faults w = [] -> id_column v = Ok k ->
  exists conn' res,
    execute_upsert id_column t returning conn v d ts src w = (Ok (conn', res), w)
    /\ (returning = true -> exists b, res = Some b).
Proof.
  intros Hf Hk. unfold execute_upsert, bind, round_trip, lift, ret.
  rewrite Hf, Hk.
  destruct (upsert (get_table t (work conn)) k d ts src (xid conn)) as [rows wr].
  do 2 eexists. split; [reflexivity |].
  intros ->. eexists. reflexivity.
Qed.

Lemma upsert_counting_total t items : forall conn i u w,
  faults w = [] -> Forall (keyed id_column) items ->
  exists res w',
    upsert_counting id_column t conn items i u w = (Ok res, w') /\ faults w' = [].
Proof.
  induction items as [| item rest IH]; intros conn i u w Hf Hall;
    cbn [upsert_counting].
  - do 2 eexists. split; [reflexivity | exact Hf].
  - inversion Hall as [| ? ? (k & Hkey) Hrest]; subst.
    unfold record_key in Hkey.
    destruct (getitem item "id") as [v | e] eqn:Hv; [| discriminate Hkey].
    unfold bind at 1, lift. unfold bind at 1, now.
    destruct (execute_upsert_total t true conn v k item (clock w (ticks w))
                "spacex_api_v4" (set_ticks (S (ticks w)) w) Hf Hkey)
      as (conn' & res & Hex & Hres).
    destruct (Hres eq_refl) as (b & ->).
    rewrite (bind_eq_Ok _ _ _ _ _ Hex).
    unfold bind at 1, fetchone_0, ret. cbn [fst snd].
    destruct b; apply IH; assumption.
Qed.

Lemma upsert_plain_total t items : forall conn w,
  faults w = [] -> Forall (keyed id_column) items ->
  exists res w',
    upsert_plain id_column t conn items w = (Ok res, w') /\ faults w' = [].
Proof.
  induction items as [| item rest IH]; intros conn w Hf Hall;
    cbn [upsert_plain].
  - do 2 eexists. split; [reflexivity | exact Hf].
  - inversion Hall as [| ? ? (k & Hkey) Hrest]; subst.
    unfold record_key in Hkey.
    destruct (getitem item "id") as [v | e] eqn:Hv; [| discriminate Hkey].
    unfold bind at 1, lift. unfold bind at 1, now.
    destruct (execute_upsert_total t false conn v k item (clock w (ticks w))
                "spacex_api_v4" (set_ticks (S (ticks w)) w) Hf Hkey)
      as (conn' & res & Hex & _).
    rewrite (bind_eq_Ok _ _ _ _ _ Hex).
    apply IH; assumption.
Qed.

Lemma tail_total conn l dag_id task_id n w :
  faults w = [] ->
  exists w',
    (commit conn ;; cursor_close ;; close conn ;; logger l ;;
     log_pipeline_run dag_id task_id "success" n None ;; ret n) w = (Ok n, w').
Proof.
  intros Hf.
  assert (Hc : commit conn w = (Ok tt, set_committed (work conn) w))
    by (unfold commit, bind, round_trip; rewrite Hf; reflexivity).
  rewrite (bind_eq_Ok _ _ _ _ _ Hc). cbv beta.
  unfold bind at 1, cursor_close, ret. unfold bind at 1, close.
  unfold bind at 1, logger. unfold bind.
  match goal with
  | |- context [log_pipeline_run ?a ?b ?c ?d ?e ?wx] =>
      destruct (log_pipeline_run_effect a b c d e wx) as (w' & extra & Heq & _)
  end.
  rewrite Heq. eexists. reflexivity.
Qed.

Lemma get_connection_total w :
  faults w = [] ->
  exists w', get_connection w = (Ok (mkConn (committed w) (next_xid w)), w')
             /\ faults w' = [].
Proof.
  intros Hf.
  unfold get_connection, try_except, psycopg2_connect, bind, round_trip.
  rewrite Hf. eexists. split; [reflexivity | exact Hf].
Qed.

Ltac run_step Heq := rewrite (bind_eq_Ok _ _ _ _ _ Heq); cbv beta.

(** The steps of a [try] block up to its loop, run forward. *)
Ltac fetch_forward Hapi Hcode Hiter Hf :=
  let Hs := fresh "Hs" in
  let wc := fresh "wc" in
  let Hfc := fresh "Hfc" in
  match goal with
  | |- context [bind (requests_get ?url ?to) _ ?w] =>
      assert (Hs : requests_get url to w = (Ok (mkResponse _ _), w))
        by (unfold requests_get; rewrite Hapi; reflexivity);
      run_step Hs; clear Hs
  end;
  match goal with
  | |- context [bind (raise_for_status ?r) _ ?w] =>
      assert (Hs : raise_for_status r w = (Ok tt, w))
        by (unfold raise_for_status; cbn [status_code]; rewrite Hcode;
            reflexivity);
      run_step Hs; clear Hs
  end;
  match goal with
  | |- context [bind (response_json ?r) _ ?w] =>
      assert (Hs : response_json r w = (Ok _, w)) by reflexivity;
      run_step Hs; clear Hs
  end;
  match goal with
  | |- context [bind (lift (py_len ?v)) _ ?w] =>
      assert (Hs : lift (py_len v) w = (Ok _, w))
        by (unfold lift; rewrite (py_iter_len _ _ Hiter); reflexivity);
      run_step Hs; clear Hs
  end;
  match goal with
  | |- context [bind (logger ?l) _ ?w] =>
      assert (Hs : logger l w = (Ok tt, set_logs (logs w ++ [l]) w))
        by reflexivity;
      run_step Hs; clear Hs
  end;
  match goal with
  | |- context [bind get_connection _ ?w] =>
      destruct (get_connection_total w Hf) as (wc & Hs & Hfc);
      run_step Hs; clear Hs
  end;
  match goal with
  | |- context [bind (cursor ?c) _ ?w] =>
      assert (Hs : cursor c w = (Ok tt, w)) by reflexivity;
      run_step Hs; clear Hs
  end;
  match goal with
  | |- context [bind (lift (py_iter ?v)) _ ?w] =>
      assert (Hs : lift (py_iter v) w = (Ok _, w))
        by (unfold lift; rewrite Hiter; reflexivity);
      run_step Hs; clear Hs
  end.

Lemma extract_counting_body_total t path timeout what task_id ctx w code records items :
  api w (base_url ++ path) = Response code (Some records) ->
  (400 <=? code) && (code <? 600) = false ->
  py_iter records = Ok items ->
  Forall (keyed id_column) items ->
  faults w = [] ->
  exists w',
    extract_counting_body id_column t path timeout what task_id ctx w
    = (Ok (Z.of_nat (List.length items)), w').
Proof.
  intros Hapi Hcode Hiter Hall Hf.
  unfold extract_counting_body.
  fetch_forward Hapi Hcode Hiter Hf.
  match goal with
  | Hfc : faults ?wx = [] |- context [bind (upsert_counting _ _ ?c _ _ _) _ ?wx] =>
      destruct (upsert_counting_total t items c 0 0 wx Hfc Hall)
        as ([[conn' i] u] & w1 & Hloop & Hf1)
  end.
  run_step Hloop.
  apply tail_total. exact Hf1.
Qed.

Lemma extract_rockets_body_total ctx w code records items :
  api w (base_url ++ "/rockets") = Response code (Some records) ->
  (400 <=? code) && (code <? 600) = false ->
  py_iter records = Ok items ->
  Forall (keyed id_column) items ->
  faults w = [] ->
  exists w',
    extract_rockets_body id_column ctx w = (Ok (Z.of_nat (List.length items)), w').
Proof.
  intros Hapi Hcode Hiter Hall Hf.
  unfold extract_rockets_body.
  fetch_forward Hapi Hcode Hiter Hf.
  match goal with
  | Hfc : faults ?wx = [] |- context [bind (upsert_plain _ _ ?c _) _ ?wx] =>
      destruct (upsert_plain_total Rockets items c wx Hfc Hall)
        as (conn' & w1 & Hloop & Hf1)
  end.
  run_step Hloop.
  apply tail_total. exact Hf1.
Qed.

End ExtractionBodies.

(** ** The claims about the extractions *)

Section ExtractionClaims.

Variable id_column : json -> result string.

Lemma run_extraction_inv x ctx w r w' :
  run_extraction id_column x ctx w = (r, w') ->
  (exists n, r = Ok n /\ try_block id_column x ctx w = (Ok n, w'))
  \/ (exists e w1,
        r = Raise e
        /\ try_block id_column x ctx w = (Raise e, w1)
        /\ extract_failed (what_of x) (task_name x) ctx e w1 = (Raise e, w')).
Proof. destruct x; apply try_extract_inv. Qed.

Lemma try_block_Raise x ctx : raise_keeps (try_block id_column x ctx).
Proof.
  destruct x; [apply extract_counting_body_Raise
              | apply extract_counting_body_Raise
              | apply extract_rockets_body_Raise].
Qed.

Lemma try_block_Ok x ctx w n w' :
  try_block id_column x ctx w = (Ok n, w') ->
  exists code records items entries,
    api w (endpoint x) = Response code (Some records)
    /\ py_iter records = Ok items
    /\ n = Z.of_nat (List.length items)
    /\ entries_of id_column items entries
    /\ same_raw (committed w')
         (set_table (target x)
            (upsert_all (get_table (target x) (committed w)) entries (next_xid w))
            (committed w)).
Proof.
  destruct x; cbn [try_block endpoint target]; intros H;
    [apply extract_counting_body_Ok in H | apply extract_counting_body_Ok in H
    | apply extract_rockets_body_Ok in H];
    destruct H as (code & records & items & entries & extra & Hapi & Hlen
                   & Hiter & Hent & Hraw & _);
    exists code, records, items, entries;
    (split; [exact Hapi |]); (split; [exact Hiter |]);
    (split; [exact (py_len_iter _ _ _ Hlen Hiter) |]);
    (split; [exact Hent | exact Hraw]).
Qed.

Lemma counting_try_block_Ok x ctx w n w' :
  x <> Extract_rockets ->
  try_block id_column x ctx w = (Ok n, w') ->
  exists code records items entries extra,
    api w (endpoint x) = Response code (Some records)
    /\ py_len records = Ok n
    /\ py_iter records = Ok items
    /\ entries_of id_column items entries
    /\ same_raw (committed w')
         (set_table (target x)
            (upsert_all (get_table (target x) (committed w)) entries (next_xid w))
            (committed w))
    /\ logs w'
       = (logs w
          ++ Info_retrieved n (what_of x)
          :: Info_loaded_new_updated (what_of x)
               (fresh_count (map id (get_table (target x) (committed w)))
                            (map entry_key entries))
               (n - fresh_count (map id (get_table (target x) (committed w)))
                                (map entry_key entries))
          :: extra)%list
    /\ (forall what' i u, ~ In (Info_loaded_new_updated what' i u) extra).
Proof.
  destruct x; intros Hx; [| | congruence]; cbn [try_block endpoint target what_of];
    apply extract_counting_body_Ok.
Qed.

Lemma try_block_total x ctx w code records items :
  api w (endpoint x) = Response code (Some records) ->
  good_status code ->
  py_iter records = Ok items ->
  Forall (keyed id_column) items ->
  faults w = [] ->
  exists w', try_block id_column x ctx w = (Ok (Z.of_nat (List.length items)), w').
Proof.
  destruct x; cbn [try_block endpoint];
    [apply extract_counting_body_total | apply extract_counting_body_total
    | apply extract_rockets_body_total].
Qed.

Lemma run_extraction_Ok x ctx w n w' :
  try_block id_column x ctx w = (Ok n, w') -> run_extraction id_column x ctx w = (Ok n, w').
Proof.
  destruct x; cbn [try_block run_extraction];
    unfold extract_launches, extract_starlink, extract_rockets, extract_counting,
      try_except; intros ->; reflexivity.
Qed.

Lemma entries_of_length items entries :
  entries_of id_column items entries -> List.length entries = List.length items.
Proof. intros (Hmap & _). rewrite <- Hmap, length_map. reflexivity. Qed.

Lemma entries_of_singleton item k entries :
  record_key id_column item = Ok k ->
  entries_of id_column [item] entries ->
  exists ts, entries = [(k, item, ts)].
Proof.
  intros Hk (Hmap & Hall).
  destruct entries as [| [[k' d] ts] [| e rest]]; try discriminate Hmap.
  cbn in Hmap. injection Hmap as ->.
  inversion Hall as [| ? ? Hkey _]; subst. cbn in Hkey.
  rewrite Hk in Hkey. injection Hkey as ->.
  exists ts. reflexivity.
Qed.

Lemma extraction_keeps_unique x ctx w :
  (forall t, NoDup (map id (get_table t (committed w)))) ->
  forall t, NoDup (map id (get_table t (committed (snd (run_extraction id_column x ctx w))))).
Proof.
  intros Hu t.
  destruct (run_extraction id_column x ctx w) as [r w'] eqn:Hrun. cbn [snd].
  apply run_extraction_inv in Hrun as [(n & _ & Hb) | (e & w1 & _ & Hb & Hf)].
  - apply try_block_Ok in Hb as (code & records & items & entries & _ & _ & _ & _ & Hraw).
    rewrite (same_raw_get_table _ _ t Hraw).
    destruct (raw_table_eq_dec t (target x)) as [-> | Hne].
    + rewrite get_set_table_same. apply upsert_all_NoDup, Hu.
    + rewrite get_set_table_other by exact Hne. apply Hu.
  - apply try_block_Raise in Hb.
    destruct (extract_failed_effect (what_of x) (task_name x) ctx e w1)
      as (w2 & Heq & Hraw & _).
    rewrite Heq in Hf. injection Hf as <-.
    rewrite (same_raw_get_table _ _ t Hraw), Hb. apply Hu.
Qed.

Lemma reachable_unique w :
  reachable id_column w -> forall t, NoDup (map id (get_table t (committed w))).
Proof.
  induction 1 as [w Hinit | w w' _ IH Heq | w x ctx _ IH].
  - intros t. rewrite Hinit. destruct t; constructor.
  - intros t. rewrite Heq. apply IH.
  - apply extraction_keeps_unique. exact IH.
Qed.

Lemma entries_of_nil entries : entries_of id_column [] entries -> entries = [].
Proof. intros (Hmap & _). destruct entries; [reflexivity | discriminate Hmap]. Qed.

Lemma entries_of_cons item items entries :
  entries_of id_column (item :: items) entries ->
  exists k ts rest,
    record_key id_column item = Ok k
    /\ entries = (k, item, ts) :: rest
    /\ entries_of id_column items rest.
Proof.
  intros (Hmap & Hall).
  destruct entries as [| [[k d] ts] rest]; [discriminate Hmap |].
  cbn in Hmap. injection Hmap as -> Hmap.
  inversion Hall as [| ? ? Hkey Hrest]; subst.
  exists k, ts, rest. repeat split; assumption.
Qed.

End ExtractionClaims.

Section ExtractionTheorems.

Variable id_column : json -> result string.

(** C1, as amended: in the launches and the starlink extraction every
    record's write is classified by the upsert statement itself, whose
    returned flag says whether the id was absent just before it, and an
    extraction that returns has reported [inserted_count] and
    [updated_count] with [inserted_count + updated_count] the number of
    records in the batch, [inserted_count] counting the writes that met no
    row.  (The rockets extraction issues the statement without the flag and
    reports the batch size only.) *)
Theorem counting_extractions_partition_batch :
  (forall t conn v d ts src w conn' res w',
      execute_upsert id_column t true conn v d ts src w = (Ok (conn', res), w') ->
      exists k,
        id_column v = Ok k
        /\ res = Some (negb (has_id k (get_table t (work conn))))
        /\ get_table t (work conn')
           = fst (upsert (get_table t (work conn)) k d ts src (xid conn)))
  /\ (forall x ctx w n w',
        x <> Extract_rockets ->
        run_extraction id_column x ctx w = (Ok n, w') ->
        exists code records items entries inserted_count updated_count extra,
          api w (endpoint x) = Response code (Some records)
          /\ py_iter records = Ok items
          /\ entries_of id_column items entries
          /\ logs w'
             = (logs w
                ++ Info_retrieved n (what_of x)
                :: Info_loaded_new_updated (what_of x) inserted_count updated_count
                :: extra)%list
          /\ (forall what' i u, ~ In (Info_loaded_new_updated what' i u) extra)
          /\ inserted_count
             = fresh_count (map id (get_table (target x) (committed w)))
                           (map entry_key entries)
          /\ 0 <= inserted_count /\ 0 <= updated_count
          /\ inserted_count + updated_count = Z.of_nat (List.length items)
          /\ n = Z.of_nat (List.length items)).
Proof.
  split.
  - intros t conn v d ts src w conn' res w' H.
    apply execute_upsert_Ok in H as (k & Hk & -> & ->).
    exists k. cbn [work]. rewrite get_set_table_same. auto.
  - intros x ctx w n w' Hx Hrun.
    apply run_extraction_inv in Hrun as [(n0 & Hn & Hb) | (e & w1 & Hr & _)];
      [| discriminate Hr].
    injection Hn as <-.
    apply (counting_try_block_Ok id_column x ctx w n w' Hx) in Hb
      as (code & records & items & entries & extra & Hapi & Hlen & Hiter & Hent
          & _ & Hlogs & Hextra).
    pose proof (py_len_iter _ _ _ Hlen Hiter) as Hn.
    pose proof (entries_of_length id_column _ _ Hent) as Hl.
    pose proof (fresh_count_bounds
                  (map id (get_table (target x) (committed w)))
                  (map entry_key entries)) as Hb.
    rewrite length_map, Hl in Hb.
    exists code, records, items, entries.
    eexists. eexists. exists extra.
    split; [exact Hapi |]. split; [exact Hiter |]. split; [exact Hent |].
    split; [exact Hlogs |]. split; [exact Hextra |].
    split; [reflexivity |]. repeat split; lia.
Qed.

(** C2: on an empty table and with the API and the store reachable, a
    counting extraction of one record returns and reports 1 inserted, 0
    updated; run again on what it committed, with a record of the same id,
    it returns and reports 0 inserted, 1 updated, and the table then holds
    one row for that id whose payload is the second record. *)
Theorem upsert_same_record_twice :
  forall x ctx w1 c1 r1 k,
    x <> Extract_rockets ->
    get_table (target x) (committed w1) = [] ->
    api w1 (endpoint x) = Response c1 (Some (JArr [r1])) ->
    good_status c1 ->
    faults w1 = [] ->
    record_key id_column r1 = Ok k ->
    exists w1' extra1,
      run_extraction id_column x ctx w1 = (Ok 1, w1')
      /\ logs w1' = (logs w1 ++ Info_retrieved 1 (what_of x)
                     :: Info_loaded_new_updated (what_of x) 1 0 :: extra1)%list
      /\ (forall what' i u, ~ In (Info_loaded_new_updated what' i u) extra1)
      /\ forall w2 c2 r2,
           committed w2 = committed w1' ->
           api w2 (endpoint x) = Response c2 (Some (JArr [r2])) ->
           good_status c2 ->
           faults w2 = [] ->
           record_key id_column r2 = Ok k ->
           exists w2' extra2 stored,
             run_extraction id_column x ctx w2 = (Ok 1, w2')
             /\ logs w2' = (logs w2 ++ Info_retrieved 1 (what_of x)
                            :: Info_loaded_new_updated (what_of x) 0 1 :: extra2)%list
             /\ (forall what' i u, ~ In (Info_loaded_new_updated what' i u) extra2)
             /\ get_table (target x) (committed w2') = [stored]
             /\ id stored = k
             /\ data stored = r2.
Proof.
  intros x ctx w1 c1 r1 k Hx Hempty Hapi1 Hc1 Hf1 Hk1.
  destruct (try_block_total id_column x ctx w1 c1 (JArr [r1]) [r1] Hapi1 Hc1 eq_refl)
    as (w1' & Hrun1); [constructor; [exists k; exact Hk1 | constructor] | exact Hf1 |].
  cbn [List.length Z.of_nat Pos.of_succ_nat] in Hrun1.
  pose proof (counting_try_block_Ok id_column x ctx w1 1 w1' Hx Hrun1)
    as (code & records & items & entries & extra1 & Hapi & _ & Hiter & Hent
        & Hraw1 & Hlogs1 & Hextra1).
  rewrite Hapi1 in Hapi. injection Hapi as _ <-.
  cbn in Hiter. injection Hiter as <-.
  destruct (entries_of_singleton id_column r1 k entries Hk1 Hent) as (ts1 & ->).
  rewrite Hempty in Hraw1, Hlogs1.
  cbn [map entry_key fst fresh_count mem existsb upsert_all upsert entry_payload
       entry_time snd app Z.sub] in Hraw1, Hlogs1.
  exists w1', extra1.
  split; [apply run_extraction_Ok; exact Hrun1 |].
  split; [exact Hlogs1 |]. split; [exact Hextra1 |].
  intros w2 c2 r2 Hdb Hapi2 Hc2 Hf2 Hk2.
  destruct (try_block_total id_column x ctx w2 c2 (JArr [r2]) [r2] Hapi2 Hc2 eq_refl)
    as (w2' & Hrun2); [constructor; [exists k; exact Hk2 | constructor] | exact Hf2 |].
  cbn [List.length Z.of_nat Pos.of_succ_nat] in Hrun2.
  pose proof (counting_try_block_Ok id_column x ctx w2 1 w2' Hx Hrun2)
    as (code2 & records2 & items2 & entries2 & extra2 & Hapi & _ & Hiter & Hent2
        & Hraw2 & Hlogs2 & Hextra2).
  rewrite Hapi2 in Hapi. injection Hapi as _ <-.
  cbn in Hiter. injection Hiter as <-.
  destruct (entries_of_singleton id_column r2 k entries2 Hk2 Hent2) as (ts2 & ->).
  assert (Htab : get_table (target x) (committed w2)
                 = [mkRow k r1 ts1 "spacex_api_v4" 0]).
  { rewrite Hdb, (same_raw_get_table _ _ (target x) Hraw1).
    apply get_set_table_same. }
  rewrite Htab in Hraw2, Hlogs2.
  cbn [map entry_key fst fresh_count mem existsb upsert_all upsert entry_payload
       entry_time snd app id source_system] in Hraw2, Hlogs2.
  rewrite String.eqb_refl in Hraw2, Hlogs2.
  cbn [orb fst Z.sub Z.add Z.opp Z.pos_sub] in Hraw2, Hlogs2.
  eexists w2', extra2, _.
  split; [apply run_extraction_Ok; exact Hrun2 |].
  split; [exact Hlogs2 |]. split; [exact Hextra2 |].
  split; [rewrite (same_raw_get_table _ _ (target x) Hraw2);
          apply get_set_table_same |].
  split; reflexivity.
Qed.

(** C3: in every world reached from empty raw tables by extraction calls,
    each raw table has at most one row per id, so its distinct-id count
    equals its row count; and after an extraction that returns, the row of
    every id of the batch carries the payload of the last record with that
    id, rows of other ids being as before. *)
Theorem raw_tables_one_row_per_id :
  (forall w,
      reachable id_column w ->
      forall t,
        NoDup (map id (get_table t (committed w)))
        /\ count_distinct_id (get_table t (committed w))
           = count_star (get_table t (committed w)))
  /\ (forall x ctx w n w',
        run_extraction id_column x ctx w = (Ok n, w') ->
        exists code records items entries,
          api w (endpoint x) = Response code (Some records)
          /\ py_iter records = Ok items
          /\ entries_of id_column items entries
          /\ forall k,
               match last_payload k entries with
               | Some d =>
                   exists r,
                     find_row k (get_table (target x) (committed w')) = Some r
                     /\ id r = k /\ data r = d
               | None =>
                   find_row k (get_table (target x) (committed w'))
                   = find_row k (get_table (target x) (committed w))
               end).
Proof.
  split.
  - intros w Hreach t.
    pose proof (reachable_unique id_column w Hreach t) as Hnd.
    split; [exact Hnd |].
    pose proof (no_duplicates_count _ Hnd). lia.
  - intros x ctx w n w' Hrun.
    apply run_extraction_inv in Hrun as [(n0 & Hn & Hb) | (e & w1 & Hr & _)];
      [| discriminate Hr].
    apply try_block_Ok in Hb
      as (code & records & items & entries & Hapi & Hiter & _ & Hent & Hraw).
    exists code, records, items, entries.
    split; [exact Hapi |]. split; [exact Hiter |]. split; [exact Hent |].
    intros k.
    rewrite (same_raw_get_table _ _ (target x) Hraw), get_set_table_same.
    apply upsert_all_last_wins.
Qed.

(** C4: when an extraction call fails, the error it raises is the one its
    [try] block raised, and the ledger has gained exactly one entry, with
    status [failed], zero records processed and the text of that error, or,
    when the ledger write itself could not go through, nothing. *)
Theorem failed_extraction_logged_then_reraised :
  forall x ctx w e w',
    run_extraction id_column x ctx w = (Raise e, w') ->
    exists w1,
      try_block id_column x ctx w = (Raise e, w1)
      /\ pipeline_metadata (committed w1) = pipeline_metadata (committed w)
      /\ pipeline_metadata (committed w')
         = (pipeline_metadata (committed w)
            ++ if ledger_write_ok (faults w1)
               then [mkRunLog (dag_id_of ctx ++ "." ++ task_name x) "failed" 0
                              (clock w1 (ticks w1)) (Some (str e))]
               else [])%list.
Proof.
  intros x ctx w e w' Hrun.
  apply run_extraction_inv in Hrun as [(n & Hr & _) | (e0 & w1 & Hr & Hb & Hf)];
    [discriminate Hr |].
  injection Hr as <-.
  exists w1. split; [exact Hb |].
  pose proof (try_block_Raise id_column x ctx _ _ _ Hb) as Hkeep.
  split; [rewrite Hkeep; reflexivity |].
  destruct (extract_failed_effect (what_of x) (task_name x) ctx e w1)
    as (w2 & Heq & _ & Hmeta & _).
  rewrite Heq in Hf. injection Hf as <-.
  rewrite Hmeta, Hkeep. reflexivity.
Qed.

(** C10: an extraction commits once, after its loop: a call that fails, at
    whatever record, leaves the three raw tables as they were, and a call
    that returns has committed the statements of its whole batch. *)
Theorem extraction_batch_all_or_nothing :
  forall x ctx w r w',
    run_extraction id_column x ctx w = (r, w') ->
    match r with
    | Raise e => same_raw (committed w') (committed w)
    | Ok n =>
        exists code records items entries,
          api w (endpoint x) = Response code (Some records)
          /\ py_iter records = Ok items
          /\ n = Z.of_nat (List.length items)
          /\ entries_of id_column items entries
          /\ same_raw (committed w')
               (set_table (target x)
                  (upsert_all (get_table (target x) (committed w)) entries
                              (next_xid w))
                  (committed w))
    end.
Proof.
  intros x ctx w r w' Hrun.
  apply run_extraction_inv in Hrun as [(n & -> & Hb) | (e & w1 & -> & Hb & Hf)].
  - exact (try_block_Ok id_column x ctx w n w' Hb).
  - apply try_block_Raise in Hb.
    destruct (extract_failed_effect (what_of x) (task_name x) ctx e w1)
      as (w2 & Heq & Hraw & _).
    rewrite Heq in Hf. injection Hf as <-.
    rewrite <- Hb. exact Hraw.
Qed.

End ExtractionTheorems.

(** ** Concrete runs *)

(** C8: the connection of an interaction that raises stays open.  With the
    connection made and the next round trip failing, [extract_launches],
    [extract_rockets] and [check_data_quality] raise, [log_pipeline_run] and
    [get_extraction_summary] return, and each leaves one more connection
    open than it found; when nothing fails the count is back where it was. *)
Theorem connection_left_open_on_exception :
  let lost := sample_world empty_database [None; connection_lost]
                (always batch_with_duplicate) in
  let fine := sample_world empty_database [] (always batch_with_duplicate) in
  open_connections lost = 0%nat
  /\ (exists w',
        extract_launches text_id pipeline_context lost
        = (Raise (OperationalError "server closed the connection unexpectedly"), w')
        /\ open_connections w' = 1%nat)
  /\ (exists w',
        extract_rockets text_id pipeline_context lost
        = (Raise (OperationalError "server closed the connection unexpectedly"), w')
        /\ open_connections w' = 1%nat)
  /\ (exists w',
        check_data_quality pipeline_context lost
        = (Raise (OperationalError "server closed the connection unexpectedly"), w')
        /\ open_connections w' = 1%nat)
  /\ (exists w',
        log_pipeline_run "spacex_etl_pipeline" "extract_launches" "success" 3 None lost
        = (Ok tt, w')
        /\ open_connections w' = 1%nat)
  /\ (exists w',
        get_extraction_summary lost = (Ok [], w')
        /\ open_connections w' = 1%nat)
  /\ (exists w',
        extract_launches text_id pipeline_context fine = (Ok 3, w')
        /\ open_connections w' = 0%nat).
Proof.
  cbv zeta.
  split; [reflexivity |].
  repeat
    match goal with
    | |- _ /\ _ => split
    | |- exists w', ?m = (?r, w') /\ _ =>
        exists (snd m);
        split; [apply run_result; vm_compute; reflexivity
               | vm_compute; reflexivity]
    end.
Qed.

(** *** The quality gate on sample tables *)

(** 60 launches without [date_utc] and 5 satellites: the quality gate reports 60 and
    5, and the calling task raises on the 50-row threshold. *)
Lemma quality_gate_sixty_missing :
  check_data_quality pipeline_context (gate_world sixty_missing)
  = (Ok sixty_missing_checks,
     snd (check_data_quality pipeline_context (gate_world sixty_missing)))
  /\ exists w',
       run_data_quality_checks pipeline_context (gate_world sixty_missing)
       = (Raise (PlainException "Too many launches with missing data"), w').
Proof.
  assert (H : check_data_quality pipeline_context (gate_world sixty_missing)
              = (Ok sixty_missing_checks,
                 snd (check_data_quality pipeline_context (gate_world sixty_missing))))
    by (apply run_result; vm_compute; reflexivity).
  split; [exact H |].
  exact (proj2 (proj2 (proj2 (proj2
           (quality_gate_caller_decision _ _ _ _ H)))) eq_refl).
Defined.

(** Two active, one decayed and two unknown satellites. *)
Lemma starlink_partition_mixed_constellation :
  check_data_quality pipeline_context (gate_world mixed_constellation)
  = (Ok mixed_constellation_checks,
     snd (check_data_quality pipeline_context (gate_world mixed_constellation)))
  /\ 2 + 1 + count_where is_unknown (starlink mixed_constellation) = 5
  /\ count_where is_unknown (starlink mixed_constellation) = 2.
Proof.
  assert (H : check_data_quality pipeline_context (gate_world mixed_constellation)
              = (Ok mixed_constellation_checks,
                 snd (check_data_quality pipeline_context
                        (gate_world mixed_constellation))))
    by (apply run_result; vm_compute; reflexivity).
  split; [exact H |].
  split.
  - exact (proj1 (proj2 (proj2 (proj2 (proj2
             (starlink_counts_three_way_partition _ _ _ _ H)))))).
  - vm_compute. reflexivity.
Defined.

(** *** The summary reader on sample tables *)

(** C9, the claim as worded fails: with a row in each raw table the summary
    comes back non-empty and holds the last-updated timestamps of launches
    and starlink, but nothing for rockets. *)
Lemma summary_omits_rockets_timestamp :
  exists s w',
    get_extraction_summary (gate_world three_tables) = (Ok s, w')
    /\ s <> []
    /\ ~ covers_all_tables s (committed (gate_world three_tables)).
Proof.
  exists (summary_of three_tables),
         (snd (get_extraction_summary (gate_world three_tables))).
  split; [apply run_result; vm_compute; reflexivity |].
  split; [discriminate |].
  intros Hcov. destruct (Hcov Rockets) as (_ & key & Hkey).
  apply assoc_In in Hkey. vm_compute in Hkey.
  repeat (destruct Hkey as [Hkey | Hkey]; [discriminate Hkey |]).
  exact Hkey.
Qed.

(** *** Extractions on sample batches *)

(** C1, the claim as worded fails: the rockets extraction returns without
    having reported an inserted or an updated count. *)
Lemma rockets_extraction_reports_no_counts :
  ~ (forall x, reports_partition (run_extraction text_id x)).
Proof.
  intros H.
  destruct (H Extract_rockets pipeline_context duplicate_run 3
              (snd (extract_rockets text_id pipeline_context duplicate_run)))
    as (what & i & u & Hin & _).
  - apply run_result. vm_compute. reflexivity.
  - vm_compute in Hin. destruct Hin as [Hin | [Hin | []]]; discriminate Hin.
Qed.

Lemma launches_run_returns :
  run_extraction text_id Extract_launches pipeline_context duplicate_run
  = (Ok 3, after_duplicate_run).
Proof. unfold after_duplicate_run. apply run_result. vm_compute. reflexivity. Qed.

(** Three records, two ids: the launches extraction reports counts that add
    up to 3; and the statement run on an empty table for [L1] answers that
    it inserted. *)
Lemma launches_batch_partition :
  (execute_upsert text_id Launches true fresh_connection (JStr "L1")
     (sample_launch "L1" "Falcon Test") 0 "spacex_api_v4" duplicate_run
   = (Ok (one_launch_written, Some true),
      snd (execute_upsert text_id Launches true fresh_connection (JStr "L1")
             (sample_launch "L1" "Falcon Test") 0 "spacex_api_v4" duplicate_run))
   /\ negb (has_id "L1" (launches (work fresh_connection))) = true)
  /\ Extract_launches <> Extract_rockets
  /\ run_extraction text_id Extract_launches pipeline_context duplicate_run
     = (Ok 3, after_duplicate_run)
  /\ exists inserted_count updated_count,
       In (Info_loaded_new_updated "launches" inserted_count updated_count)
          (logs after_duplicate_run)
       /\ inserted_count + updated_count = 3.
Proof.
  assert (Hex : execute_upsert text_id Launches true fresh_connection (JStr "L1")
                  (sample_launch "L1" "Falcon Test") 0 "spacex_api_v4" duplicate_run
                = (Ok (one_launch_written, Some true),
                   snd (execute_upsert text_id Launches true fresh_connection
                          (JStr "L1") (sample_launch "L1" "Falcon Test") 0
                          "spacex_api_v4" duplicate_run)))
    by (apply run_result; vm_compute; reflexivity).
  assert (Hx : Extract_launches <> Extract_rockets) by discriminate.
  split.
  - split; [exact Hex |].
    destruct (proj1 (counting_extractions_partition_batch text_id) _ _ _ _ _ _ _ _ _ _ Hex)
      as (k & Hk & Hres & _).
    cbn in Hk. injection Hk as <-.
    exact (f_equal (fun o => match o with Some b => b | None => true end)
                   (eq_sym Hres)).
  - split; [exact Hx |]. split; [exact launches_run_returns |].
    destruct (proj2 (counting_extractions_partition_batch text_id)
                Extract_launches pipeline_context duplicate_run 3
                after_duplicate_run Hx launches_run_returns)
      as (code & records & items & entries & ins & upd & extra & Hapi & Hiter
          & _ & Hlogs & _ & _ & _ & _ & Hsum & Hn).
    exists ins, upd. split.
    + rewrite Hlogs. apply in_or_app. right. right. left. reflexivity.
    + rewrite Hsum, <- Hn. reflexivity.
Defined.

(** The scenario of the specification: [L1] extracted, then extracted again
    with a new name. *)
Lemma falcon_test_twice :
  exists w1' w2' stored,
    run_extraction text_id Extract_launches pipeline_context first_run
    = (Ok 1, w1')
    /\ In (Info_loaded_new_updated "launches" 1 0) (logs w1')
    /\ run_extraction text_id Extract_launches pipeline_context
         (next_run (committed w1') second_answer)
       = (Ok 1, w2')
    /\ In (Info_loaded_new_updated "launches" 0 1) (logs w2')
    /\ launches (committed w2') = [stored]
    /\ id stored = "L1"
    /\ data stored = sample_launch "L1" "Falcon Test v2".
Proof.
  destruct (upsert_same_record_twice text_id Extract_launches pipeline_context
              first_run 200 (sample_launch "L1" "Falcon Test") "L1"
              ltac:(discriminate) eq_refl eq_refl eq_refl eq_refl eq_refl)
    as (w1' & extra1 & Hrun1 & Hlogs1 & _ & Hsecond).
  destruct (Hsecond (next_run (committed w1') second_answer) 200
              (sample_launch "L1" "Falcon Test v2")
              eq_refl eq_refl eq_refl eq_refl eq_refl)
    as (w2' & extra2 & stored & Hrun2 & Hlogs2 & _ & Htab & Hid & Hdata).
  exists w1', w2', stored.
  split; [exact Hrun1 |].
  split; [rewrite Hlogs1; apply in_or_app; right; right; left; reflexivity |].
  split; [exact Hrun2 |].
  split; [rewrite Hlogs2; apply in_or_app; right; right; left; reflexivity |].
  split; [exact Htab |]. split; [exact Hid | exact Hdata].
Defined.

(** After the batch with [L1] twice, the tables are reachable and free of
    duplicate ids, and the row of [L1] carries the payload of its last
    occurrence. *)
Lemma duplicate_batch_last_wins :
  reachable text_id after_duplicate_run
  /\ NoDup (map id (launches (committed after_duplicate_run)))
  /\ run_extraction text_id Extract_launches pipeline_context duplicate_run
     = (Ok 3, after_duplicate_run)
  /\ exists r,
       find_row "L1" (launches (committed after_duplicate_run)) = Some r
       /\ data r = sample_launch "L1" "Falcon Test v2".
Proof.
  assert (Hreach : reachable text_id after_duplicate_run)
    by (unfold after_duplicate_run; apply reachable_extract, reachable_init;
        reflexivity).
  split; [exact Hreach |].
  split; [exact (proj1 (proj1 (raw_tables_one_row_per_id text_id)
                          after_duplicate_run Hreach Launches)) |].
  split; [exact launches_run_returns |].
  destruct (proj2 (raw_tables_one_row_per_id text_id) Extract_launches
              pipeline_context duplicate_run 3 after_duplicate_run
              launches_run_returns)
    as (code & records & items & entries & Hapi & Hiter & Hent & Hlast).
  cbn in Hapi. injection Hapi as _ <-.
  cbn in Hiter. injection Hiter as <-.
  apply entries_of_cons in Hent as (k1 & ts1 & rest1 & Hk1 & -> & Hent).
  apply entries_of_cons in Hent as (k2 & ts2 & rest2 & Hk2 & -> & Hent).
  apply entries_of_cons in Hent as (k3 & ts3 & rest3 & Hk3 & -> & Hent).
  apply entries_of_nil in Hent as ->.
  cbn in Hk1, Hk2, Hk3.
  injection Hk1 as <-. injection Hk2 as <-. injection Hk3 as <-.
  specialize (Hlast "L1"). cbn in Hlast.
  destruct Hlast as (r & Hfind & _ & Hdata).
  exists r. split; [exact Hfind | exact Hdata].
Defined.

(** The fetch fails: one [failed] entry, the fetch error re-raised. *)
Lemma fetch_failure_logged :
  run_extraction text_id Extract_launches pipeline_context api_down
  = (Raise (RequestException "HTTPSConnectionPool: Read timed out"),
     snd (extract_launches text_id pipeline_context api_down))
  /\ exists w1,
       try_block text_id Extract_launches pipeline_context api_down
       = (Raise (RequestException "HTTPSConnectionPool: Read timed out"), w1)
       /\ pipeline_metadata
            (committed (snd (extract_launches text_id pipeline_context api_down)))
          = if ledger_write_ok (faults w1)
            then [mkRunLog "spacex_etl_pipeline.extract_launches" "failed" 0
                           (clock w1 (ticks w1))
                           (Some "HTTPSConnectionPool: Read timed out")]
            else [].
Proof.
  assert (H : run_extraction text_id Extract_launches pipeline_context api_down
              = (Raise (RequestException "HTTPSConnectionPool: Read timed out"),
                 snd (extract_launches text_id pipeline_context api_down)))
    by (apply (run_result (extract_launches text_id pipeline_context));
        vm_compute; reflexivity).
  split; [exact H |].
  destruct (failed_extraction_logged_then_reraised text_id _ _ _ _ _ H)
    as (w1 & Hb & _ & Hmeta).
  exists w1. split; [exact Hb | exact Hmeta].
Defined.

(** The second record has no id: the first record's write is not committed. *)
Lemma bad_record_leaves_tables :
  run_extraction text_id Extract_launches pipeline_context bad_record_run
  = (Raise (KeyError "id"),
     snd (extract_launches text_id pipeline_context bad_record_run))
  /\ same_raw
       (committed (snd (extract_launches text_id pipeline_context bad_record_run)))
       empty_database.
Proof.
  assert (H : run_extraction text_id Extract_launches pipeline_context bad_record_run
              = (Raise (KeyError "id"),
                 snd (extract_launches text_id pipeline_context bad_record_run)))
    by (apply (run_result (extract_launches text_id pipeline_context));
        vm_compute; reflexivity).
  split; [exact H |].
  exact (extraction_batch_all_or_nothing text_id _ _ _ _ _ H).
Defined.

(** * Properties of the rest of the code *)

(** ** What the computations leave alone *)

Lemma tame_refl w : tame w w.
Proof.
  unfold tame. repeat split; try reflexivity; try lia.
  - exists []. symmetry. apply app_nil_r.
  - auto.
Qed.

Lemma tame_trans w1 w2 w3 : tame w1 w2 -> tame w2 w3 -> tame w1 w3.
Proof.
  unfold tame.
  intros (a1 & a2 & a3 & (e1 & a4) & a5 & a6 & a7)
         (b1 & b2 & b3 & (e2 & b4) & b5 & b6 & b7).
  repeat split; try congruence; try lia; auto.
  exists (e1 ++ e2)%list. rewrite b4, a4, app_assoc. reflexivity.
Qed.

Lemma eq_tame w w' : w = w' -> tame w w'.
Proof. intros <-. apply tame_refl. Qed.

Lemma quiet_tame w w' :
  quiet w w' -> (ticks w <= ticks w')%nat -> (faults w = [] -> faults w' = []) ->
  tame w w'.
Proof.
  intros (q1 & q2 & q3 & q4 & q5 & q6 & q7) Ht Hf.
  unfold tame. repeat split; try assumption.
  - exists []. rewrite app_nil_r. exact q6.
  - rewrite q3. lia.
Qed.

Lemma round_trip_tame : frame tame round_trip.
Proof.
  intros w r w' H. apply quiet_tame.
  - exact (round_trip_quiet _ _ _ H).
  - unfold round_trip in H.
    destruct (faults w) as [| [msg |] rest]; injection H as _ <-; cbn; lia.
  - unfold round_trip in H. intros Hf. rewrite Hf in H.
    injection H as _ <-. exact Hf.
Qed.

Lemma now_tame : frame tame now.
Proof.
  intros w r w' H. injection H as _ <-. unfold tame. cbn.
  repeat split; try lia; auto. exists []. symmetry. apply app_nil_r.
Qed.

Lemma logger_tame l : frame tame (logger l).
Proof.
  intros w r w' H. injection H as _ <-. unfold tame. cbn.
  repeat split; try lia; auto. exists [l]. reflexivity.
Qed.

Lemma psycopg2_connect_tame : frame tame psycopg2_connect.
Proof.
  unfold psycopg2_connect.
  apply (frame_bind tame_trans); [apply round_trip_tame | intros _].
  intros w r w' H. injection H as _ <-. unfold tame. cbn.
  repeat split; try lia; auto. exists []. symmetry. apply app_nil_r.
Qed.

Lemma commit_tame conn : frame tame (commit conn).
Proof.
  unfold commit.
  apply (frame_bind tame_trans); [apply round_trip_tame | intros _].
  intros w r w' H. injection H as _ <-. unfold tame. cbn.
  repeat split; try lia; auto. exists []. symmetry. apply app_nil_r.
Qed.

Lemma close_tame conn : frame tame (close conn).
Proof.
  intros w r w' H. injection H as _ <-. unfold tame. cbn.
  repeat split; try lia; auto. exists []. symmetry. apply app_nil_r.
Qed.

Lemma requests_get_tame url timeout : frame tame (requests_get url timeout).
Proof. exact (frame_weaken _ _ _ eq_tame (requests_get_pure url timeout)). Qed.

Lemma raise_for_status_tame resp : frame tame (raise_for_status resp).
Proof. exact (frame_weaken _ _ _ eq_tame (raise_for_status_pure resp)). Qed.

Lemma response_json_tame resp : frame tame (response_json resp).
Proof. exact (frame_weaken _ _ _ eq_tame (response_json_pure resp)). Qed.

Lemma fetchone_0_tame {A : Type} (res : option A) : frame tame (fetchone_0 res).
Proof.
  destruct res; [apply (frame_ret tame_refl) | apply (frame_raise tame_refl)].
Qed.

Create HintDb tame_db.

#[local] Hint Resolve round_trip_tame now_tame logger_tame psycopg2_connect_tame
  commit_tame close_tame requests_get_tame raise_for_status_tame
  response_json_tame fetchone_0_tame : tame_db.

(** Frames of straight-line code, by its shape. *)
Ltac tame_steps :=
  repeat first
    [ solve [auto with tame_db]
    | apply (frame_ret tame_refl)
    | apply (frame_raise tame_refl)
    | apply (frame_lift tame_refl)
    | apply (frame_bind tame_trans); [| intros ?]
    | apply (frame_try_except tame_trans); [| intros ?]
    | match goal with
      | |- frame _ (let '(_, _) := ?r in _) => destruct r
      | |- frame _ (if ?b then _ else _) => destruct b
      end ].

Lemma get_connection_tame : frame tame get_connection.
Proof. unfold get_connection. tame_steps. Qed.

Lemma log_pipeline_run_tame dag_id task_id st records error :
  frame tame (log_pipeline_run dag_id task_id st records error).
Proof.
  pose proof get_connection_tame.
  unfold log_pipeline_run, cursor, cursor_close, execute_insert_metadata.
  tame_steps.
Qed.

#[local] Hint Resolve get_connection_tame log_pipeline_run_tame : tame_db.

Lemma get_extraction_summary_tame : frame tame get_extraction_summary.
Proof.
  unfold get_extraction_summary, cursor, cursor_close, execute_summary.
  tame_steps.
Qed.

Lemma check_data_quality_tame ctx : frame tame (check_data_quality ctx).
Proof.
  unfold check_data_quality, get_db_connection, cursor, cursor_close,
    execute_launch_counts, execute_missing_data, execute_starlink_status,
    execute_recent_launches.
  tame_steps.
Qed.

Lemma test_connection_tame : frame tame test_connection.
Proof.
  unfold test_connection, cursor, cursor_close, execute_select_1,
    logger_unrecorded.
  tame_steps.
Qed.

Lemma get_pipeline_status_tame : frame tame get_pipeline_status.
Proof.
  unfold get_pipeline_status, get_db_connection, cursor, cursor_close,
    execute_recent_runs, logger_unrecorded.
  tame_steps.
Qed.

Section TameExtractions.

Variable id_column : json -> result string.

Lemma execute_upsert_tame t returning conn v d ts src :
  frame tame (execute_upsert id_column t returning conn v d ts src).
Proof.
  unfold execute_upsert. tame_steps.
Qed.

Lemma upsert_counting_tame t items : forall conn i u,
  frame tame (upsert_counting id_column t conn items i u).
Proof.
  pose proof execute_upsert_tame as Hex.
  induction items as [| item rest IH]; intros conn i u; cbn [upsert_counting].
  - apply (frame_ret tame_refl).
  - apply (frame_bind tame_trans); [apply (frame_lift tame_refl) | intros v].
    apply (frame_bind tame_trans); [apply now_tame | intros ts].
    apply (frame_bind tame_trans); [apply Hex | intros r].
    apply (frame_bind tame_trans); [apply fetchone_0_tame | intros b].
    destruct b; apply IH.
Qed.

Lemma upsert_plain_tame t items : forall conn,
  frame tame (upsert_plain id_column t conn items).
Proof.
  pose proof execute_upsert_tame as Hex.
  induction items as [| item rest IH]; intros conn; cbn [upsert_plain].
  - apply (frame_ret tame_refl).
  - apply (frame_bind tame_trans); [apply (frame_lift tame_refl) | intros v].
    apply (frame_bind tame_trans); [apply now_tame | intros ts].
    apply (frame_bind tame_trans); [apply Hex | intros r].
    apply IH.
Qed.

Lemma run_extraction_tame x ctx : frame tame (run_extraction id_column x ctx).
Proof.
  pose proof upsert_counting_tame as Hc. pose proof upsert_plain_tame as Hp.
  destruct x; cbn [run_extraction];
    unfold extract_launches, extract_starlink, extract_counting,
      extract_counting_body, extract_rockets, extract_rockets_body,
      extract_failed, cursor, cursor_close;
    tame_steps.
Qed.

End TameExtractions.

(** X1: no call into the extractor or into [database_utils] writes to XCom,
    whatever its outcome: after any of the three extractions, the ledger
    write, the summary reader, the quality gate, the connection test and the
    status reader, returning or raising, XCom holds exactly what it held
    before.  Publishing is left to the task functions of the DAG. *)
Theorem core_never_writes_xcom :
  forall (id_column : json -> result string) (w w' : world),
    (forall x ctx r,
        run_extraction id_column x ctx w = (r, w') -> xcom w' = xcom w)
    /\ (forall dag_id task_id st records error r,
          log_pipeline_run dag_id task_id st records error w = (r, w') ->
          xcom w' = xcom w)
    /\ (forall r, get_extraction_summary w = (r, w') -> xcom w' = xcom w)
    /\ (forall ctx r, check_data_quality ctx w = (r, w') -> xcom w' = xcom w)
    /\ (forall r, test_connection w = (r, w') -> xcom w' = xcom w)
    /\ (forall r, get_pipeline_status w = (r, w') -> xcom w' = xcom w).
Proof.
  intros id_column w w'.
  split; [intros x ctx r H;
          exact (proj1 (run_extraction_tame id_column x ctx _ _ _ H)) |].
  split; [intros dag_id task_id st records error r H;
          exact (proj1 (log_pipeline_run_tame _ _ _ _ _ _ _ _ H)) |].
  split; [intros r H; exact (proj1 (get_extraction_summary_tame _ _ _ H)) |].
  split; [intros ctx r H; exact (proj1 (check_data_quality_tame ctx _ _ _ H)) |].
  split; [intros r H; exact (proj1 (test_connection_tame _ _ _ H))
         | intros r H; exact (proj1 (get_pipeline_status_tame _ _ _ H))].
Qed.

(** ** The pre-flight check *)

Lemma test_connection_result w :
  exists w',
    test_connection w = (Ok (first_two_ok (faults w)), w')
    /\ committed w' = committed w
    /\ (first_two_ok (faults w) = true -> open_connections w' = open_connections w).
Proof.
  destruct w as [db oc nx fl clk tk ap lg xc].
  unfold test_connection, try_except, get_connection, try_except,
    psycopg2_connect, execute_select_1, close, cursor, cursor_close,
    logger_unrecorded, logger, raise, ret, bind, round_trip.
  cbn.
  repeat fault_case;
    (eexists; split; [reflexivity |]; cbn; split;
     [reflexivity | intros H; first [reflexivity | discriminate H]]).
Qed.

(** X2: the pre-flight task never lets the driver's error through.  When
    the connection and [SELECT 1] go through it returns its message with the
    connection closed; otherwise it raises the one generic exception,
    whatever the driver had raised.  The database is as before either way. *)
Theorem test_database_connection_outcome :
  forall ctx w,
  exists w',
    committed w' = committed w
    /\ xcom w' = xcom w
    /\ if first_two_ok (faults w)
       then test_database_connection ctx w
            = (Ok "Database connection successful", w')
            /\ open_connections w' = open_connections w
       else test_database_connection ctx w
            = (Raise (PlainException "Database connection test failed"), w').
Proof.
  intros ctx w.
  destruct (test_connection_result w) as (w' & Heq & Hdb & Hopen).
  pose proof (test_connection_tame _ _ _ Heq) as (Hx & _).
  exists w'. split; [exact Hdb |]. split; [exact Hx |].
  unfold test_database_connection.
  rewrite (bind_eq_Ok _ _ _ _ _ Heq).
  destruct (first_two_ok (faults w)); cbn.
  - split; [reflexivity | apply Hopen; reflexivity].
  - reflexivity.
Qed.

(** ** The tasks of the DAG *)

(** X3: an extraction task pushes its count to XCom only when the extraction
    returns: then XCom gains exactly the pair of its key and the count the
    extraction returned, after everything the extraction did; when the
    extraction raises, the task raises the same error in the same world,
    and XCom is as it was. *)
Theorem extraction_task_pushes_count :
  forall (id_column : json -> result string) x ctx w r w',
    run_extraction_task id_column x ctx w = (r, w') ->
    match r with
    | Ok msg =>
        exists n w0,
          run_extraction id_column x ctx w = (Ok n, w0)
          /\ w' = set_xcom (xcom w ++ [(xcom_key x, XInt n)]) w0
          /\ xcom w' = (xcom w ++ [(xcom_key x, XInt n)])%list
    | Raise e =>
        run_extraction id_column x ctx w = (Raise e, w')
        /\ xcom w' = xcom w
    end.
Proof.
  intros id_column x ctx w r w' H.
  assert (Hshape :
    run_extraction_task id_column x ctx
    = (n <- run_extraction id_column x ctx ;;
       xcom_push (xcom_key x) (XInt n) ;;
       ret (match x with
            | Extract_launches => "Extracted " ++ decimal n ++ " launch records"
            | Extract_starlink =>
                "Extracted " ++ decimal n ++ " Starlink satellite records"
            | Extract_rockets => "Extracted " ++ decimal n ++ " rocket records"
            end))%string)
    by (destruct x; reflexivity).
  rewrite Hshape in H. clear Hshape.
  unfold bind at 1 in H.
  destruct (run_extraction id_column x ctx w) as [[n | e] w0] eqn:Hrun.
  - pose proof (run_extraction_tame id_column x ctx _ _ _ Hrun) as (Hx & _).
    unfold bind, xcom_push, ret in H. injection H as <- <-.
    exists n, w0. split; [reflexivity |].
    rewrite Hx. split; reflexivity.
  - pose proof (run_extraction_tame id_column x ctx _ _ _ Hrun) as (Hx & _).
    injection H as <- <-. split; [reflexivity | exact Hx].
Qed.

Lemma check_data_quality_keeps ctx : frame keeps_committed (check_data_quality ctx).
Proof.
  intros w r w' H.
  destruct r as [checks | e].
  - destruct (check_data_quality_Ok _ _ _ _ H) as (_ & _ & Hdb & _). exact Hdb.
  - revert H.
    destruct w as [db oc nx fl clk tk ap lg xc].
    unfold check_data_quality, try_except, get_db_connection, psycopg2_connect,
      execute_launch_counts, execute_missing_data, execute_starlink_status,
      execute_recent_launches, close, cursor, cursor_close, now, logger, raise,
      ret, bind, round_trip.
    cbn. intros H.
    repeat fault_case; try discriminate H; inv_pair H; reflexivity.
Qed.

(** X4: the quality task publishes before it decides.  Whenever the quality
    gate returns its result, that result is pushed to XCom under
    [quality_checks], also when the task then raises on a threshold; when
    the gate itself raises, the task raises the same error and pushes
    nothing.  The database is never written. *)
Theorem quality_task_publishes_then_decides :
  forall ctx w r w',
    run_data_quality_checks ctx w = (r, w') ->
    committed w' = committed w
    /\ ((exists checks w1,
           check_data_quality ctx w = (Ok checks, w1)
           /\ xcom w' = (xcom w ++ [("quality_checks", XChecks checks)])%list
           /\ (r = Ok checks
               \/ r = Raise (PlainException "Too many launches with missing data")
               \/ r = Raise (PlainException "No Starlink satellite data found")))
        \/ (exists e,
              check_data_quality ctx w = (Raise e, w')
              /\ r = Raise e
              /\ xcom w' = xcom w)).
Proof.
  intros ctx w r w' H.
  destruct (check_data_quality ctx w) as [[checks | e] w1] eqn:Hc.
  - pose proof (check_data_quality_keeps ctx _ _ _ Hc) as Hdb.
    pose proof (check_data_quality_tame ctx _ _ _ Hc) as (Hx & _).
    rewrite (run_data_quality_checks_decision _ _ _ _ Hc) in H.
    injection H as <- <-. cbn [committed set_xcom xcom].
    split; [exact Hdb |]. left. exists checks, w1.
    split; [reflexivity |]. split; [rewrite Hx; reflexivity |].
    destruct (dict_get checks "launches_missing_data" 0 >? 50); [auto |].
    destruct (dict_get checks "starlink_total" 0 =? 0); auto.
  - pose proof (check_data_quality_keeps ctx _ _ _ Hc) as Hdb.
    pose proof (check_data_quality_tame ctx _ _ _ Hc) as (Hx & _).
    unfold run_data_quality_checks in H.
    rewrite (bind_eq_Raise _ _ _ _ _ Hc) in H. injection H as <- <-.
    split; [exact Hdb |]. right. exists e. auto.
Qed.

(** ** The status view of the ledger *)

Lemma insert_by_run_date_perm r l : Permutation (insert_by_run_date r l) (r :: l).
Proof.
  induction l as [| h t IH]; cbn [insert_by_run_date]; [apply Permutation_refl |].
  destruct (run_date h <=? run_date r); [apply Permutation_refl |].
  apply perm_trans with (h :: r :: t); [apply perm_skip, IH | apply perm_swap].
Qed.

Lemma order_by_run_date_desc_perm l : Permutation (order_by_run_date_desc l) l.
Proof.
  induction l as [| r l IH]; cbn [order_by_run_date_desc fold_right];
    [apply Permutation_refl |].
  apply perm_trans with (r :: order_by_run_date_desc l);
    [apply insert_by_run_date_perm | apply perm_skip, IH].
Qed.

Lemma insert_by_run_date_sorted r l :
  StronglySorted not_newer l -> StronglySorted not_newer (insert_by_run_date r l).
Proof.
  induction 1 as [| h t Hs IH Hh]; cbn [insert_by_run_date].
  - constructor; constructor.
  - destruct (Z.leb_spec (run_date h) (run_date r)) as [Hle | Hgt].
    + constructor; [constructor; assumption |].
      constructor; [exact Hle |].
      eapply Forall_impl; [| exact Hh]. unfold not_newer. intros a Ha. lia.
    + constructor; [exact IH |].
      apply (Permutation_Forall (Permutation_sym (insert_by_run_date_perm r t))).
      constructor; [unfold not_newer; lia | exact Hh].
Qed.

Lemma order_by_run_date_desc_sorted l :
  StronglySorted not_newer (order_by_run_date_desc l).
Proof.
  induction l as [| r l IH]; cbn [order_by_run_date_desc fold_right];
    [constructor | apply insert_by_run_date_sorted, IH].
Qed.

Lemma StronglySorted_app_inv {A : Type} (R : A -> A -> Prop) (l1 l2 : list A) :
  StronglySorted R (l1 ++ l2) ->
  StronglySorted R l1 /\ forall a b, In a l1 -> In b l2 -> R a b.
Proof.
  induction l1 as [| x l1 IH]; cbn [app]; intros H.
  - split; [constructor | intros a b []].
  - inversion H as [| ? ? Hs Hx]; subst.
    destruct (IH Hs) as (Hs1 & Hcross).
    apply Forall_app in Hx as (Hx1 & Hx2).
    split; [constructor; assumption |].
    intros a b [<- | Ha] Hb.
    + rewrite Forall_forall in Hx2. exact (Hx2 b Hb).
    + exact (Hcross a b Ha Hb).
Qed.

(** What [ORDER BY run_date DESC LIMIT 10] over the rows of the last day
    returns. *)
Lemma recent_runs_spec (server_now : Z) (ledger : list run_log) :
  let runs :=
    firstn 10 (order_by_run_date_desc (filter (in_last_day server_now) ledger)) in
  (List.length runs <= 10)%nat
  /\ StronglySorted not_newer runs
  /\ (forall r, In r runs -> In r ledger /\ server_now - one_day <= run_date r)
  /\ (forall r, In r ledger -> server_now - one_day <= run_date r ->
        In r runs
        \/ (List.length runs = 10%nat /\ forall r', In r' runs -> not_newer r' r)).
Proof.
  set (recent := filter (in_last_day server_now) ledger).
  set (sorted := order_by_run_date_desc recent).
  intros runs.
  pose proof (order_by_run_date_desc_sorted recent) as Hsorted. fold sorted in Hsorted.
  pose proof (order_by_run_date_desc_perm recent) as Hperm. fold sorted in Hperm.
  rewrite <- (firstn_skipn 10 sorted) in Hsorted.
  apply StronglySorted_app_inv in Hsorted as (Hs1 & Hcross).
  split; [apply firstn_le_length |]. split; [exact Hs1 |]. split.
  - intros r Hr.
    assert (Hin : In r recent).
    { apply (Permutation_in _ Hperm).
      rewrite <- (firstn_skipn 10 sorted). apply in_or_app. left. exact Hr. }
    apply filter_In in Hin as (Hin & Hw). split; [exact Hin |].
    unfold in_last_day in Hw. apply Z.leb_le in Hw. exact Hw.
  - intros r Hin Hw.
    assert (Hrec : In r recent)
      by (apply filter_In; split; [exact Hin | apply Z.leb_le; exact Hw]).
    apply (Permutation_in _ (Permutation_sym Hperm)) in Hrec.
    rewrite <- (firstn_skipn 10 sorted) in Hrec.
    apply in_app_or in Hrec as [Hfirst | Hrest]; [left; exact Hfirst | right].
    split; [| intros r' Hr'; exact (Hcross r' r Hr' Hrest)].
    unfold runs. rewrite length_firstn.
    destruct (Nat.le_gt_cases 10 (List.length sorted)) as [Hle | Hlt];
      [lia |].
    rewrite skipn_all2 in Hrest by lia. destruct Hrest.
Qed.

(** X5: [get_pipeline_status] never raises and never writes.  What it
    returns has at most 10 runs, newest first, each a ledger row of the last
    24 hours; when its connection and query go through, no ledger row of the
    last 24 hours is left out unless 10 runs at least as new are returned;
    when they do not, it returns no runs. *)
Theorem get_pipeline_status_recent_runs :
  forall w,
  exists runs w',
    get_pipeline_status w = (Ok runs, w')
    /\ committed w' = committed w
    /\ (List.length runs <= 10)%nat
    /\ StronglySorted not_newer runs
    /\ (forall r, In r runs ->
          In r (pipeline_metadata (committed w))
          /\ clock w (ticks w) - one_day <= run_date r)
    /\ if first_two_ok (faults w)
       then forall r,
              In r (pipeline_metadata (committed w)) ->
              clock w (ticks w) - one_day <= run_date r ->
              In r runs
              \/ (List.length runs = 10%nat
                  /\ forall r', In r' runs -> not_newer r' r)
       else runs = [].
Proof.
  intros [db oc nx fl clk tk ap lg xc].
  pose proof (recent_runs_spec (clk tk) (pipeline_metadata db))
    as (Hlen & Hsorted & Hsub & Hall).
  unfold get_pipeline_status, try_except, get_db_connection, psycopg2_connect,
    execute_recent_runs, close, cursor, cursor_close, logger_unrecorded, now,
    raise, ret, bind, round_trip.
  cbn [faults committed clock ticks set_faults set_ticks set_open_connections
       set_next_xid work first_two_ok open_connections next_xid].
  destruct fl as [| [msg |] [| [msg' |] rest]];
    cbn [faults committed clock ticks set_faults set_ticks set_open_connections
         set_next_xid work first_two_ok open_connections next_xid];
    do 2 eexists; (split; [reflexivity |]);
    cbn [committed]; rewrite ?map_id;
    (split; [reflexivity |]);
    first [ exact (conj Hlen (conj Hsorted (conj Hsub Hall)))
          | split; [cbn; lia |];
            split; [constructor |];
            split; [intros r [] | reflexivity] ].
Qed.

(** ** Rows of the raw tables *)

Lemma upsert_find_keeps t k d ts src x k' r :
  find_row k' t = Some r ->
  exists r',
    find_row k' (fst (upsert t k d ts src x)) = Some r'
    /\ id r' = id r
    /\ source_system r' = source_system r
    /\ (k' <> k -> r' = r).
Proof.
  induction t as [| h t IH]; [discriminate |].
  unfold find_row. cbn [find upsert].
  destruct (String.eqb (id h) k) eqn:Ehk.
  - cbn [fst find id].
    destruct (String.eqb (id h) k') eqn:Ehk'.
    + intros H. injection H as <-. eexists. split; [reflexivity |].
      cbn. repeat split.
      intros Hne. apply String.eqb_eq in Ehk, Ehk'. congruence.
    + intros H. exists r. repeat split. exact H.
  - destruct (upsert t k d ts src x) as [t'' wr] eqn:U. cbn [fst find] in *.
    destruct (String.eqb (id h) k') eqn:Ehk'.
    + intros H. injection H as <-. exists h. repeat split.
    + intros H. exact (IH H).
Qed.

Lemma upsert_all_find_keeps entries x : forall t k' r,
  find_row k' t = Some r ->
  exists r',
    find_row k' (upsert_all t entries x) = Some r'
    /\ id r' = id r
    /\ source_system r' = source_system r.
Proof.
  induction entries as [| e entries IH]; intros t k' r H; cbn [upsert_all].
  - exists r. repeat split. exact H.
  - destruct (upsert_find_keeps t (entry_key e) (entry_payload e) (entry_time e)
                "spacex_api_v4" x k' r H) as (r1 & H1 & Hid1 & Hsrc1 & _).
    destruct (IH _ _ _ H1) as (r2 & H2 & Hid2 & Hsrc2).
    exists r2. repeat split; congruence.
Qed.

Lemma upsert_all_length_le entries x t :
  (List.length t <= List.length (upsert_all t entries x))%nat.
Proof.
  pose proof (upsert_all_length entries x t) as H.
  pose proof (fresh_count_bounds (map id t) (map entry_key entries)). lia.
Qed.

Section RowProperties.

Variable id_column : json -> result string.

Lemma upsert_written t k d ts x :
  Forall (written_by_core id_column) t ->
  record_key id_column d = Ok k ->
  Forall (written_by_core id_column) (fst (upsert t k d ts "spacex_api_v4" x)).
Proof.
  intros Ht Hk. induction Ht as [| h t Hh Ht IH]; cbn [upsert].
  - constructor; [split; [exact Hk | reflexivity] | constructor].
  - destruct (String.eqb (id h) k) eqn:E; cbn [fst].
    + apply String.eqb_eq in E. constructor; [| exact Ht].
      split; cbn; [rewrite E; exact Hk | exact (proj2 Hh)].
    + destruct (upsert t k d ts "spacex_api_v4" x) as [t'' wr]. cbn [fst] in *.
      constructor; assumption.
Qed.

Lemma upsert_all_written entries x : forall t,
  Forall (written_by_core id_column) t ->
  Forall (fun e => record_key id_column (entry_payload e) = Ok (entry_key e)) entries ->
  Forall (written_by_core id_column) (upsert_all t entries x).
Proof.
  induction entries as [| e entries IH]; intros t Ht He; cbn [upsert_all];
    [exact Ht |].
  inversion He as [| ? ? Hk Hrest]; subst.
  apply IH; [apply upsert_written; assumption | exact Hrest].
Qed.

Lemma run_extraction_committed x ctx w r w' :
  run_extraction id_column x ctx w = (r, w') ->
  same_raw (committed w') (committed w)
  \/ exists entries,
       Forall (fun e => record_key id_column (entry_payload e) = Ok (entry_key e))
              entries
       /\ same_raw (committed w')
            (set_table (target x)
               (upsert_all (get_table (target x) (committed w)) entries (next_xid w))
               (committed w)).
Proof.
  intros Hrun.
  apply run_extraction_inv in Hrun as [(n & _ & Hb) | (e & w1 & _ & Hb & Hf)].
  - right.
    apply try_block_Ok in Hb
      as (code & records & items & entries & _ & _ & _ & (_ & Hall) & Hraw).
    exists entries. split; assumption.
  - left. apply try_block_Raise in Hb.
    destruct (extract_failed_effect (what_of x) (task_name x) ctx e w1)
      as (w2 & Heq & Hraw & _).
    rewrite Heq in Hf. injection Hf as <-. rewrite <- Hb. exact Hraw.
Qed.

(** X6: every row of a raw table reached from empty tables by extraction
    calls is stored under the key of its own payload ([record['id']] as the
    id column takes it) and carries the provenance tag [spacex_api_v4]. *)
Theorem reachable_rows_written_by_core :
  forall w,
    reachable id_column w ->
    forall t r,
      In r (get_table t (committed w)) -> written_by_core id_column r.
Proof.
  intros w Hreach.
  assert (Hall : forall t, Forall (written_by_core id_column) (get_table t (committed w))).
  { induction Hreach as [w Hinit | w w' _ IH Heq | w x ctx _ IH].
    - intros t. rewrite Hinit. destruct t; constructor.
    - intros t. rewrite Heq. apply IH.
    - intros t.
      destruct (run_extraction id_column x ctx w) as [r w'] eqn:Hrun. cbn [snd].
      apply run_extraction_committed in Hrun as [Hraw | (entries & He & Hraw)];
        rewrite (same_raw_get_table _ _ t Hraw); [apply IH |].
      destruct (raw_table_eq_dec t (target x)) as [-> | Hne].
      + rewrite get_set_table_same. apply upsert_all_written; [apply IH | exact He].
      + rewrite get_set_table_other by exact Hne. apply IH. }
  intros t r Hin. specialize (Hall t). rewrite Forall_forall in Hall.
  exact (Hall r Hin).
Qed.

(** X7: an extraction call never deletes a row and never rewrites its
    provenance: whatever the outcome, every id found in a raw table before
    the call is found after it, with the same [source_system]; the tables
    other than the target of the call hold the same rows; and no table has
    fewer rows than before. *)
Theorem extraction_never_deletes :
  forall x ctx w r w',
    run_extraction id_column x ctx w = (r, w') ->
    forall t,
      (List.length (get_table t (committed w))
       <= List.length (get_table t (committed w')))%nat
      /\ (t <> target x -> get_table t (committed w') = get_table t (committed w))
      /\ forall k old,
           find_row k (get_table t (committed w)) = Some old ->
           exists new,
             find_row k (get_table t (committed w')) = Some new
             /\ id new = id old
             /\ source_system new = source_system old.
Proof.
  intros x ctx w r w' Hrun t.
  apply run_extraction_committed in Hrun as [Hraw | (entries & _ & Hraw)];
    rewrite (same_raw_get_table _ _ t Hraw).
  - split; [lia |]. split; [reflexivity |].
    intros k old H. exists old. auto.
  - destruct (raw_table_eq_dec t (target x)) as [-> | Hne].
    + rewrite get_set_table_same.
      split; [apply upsert_all_length_le |]. split; [congruence |].
      intros k old H. exact (upsert_all_find_keeps _ _ _ _ _ H).
    + rewrite get_set_table_other by exact Hne.
      split; [lia |]. split; [reflexivity |].
      intros k old H. exists old. auto.
Qed.

End RowProperties.

(** ** How the quality gate reads a payload *)

Lemma decimal_inj n m : decimal n = decimal m -> n = m.
Proof.
  unfold decimal. intros H. apply DecimalZ.to_int_inj.
  assert (Hnn : forall z, Z.to_int z <> Decimal.Pos Decimal.Nil
                          /\ Z.to_int z <> Decimal.Neg Decimal.Nil).
  { intros z. destruct z; cbn; split; try discriminate.
    all: intros E; injection E as E.
    all: try (revert E; apply DecimalPos.Unsigned.to_uint_nonnil). }
  apply (f_equal NilZero.int_of_string) in H.
  rewrite !NilZero.isi in H by apply Hnn.
  injection H as H. exact H.
Qed.

Lemma flag_text_is (doc : option json) (key : string) (n : Z) :
  n = 0 \/ n = 1 ->
  sql_text_is (arrow_text doc key) (decimal n) = true
  <-> arrow doc key = Some (JNum n) \/ arrow doc key = Some (JStr (decimal n)).
Proof.
  intros Hn. unfold arrow_text, sql_text_is.
  destruct (arrow doc key) as [v |];
    [| split; [discriminate | intros [H | H]; discriminate H]].
  destruct v as [| b | m | s | items | fields].
  - split; [discriminate | intros [H | H]; discriminate H].
  - split; [| intros [H | H]; discriminate H].
    destruct Hn as [-> | ->], b; cbn; discriminate.
  - cbn [json_out]. split.
    + intros H. apply String.eqb_eq, decimal_inj in H. subst m. left. reflexivity.
    + intros [H | H]; [| discriminate H]. injection H as ->. apply String.eqb_refl.
  - split.
    + intros H. apply String.eqb_eq in H. subst s. right. reflexivity.
    + intros [H | H]; [discriminate H |]. injection H as ->. apply String.eqb_refl.
  - split; [| intros [H | H]; discriminate H].
    destruct Hn as [-> | ->]; cbn; discriminate.
  - split; [| intros [H | H]; discriminate H].
    destruct Hn as [-> | ->]; cbn; discriminate.
Qed.

(** X8: how the quality gate reads the [DECAYED] field under [spaceTrack]
    of a payload, for the values of the model (a number is an integer; a
    number written with a fraction, such as 0.0, is outside it).  A
    satellite counts as active exactly when the field is the integer 0 or
    the string "0", and as inactive exactly when it is the integer 1 or the
    string "1".  A boolean flag is never read as either: [false] is not
    active and [true] is not inactive.  Null, a missing field and a
    [spaceTrack] that is no object make it neither as well. *)
Theorem decay_flag_reading :
  forall r : row,
    (is_active r = true
     <-> arrow (arrow (Some (data r)) "spaceTrack") "DECAYED" = Some (JNum 0)
         \/ arrow (arrow (Some (data r)) "spaceTrack") "DECAYED" = Some (JStr "0"))
    /\ (is_inactive r = true
        <-> arrow (arrow (Some (data r)) "spaceTrack") "DECAYED" = Some (JNum 1)
            \/ arrow (arrow (Some (data r)) "spaceTrack") "DECAYED" = Some (JStr "1"))
    /\ (forall b : bool,
          arrow (arrow (Some (data r)) "spaceTrack") "DECAYED" = Some (JBool b) ->
          is_unknown r = true)
    /\ (arrow (arrow (Some (data r)) "spaceTrack") "DECAYED" = Some JNull
        \/ arrow (arrow (Some (data r)) "spaceTrack") "DECAYED" = None ->
        is_unknown r = true)
    /\ (forall v : json,
          arrow (Some (data r)) "spaceTrack" = Some v ->
          (forall fields, v <> JObj fields) ->
          is_unknown r = true).
Proof.
  intros r.
  split; [| split; [| split; [| split]]].
  - exact (flag_text_is (arrow (Some (data r)) "spaceTrack") "DECAYED" 0
             (or_introl eq_refl)).
  - exact (flag_text_is (arrow (Some (data r)) "spaceTrack") "DECAYED" 1
             (or_intror eq_refl)).
  - intros b H. unfold is_unknown, is_active, is_inactive, decayed, arrow_text.
    rewrite H. destruct b; reflexivity.
  - intros H. unfold is_unknown, is_active, is_inactive, decayed, arrow_text.
    destruct H as [H | H]; rewrite H; reflexivity.
  - intros v Hv Hobj.
    unfold is_unknown, is_active, is_inactive, decayed, arrow_text.
    rewrite Hv.
    destruct v as [| b | n | s | items | fields]; try reflexivity.
    exfalso. exact (Hobj fields eq_refl).
Qed.

Lemma count_where_le (p : row -> bool) (t : table) : count_where p t <= count_star t.
Proof.
  unfold count_where, count_star.
  pose proof (filter_length_le p t). lia.
Qed.

Lemma count_distinct_le (t : table) : count_distinct_id t <= count_star t.
Proof.
  unfold count_distinct_id, count_star.
  assert (H : forall l : list string,
             (List.length (nodup string_dec l) <= List.length l)%nat).
  { induction l as [| a l IH]; cbn [nodup List.length]; [lia |].
    destruct (in_dec string_dec a l); cbn [List.length]; lia. }
  specialize (H (map id t)). rewrite length_map in H. lia.
Qed.

(** X9: the counts of the quality gate are bounded by the tables: every
    value is non-negative, duplicates, missing and recent launches are at
    most the number of launch rows, active plus inactive satellites at most
    the number of satellite rows; and on tables reached from empty ones by
    extraction calls the gate reports no duplicate. *)
Theorem quality_counts_bounded :
  forall ctx w checks w',
    check_data_quality ctx w = (Ok checks, w') ->
    let value key := dict_get checks key 0 in
    0 <= value "launches_duplicates" <= count_star (launches (committed w))
    /\ 0 <= value "launches_missing_data" <= count_star (launches (committed w))
    /\ 0 <= value "recent_launches" <= count_star (launches (committed w))
    /\ 0 <= value "starlink_active"
    /\ 0 <= value "starlink_inactive"
    /\ value "starlink_active" + value "starlink_inactive" <= value "starlink_total"
    /\ value "starlink_total" = count_star (starlink (committed w))
    /\ forall id_column,
         reachable id_column w -> value "launches_duplicates" = 0.
Proof.
  intros ctx w checks w' H.
  destruct (check_data_quality_Ok _ _ _ _ H) as (sn & -> & _ & _).
  cbn.
  pose proof (count_distinct_le (launches (committed w))) as Hd.
  pose proof (count_where_le missing_data (launches (committed w))) as Hm.
  pose proof (count_where_le (is_recent sn) (launches (committed w))) as Hr.
  pose proof (count_where_nonneg missing_data (launches (committed w))).
  pose proof (count_where_nonneg (is_recent sn) (launches (committed w))).
  pose proof (count_where_nonneg is_active (starlink (committed w))).
  pose proof (count_where_nonneg is_inactive (starlink (committed w))).
  pose proof (count_where_nonneg is_unknown (starlink (committed w))).
  pose proof (status_counts_partition (starlink (committed w))).
  assert (0 <= count_distinct_id (launches (committed w)))
    by (unfold count_distinct_id; lia).
  do 3 (split; [lia |]). do 3 (split; [lia |]). split; [reflexivity |].
  intros id_column Hreach.
  apply no_duplicates_count.
  exact (reachable_unique id_column w Hreach Launches).
Qed.

(** ** The summary after an extraction *)

Lemma get_extraction_summary_Ok w :
  first_two_ok (faults w) = true ->
  exists w',
    get_extraction_summary w = (Ok (summary_of (committed w)), w')
    /\ open_connections w' = open_connections w.
Proof.
  destruct w as [db oc nx fl clk tk ap lg xc].
  unfold get_extraction_summary, try_except, get_connection, try_except,
    psycopg2_connect, execute_summary, close, cursor, cursor_close, logger,
    raise, ret, bind, round_trip, summary_of.
  cbn. intros Hok.
  repeat fault_case; try discriminate Hok;
    (eexists; split; reflexivity).
Qed.

Lemma summary_count db t :
  assoc (count_key t) (summary_of db) = Some (SCount (count_star (get_table t db))).
Proof. destruct t; reflexivity. Qed.

(** X10: the summary read after an extraction that returned shows it: the
    row count of the target table is its count before the call plus the
    number of records of the batch whose id met no row, and the counts of
    the other two tables are as before the call. *)
Theorem summary_counts_follow_extraction :
  forall (id_column : json -> result string) x ctx w n w' w2,
    run_extraction id_column x ctx w = (Ok n, w') ->
    committed w2 = committed w' ->
    first_two_ok (faults w2) = true ->
    exists s w3 code records items entries,
      get_extraction_summary w2 = (Ok s, w3)
      /\ api w (endpoint x) = Response code (Some records)
      /\ py_iter records = Ok items
      /\ entries_of id_column items entries
      /\ assoc (count_key (target x)) s
         = Some (SCount (count_star (get_table (target x) (committed w))
                         + fresh_count (map id (get_table (target x) (committed w)))
                                       (map entry_key entries)))
      /\ forall t, t <> target x ->
           assoc (count_key t) s
           = Some (SCount (count_star (get_table t (committed w)))).
Proof.
  intros id_column x ctx w n w' w2 Hrun Hdb Hok.
  apply run_extraction_inv in Hrun as [(n0 & _ & Hb) | (e & w1 & Hr & _)];
    [| discriminate Hr].
  apply try_block_Ok in Hb
    as (code & records & items & entries & Hapi & Hiter & _ & Hent & Hraw).
  destruct (get_extraction_summary_Ok w2 Hok) as (w3 & Hsum & _).
  exists (summary_of (committed w2)), w3, code, records, items, entries.
  split; [exact Hsum |]. split; [exact Hapi |]. split; [exact Hiter |].
  split; [exact Hent |].
  rewrite Hdb. split.
  - rewrite summary_count, (same_raw_get_table _ _ (target x) Hraw),
      get_set_table_same.
    unfold count_star at 1. rewrite upsert_all_length. reflexivity.
  - intros t Hne.
    rewrite summary_count, (same_raw_get_table _ _ t Hraw),
      get_set_table_other by exact Hne.
    reflexivity.
Qed.

(** ** An empty batch *)

(** X11: a batch without records is a success.  When the API answers with
    a good status and a body that iterates to nothing (an empty array, also
    an empty object or an empty string) and the store does not fail, the
    extraction returns 0 and the raw tables are as before. *)
Theorem empty_batch_returns_zero :
  forall (id_column : json -> result string) x ctx w code records,
    api w (endpoint x) = Response code (Some records) ->
    good_status code ->
    py_iter records = Ok [] ->
    faults w = [] ->
    exists w',
      run_extraction id_column x ctx w = (Ok 0, w')
      /\ same_raw (committed w') (committed w).
Proof.
  intros id_column x ctx w code records Hapi Hcode Hiter Hf.
  destruct (try_block_total id_column x ctx w code records [] Hapi Hcode Hiter
              (Forall_nil _) Hf) as (w' & Hb).
  exists w'. split; [apply run_extraction_Ok; exact Hb |].
  apply try_block_Ok in Hb
    as (code' & records' & items & entries & Hapi' & Hiter' & _ & Hent & Hraw).
  rewrite Hapi in Hapi'. injection Hapi' as _ <-.
  rewrite Hiter in Hiter'. injection Hiter' as <-.
  apply entries_of_nil in Hent. subst entries.
  cbn [upsert_all] in Hraw. rewrite set_get_table in Hraw. exact Hraw.
Qed.

(** ** The outcome of an extraction in the ledger *)

Lemma settled_refl w : settled w w.
Proof. unfold settled. auto. Qed.

Lemma settled_trans w1 w2 w3 : settled w1 w2 -> settled w2 w3 -> settled w1 w3.
Proof.
  unfold settled. intros (a1 & a2 & a3 & a4) (b1 & b2 & b3 & b4).
  repeat split; try congruence. auto.
Qed.

Lemma quiet_tame_settled w w' : quiet w w' -> tame w w' -> settled w w'.
Proof.
  intros (q1 & q2 & q3 & _) (_ & _ & _ & _ & _ & _ & Hf).
  unfold settled. auto.
Qed.

Lemma eq_settled w w' : w = w' -> settled w w'.
Proof. intros <-. apply settled_refl. Qed.

Lemma logger_settled l : frame settled (logger l).
Proof. intros w r w' H. injection H as _ <-. unfold settled. cbn. auto. Qed.

Lemma bind_Ok_frame {A B : Type} (R : world -> world -> Prop) (m : M A)
    (f : A -> M B) w b w' :
  frame R m ->
  bind m f w = (Ok b, w') ->
  exists a w1, R w w1 /\ m w = (Ok a, w1) /\ f a w1 = (Ok b, w').
Proof.
  intros Hm H. apply bind_Ok_inv in H as (a & w1 & Hs & H).
  exists a, w1. split; [exact (Hm _ _ _ Hs) | auto].
Qed.

Lemma tail_Ok_calm conn l dag_id task_id n w m w' :
  faults w = [] ->
  (commit conn ;; cursor_close ;; close conn ;; logger l ;;
   log_pipeline_run dag_id task_id "success" n None ;; ret n) w = (Ok m, w') ->
  open_connections w' = Nat.pred (open_connections w)
  /\ exists ts,
       pipeline_metadata (committed w')
       = (pipeline_metadata (work conn)
          ++ [mkRunLog (dag_id ++ "." ++ task_id) "success" n ts None])%list.
Proof.
  intros Hf H.
  apply bind_Ok_inv in H as (a & w1 & Hc & H).
  pose proof (commit_tame conn _ _ _ Hc) as (_ & _ & _ & _ & _ & _ & Hf1).
  specialize (Hf1 Hf).
  destruct a. apply commit_Ok in Hc as (Hc1 & Hc2 & _ & _).
  apply bind_Ok_inv in H as (a1 & w2 & Hs & H).
  unfold cursor_close, ret in Hs. injection Hs as _ <-.
  apply bind_Ok_inv in H as (a2 & w3 & Hs & H).
  unfold close in Hs. injection Hs as _ <-.
  apply bind_Ok_inv in H as (a3 & w4 & Hs & H).
  unfold logger in Hs. injection Hs as _ <-.
  apply bind_Ok_inv in H as (a4 & w5 & Hs & H).
  unfold ret in H. injection H as _ <-.
  match type of Hs with
  | log_pipeline_run _ _ _ _ _ ?wx = _ =>
      destruct (log_pipeline_run_effect dag_id task_id "success" n None wx)
        as (w6 & extra & Heq & _ & Hmeta & _ & _ & _ & Hopen)
  end.
  rewrite Heq in Hs. injection Hs as Hw. subst w5.
  cbn in Hmeta, Hopen. rewrite Hf1 in Hmeta, Hopen. cbn in Hmeta.
  rewrite Hc1 in Hmeta. rewrite Hc2 in Hopen.
  split; [apply Hopen; reflexivity |].
  eexists. exact Hmeta.
Qed.

Section ExtractionOutcomes.

Variable id_column : json -> result string.

Lemma upsert_counting_settled t conn items i u :
  frame settled (upsert_counting id_column t conn items i u).
Proof.
  intros w r w' H. apply quiet_tame_settled.
  - exact (upsert_counting_quiet id_column t items conn i u _ _ _ H).
  - exact (upsert_counting_tame id_column t items conn i u _ _ _ H).
Qed.

Lemma upsert_plain_settled t conn items :
  frame settled (upsert_plain id_column t conn items).
Proof.
  intros w r w' H. apply quiet_tame_settled.
  - exact (upsert_plain_quiet id_column t items conn _ _ _ H).
  - exact (upsert_plain_tame id_column t items conn _ _ _ H).
Qed.

(** One step of a [try] block that has returned, with what it left alone. *)
Ltac settled_step H Hset :=
  let a := fresh "a" in
  let wx := fresh "wx" in
  let Hs := fresh "Hs" in
  let Hn := fresh "Hset" in
  eapply (bind_Ok_frame settled) in H;
  [ destruct H as (a & wx & Hn & Hs & H);
    pose proof (settled_trans _ _ _ Hset Hn); clear Hset Hn; clear Hs
  | first [ exact (frame_weaken _ _ _ eq_settled (requests_get_pure _ _))
          | exact (frame_weaken _ _ _ eq_settled (raise_for_status_pure _))
          | exact (frame_weaken _ _ _ eq_settled (response_json_pure _))
          | exact (frame_lift settled_refl _)
          | exact (logger_settled _)
          | exact (frame_ret settled_refl tt) ] ].

(** Where a [try] block that returns stands when its loop is over: the
    connection it made is the only change to the open connections, and the
    transaction holds the ledger as committed. *)
Lemma counting_body_reaches_tail t path timeout what task_id ctx w n w' :
  extract_counting_body id_column t path timeout what task_id ctx w = (Ok n, w') ->
  exists conn i u wt,
    (commit conn ;; cursor_close ;; close conn ;;
     logger (Info_loaded_new_updated what i u) ;;
     log_pipeline_run (dag_id_of ctx) task_id "success" n None ;; ret n) wt
    = (Ok n, w')
    /\ pipeline_metadata (work conn) = pipeline_metadata (committed w)
    /\ open_connections wt = S (open_connections w)
    /\ (faults w = [] -> faults wt = []).
Proof.
  unfold extract_counting_body. intros H.
  pose proof (settled_refl w) as Hset.
  do 5 (settled_step H Hset; match goal with Hx : settled w _ |- _ => rename Hx into Hset end).
  apply bind_Ok_inv in H as (conn & w6 & Hconn & H).
  pose proof (get_connection_tame _ _ _ Hconn) as (_ & _ & _ & _ & _ & _ & Hf6).
  apply get_connection_Ok in Hconn as (-> & Hc6 & Ho6 & _ & _).
  destruct Hset as (s1 & s2 & s3 & s4).
  pose proof (settled_refl w6) as Hset6.
  unfold cursor in H.
  eapply (bind_Ok_frame settled) in H; [| exact (frame_ret settled_refl tt)].
  destruct H as (a7 & w7 & Hs7 & _ & H).
  eapply (bind_Ok_frame settled) in H; [| exact (frame_lift settled_refl _)].
  destruct H as (items & w8 & Hs8 & _ & H).
  apply bind_Ok_inv in H as ([[conn' i] u] & w9 & Hloop & H).
  pose proof (upsert_counting_settled _ _ _ _ _ _ _ _ Hloop) as Hs9.
  apply upsert_counting_Ok in Hloop as (entries & _ & -> & _ & _).
  pose proof (settled_trans _ _ _ (settled_trans _ _ _ Hs7 Hs8) Hs9)
    as (t1 & t2 & t3 & t4).
  pose proof (proj1 (tail_Ok _ _ _ _ _ _ _ _ H)) as Hn.
  match type of Hn with n = ?v => subst v end.
  eexists _, i, u, w9. split; [exact H |].
  cbn [work]. rewrite metadata_set_table, s1.
  split; [reflexivity |].
  split; [rewrite t2, Ho6, s2; reflexivity |].
  intros Hf. auto.
Qed.

Lemma rockets_body_reaches_tail ctx w n w' :
  extract_rockets_body id_column ctx w = (Ok n, w') ->
  exists conn wt,
    (commit conn ;; cursor_close ;; close conn ;;
     logger (Info_loaded_records "rockets" n) ;;
     log_pipeline_run (dag_id_of ctx) "extract_rockets" "success" n None ;; ret n) wt
    = (Ok n, w')
    /\ pipeline_metadata (work conn) = pipeline_metadata (committed w)
    /\ open_connections wt = S (open_connections w)
    /\ (faults w = [] -> faults wt = []).
Proof.
  unfold extract_rockets_body. intros H.
  pose proof (settled_refl w) as Hset.
  do 5 (settled_step H Hset; match goal with Hx : settled w _ |- _ => rename Hx into Hset end).
  apply bind_Ok_inv in H as (conn & w6 & Hconn & H).
  pose proof (get_connection_tame _ _ _ Hconn) as (_ & _ & _ & _ & _ & _ & Hf6).
  apply get_connection_Ok in Hconn as (-> & Hc6 & Ho6 & _ & _).
  destruct Hset as (s1 & s2 & s3 & s4).
  unfold cursor in H.
  eapply (bind_Ok_frame settled) in H; [| exact (frame_ret settled_refl tt)].
  destruct H as (a7 & w7 & Hs7 & _ & H).
  eapply (bind_Ok_frame settled) in H; [| exact (frame_lift settled_refl _)].
  destruct H as (items & w8 & Hs8 & _ & H).
  apply bind_Ok_inv in H as (conn' & w9 & Hloop & H).
  pose proof (upsert_plain_settled _ _ _ _ _ _ Hloop) as Hs9.
  apply upsert_plain_Ok in Hloop as (entries & _ & ->).
  pose proof (settled_trans _ _ _ (settled_trans _ _ _ Hs7 Hs8) Hs9)
    as (t1 & t2 & t3 & t4).
  pose proof (proj1 (tail_Ok _ _ _ _ _ _ _ _ H)) as Hn.
  match type of Hn with n = ?v => subst v end.
  eexists _, w9. split; [exact H |].
  cbn [work]. rewrite metadata_set_table, s1.
  split; [reflexivity |].
  split; [rewrite t2, Ho6, s2; reflexivity |].
  intros Hf. auto.
Qed.

(** What a [try] block that returns has done to the ledger and to the open
    connections. *)
Lemma try_block_Ok_ledger x ctx w n w' :
  try_block id_column x ctx w = (Ok n, w') ->
  (exists ledger,
     pipeline_metadata (committed w')
     = (pipeline_metadata (committed w) ++ ledger)%list
     /\ (ledger = []
         \/ exists ts, ledger = [outcome_entry ctx x (Ok n) ts]))
  /\ (faults w = [] ->
      open_connections w' = open_connections w
      /\ exists ts,
           pipeline_metadata (committed w')
           = (pipeline_metadata (committed w)
              ++ [outcome_entry ctx x (Ok n) ts])%list).
Proof.
  intros H.
  assert (Htail :
    exists conn l wt,
      (commit conn ;; cursor_close ;; close conn ;; logger l ;;
       log_pipeline_run (dag_id_of ctx) (task_name x) "success" n None ;; ret n) wt
      = (Ok n, w')
      /\ pipeline_metadata (work conn) = pipeline_metadata (committed w)
      /\ open_connections wt = S (open_connections w)
      /\ (faults w = [] -> faults wt = [])).
  { destruct x; cbn [try_block task_name] in *.
    - apply counting_body_reaches_tail in H as (conn & i & u & wt & H).
      exists conn, (Info_loaded_new_updated "launches" i u), wt. exact H.
    - apply counting_body_reaches_tail in H as (conn & i & u & wt & H).
      exists conn, (Info_loaded_new_updated "satellites" i u), wt. exact H.
    - apply rockets_body_reaches_tail in H as (conn & wt & H).
      exists conn, (Info_loaded_records "rockets" n), wt. exact H. }
  destruct Htail as (conn & l & wt & Ht & Hmeta & Hopen & Hfaults).
  split.
  - apply tail_Ok in Ht as (_ & _ & _ & (ledger & Hl & Hcases) & _).
    exists ledger. rewrite Hl, Hmeta. split; [reflexivity | exact Hcases].
  - intros Hf.
    destruct (tail_Ok_calm _ _ _ _ _ _ _ _ (Hfaults Hf) Ht) as (Ho & ts & Hl).
    split; [rewrite Ho, Hopen; reflexivity |].
    exists ts. rewrite Hl, Hmeta. reflexivity.
Qed.

(** X12: the ledger is append-only under the extractions, and what is
    appended tells the outcome.  Whatever an extraction call does, the
    ledger afterwards is the ledger before followed by at most one entry,
    and that entry names the task and records [success] with the number of
    records returned, or [failed] with zero records and the text of the
    error raised. *)
Theorem extraction_ledger_entry :
  forall x ctx w r w',
    run_extraction id_column x ctx w = (r, w') ->
    exists ledger,
      pipeline_metadata (committed w')
      = (pipeline_metadata (committed w) ++ ledger)%list
      /\ (ledger = [] \/ exists ts, ledger = [outcome_entry ctx x r ts]).
Proof.
  intros x ctx w r w' Hrun.
  apply run_extraction_inv in Hrun as [(n & -> & Hb) | (e & w1 & -> & Hb & Hf)].
  - exact (proj1 (try_block_Ok_ledger x ctx w n w' Hb)).
  - pose proof (try_block_Raise id_column x ctx _ _ _ Hb) as Hkeep.
    destruct (extract_failed_effect (what_of x) (task_name x) ctx e w1)
      as (w2 & Heq & _ & Hmeta & _).
    rewrite Heq in Hf. injection Hf as <-.
    eexists. split; [rewrite Hmeta, Hkeep; reflexivity |].
    destruct (ledger_write_ok (faults w1));
      [right; eexists; reflexivity | left; reflexivity].
Qed.

(** X13: an extraction that returns while the store never fails has closed
    the connection it opened, and the ledger has its [success] entry with
    the number of records returned. *)
Theorem fault_free_extraction_releases :
  forall x ctx w n w',
    faults w = [] ->
    run_extraction id_column x ctx w = (Ok n, w') ->
    open_connections w' = open_connections w
    /\ exists ts,
         pipeline_metadata (committed w')
         = (pipeline_metadata (committed w)
            ++ [outcome_entry ctx x (Ok n) ts])%list.
Proof.
  intros x ctx w n w' Hf Hrun.
  apply run_extraction_inv in Hrun as [(n0 & Hn & Hb) | (e & w1 & Hr & _)];
    [| discriminate Hr].
  injection Hn as <-.
  exact (proj2 (try_block_Ok_ledger x ctx w n w' Hb) Hf).
Qed.

End ExtractionOutcomes.

(** ** Errors of an extraction *)

Lemma ledger_write_ok_nil : ledger_write_ok [] = true.
Proof. reflexivity. Qed.

Section ExtractionErrors.

Variable id_column : json -> result string.

Lemma try_block_tame x ctx : frame tame (try_block id_column x ctx).
Proof.
  pose proof (upsert_counting_tame id_column) as Hc.
  pose proof (upsert_plain_tame id_column) as Hp.
  destruct x; cbn [try_block];
    unfold extract_counting_body, extract_rockets_body, cursor, cursor_close;
    tame_steps.
Qed.

Lemma run_extraction_Raise x ctx w e w1 :
  try_block id_column x ctx w = (Raise e, w1) ->
  run_extraction id_column x ctx w
  = extract_failed (what_of x) (task_name x) ctx e w1.
Proof.
  destruct x; cbn [try_block run_extraction what_of task_name];
    unfold extract_launches, extract_starlink, extract_rockets, extract_counting,
      try_except; intros ->; reflexivity.
Qed.

(** The handler, with the ledger write spelled out. *)
Lemma extract_failed_precise what task_id ctx e w :
  exists w',
    extract_failed what task_id ctx e w = (Raise e, w')
    /\ same_raw (committed w') (committed w)
    /\ pipeline_metadata (committed w')
       = (pipeline_metadata (committed w)
          ++ if ledger_write_ok (faults w)
             then [mkRunLog (dag_id_of ctx ++ "." ++ task_id) "failed" 0
                            (clock w (ticks w)) (Some (str e))]
             else [])%list
    /\ (ledger_write_ok (faults w) = true ->
        open_connections w' = open_connections w).
Proof.
  unfold extract_failed.
  destruct (log_pipeline_run_effect (dag_id_of ctx) task_id "failed" 0
              (Some (str e)) (set_logs (logs w ++ [Error_extracting what e]) w))
    as (w' & extra & Heq & Hraw & Hmeta & _ & _ & _ & Hopen).
  exists w'. unfold bind, logger, raise. rewrite Heq.
  cbn in Hraw, Hmeta, Hopen. auto.
Qed.

Ltac go_ok Hs := rewrite (bind_eq_Ok _ _ _ _ _ Hs); cbv beta; clear Hs.
Ltac go_raise Hs := rewrite (bind_eq_Raise _ _ _ _ _ Hs); clear Hs.

(** The fetch part of a [try] block, run on the answer of the API. *)
Ltac fetch_fails Hfe :=
  let Hs := fresh "Hs" in
  let msg := fresh "msg" in
  let code := fresh "code" in
  let b := fresh "b" in
  let Hapi := fresh "Hapi" in
  let Hst := fresh "Hst" in
  let v := fresh "v" in
  let Hlen := fresh "Hlen" in
  unfold fetch_error in Hfe;
  match goal with
  | |- bind (requests_get ?url ?to) _ ?w = _ =>
      destruct (api w url) as [msg | code b] eqn:Hapi;
      [ injection Hfe as <-;
        assert (Hs : requests_get url to w = (Raise (RequestException msg), w))
          by (unfold requests_get; rewrite Hapi; reflexivity);
        go_raise Hs; reflexivity
      | assert (Hs : requests_get url to w = (Ok (mkResponse code b), w))
          by (unfold requests_get; rewrite Hapi; reflexivity);
        go_ok Hs ]
  end;
  match goal with
  | |- bind (raise_for_status ?r) _ ?w = _ =>
      destruct ((400 <=? code) && (code <? 600)) eqn:Hst;
      [ injection Hfe as <-;
        assert (Hs : raise_for_status r w = (Raise (HTTPError code), w))
          by (unfold raise_for_status; cbn [status_code]; rewrite Hst; reflexivity);
        go_raise Hs; reflexivity
      | assert (Hs : raise_for_status r w = (Ok tt, w))
          by (unfold raise_for_status; cbn [status_code]; rewrite Hst; reflexivity);
        go_ok Hs ]
  end;
  match goal with
  | |- bind (response_json ?r) _ ?w = _ =>
      destruct b as [v |];
      [ assert (Hs : response_json (mkResponse code (Some v)) w = (Ok v, w))
          by reflexivity;
        go_ok Hs
      | injection Hfe as <-;
        assert (Hs : response_json (mkResponse code None) w = (Raise JSONDecodeError, w))
          by reflexivity;
        go_raise Hs; reflexivity ]
  end;
  match goal with
  | |- bind (lift (py_len ?v)) _ ?w = _ =>
      destruct (py_len v) as [n0 | e0] eqn:Hlen; [discriminate Hfe |];
      injection Hfe as <-; reflexivity
  end.

Lemma try_block_fetch_error x ctx w e :
  fetch_error (api w (endpoint x)) = Some e ->
  try_block id_column x ctx w = (Raise e, w).
Proof.
  intros Hfe.
  destruct x; cbn [try_block endpoint] in *;
    unfold extract_counting_body, extract_rockets_body; fetch_fails Hfe.
Qed.

(** X14: when the fetch fails, nothing reaches the raw tables and no
    connection is opened for them.  A network failure raises the request
    error, a status from 400 to 599 raises the HTTP error whatever the
    body, a body that is no JSON raises the decode error, a JSON body
    without a length (a number, a boolean, null) raises its type error;
    each time the raw tables stay as they are, the ledger gains the
    [failed] entry exactly when its own write goes through, and then no
    connection is left open. *)
Theorem fetch_failure_touches_no_table :
  forall x ctx w e,
    fetch_error (api w (endpoint x)) = Some e ->
    exists w',
      run_extraction id_column x ctx w = (Raise e, w')
      /\ same_raw (committed w') (committed w)
      /\ pipeline_metadata (committed w')
         = (pipeline_metadata (committed w)
            ++ if ledger_write_ok (faults w)
               then [outcome_entry ctx x (Raise e) (clock w (ticks w))]
               else [])%list
      /\ (ledger_write_ok (faults w) = true ->
          open_connections w' = open_connections w).
Proof.
  intros x ctx w e Hfe.
  pose proof (try_block_fetch_error x ctx w e Hfe) as Hb.
  destruct (extract_failed_precise (what_of x) (task_name x) ctx e w)
    as (w' & Heq & Hraw & Hmeta & Hopen).
  exists w'. rewrite (run_extraction_Raise x ctx w e w Hb).
  split; [exact Heq |]. split; [exact Hraw |]. split; [exact Hmeta | exact Hopen].
Qed.

(** *** A record that cannot be stored *)

Lemma upsert_counting_stops t good bad rest e : forall conn i u w,
  faults w = [] ->
  Forall (keyed id_column) good ->
  record_key id_column bad = Raise e ->
  exists w1,
    upsert_counting id_column t conn (good ++ bad :: rest)%list i u w = (Raise e, w1).
Proof.
  induction good as [| item good IH]; intros conn i u w Hf Hgood Hbad;
    cbn [app upsert_counting].
  - unfold record_key in Hbad.
    destruct (getitem bad "id") as [v | e0] eqn:Hv.
    + unfold bind at 1, lift. unfold bind at 1, now.
      unfold bind at 1, execute_upsert. unfold bind at 1, round_trip.
      cbn [faults set_ticks]. rewrite Hf.
      unfold bind at 1, lift. rewrite Hbad. eexists. reflexivity.
    + injection Hbad as ->. unfold bind at 1, lift. eexists. reflexivity.
  - inversion Hgood as [| ? ? (k & Hkey) Hrest]; subst.
    unfold record_key in Hkey.
    destruct (getitem item "id") as [v | e0] eqn:Hv; [| discriminate Hkey].
    unfold bind at 1, lift. unfold bind at 1, now.
    destruct (execute_upsert_total id_column t true conn v k item (clock w (ticks w))
                "spacex_api_v4" (set_ticks (S (ticks w)) w) Hf Hkey)
      as (conn' & res & Hex & Hres).
    destruct (Hres eq_refl) as (b & ->).
    rewrite (bind_eq_Ok _ _ _ _ _ Hex).
    unfold bind at 1, fetchone_0, ret. cbn [fst snd].
    destruct b; apply IH; assumption.
Qed.

Lemma upsert_plain_stops t good bad rest e : forall conn w,
  faults w = [] ->
  Forall (keyed id_column) good ->
  record_key id_column bad = Raise e ->
  exists w1,
    upsert_plain id_column t conn (good ++ bad :: rest)%list w = (Raise e, w1).
Proof.
  induction good as [| item good IH]; intros conn w Hf Hgood Hbad;
    cbn [app upsert_plain].
  - unfold record_key in Hbad.
    destruct (getitem bad "id") as [v | e0] eqn:Hv.
    + unfold bind at 1, lift. unfold bind at 1, now.
      unfold bind at 1, execute_upsert. unfold bind at 1, round_trip.
      cbn [faults set_ticks]. rewrite Hf.
      unfold bind at 1, lift. rewrite Hbad. eexists. reflexivity.
    + injection Hbad as ->. unfold bind at 1, lift. eexists. reflexivity.
  - inversion Hgood as [| ? ? (k & Hkey) Hrest]; subst.
    unfold record_key in Hkey.
    destruct (getitem item "id") as [v | e0] eqn:Hv; [| discriminate Hkey].
    unfold bind at 1, lift. unfold bind at 1, now.
    destruct (execute_upsert_total id_column t false conn v k item (clock w (ticks w))
                "spacex_api_v4" (set_ticks (S (ticks w)) w) Hf Hkey)
      as (conn' & res & Hex & _).
    rewrite (bind_eq_Ok _ _ _ _ _ Hex).
    apply IH; assumption.
Qed.

(** The steps of a [try] block up to its loop, run forward on a good answer. *)
Ltac fetch_goes Hapi Hcode Hiter Hf :=
  let Hs := fresh "Hs" in
  let wc := fresh "wc" in
  let Hfc := fresh "Hfc" in
  match goal with
  | |- context [bind (requests_get ?url ?to) _ ?w] =>
      assert (Hs : requests_get url to w = (Ok (mkResponse _ _), w))
        by (unfold requests_get; rewrite Hapi; reflexivity);
      go_ok Hs
  end;
  match goal with
  | |- context [bind (raise_for_status ?r) _ ?w] =>
      assert (Hs : raise_for_status r w = (Ok tt, w))
        by (unfold raise_for_status; cbn [status_code]; rewrite Hcode;
            reflexivity);
      go_ok Hs
  end;
  match goal with
  | |- context [bind (response_json ?r) _ ?w] =>
      assert (Hs : response_json r w = (Ok _, w)) by reflexivity;
      go_ok Hs
  end;
  match goal with
  | |- context [bind (lift (py_len ?v)) _ ?w] =>
      assert (Hs : lift (py_len v) w = (Ok _, w))
        by (unfold lift; rewrite (py_iter_len _ _ Hiter); reflexivity);
      go_ok Hs
  end;
  match goal with
  | |- context [bind (logger ?l) _ ?w] =>
      assert (Hs : logger l w = (Ok tt, set_logs (logs w ++ [l]) w))
        by reflexivity;
      go_ok Hs
  end;
  match goal with
  | |- context [bind get_connection _ ?w] =>
      destruct (get_connection_total w Hf) as (wc & Hs & Hfc);
      go_ok Hs
  end;
  match goal with
  | |- context [bind (cursor ?c) _ ?w] =>
      assert (Hs : cursor c w = (Ok tt, w)) by reflexivity;
      go_ok Hs
  end;
  match goal with
  | |- context [bind (lift (py_iter ?v)) _ ?w] =>
      assert (Hs : lift (py_iter v) w = (Ok _, w))
        by (unfold lift; rewrite Hiter; reflexivity);
      go_ok Hs
  end.

Lemma try_block_bad_record x ctx w code records good bad rest e :
  api w (endpoint x) = Response code (Some records) ->
  good_status code ->
  py_iter records = Ok (good ++ bad :: rest)%list ->
  Forall (keyed id_column) good ->
  record_key id_column bad = Raise e ->
  faults w = [] ->
  exists w1, try_block id_column x ctx w = (Raise e, w1).
Proof.
  intros Hapi Hcode Hiter Hgood Hbad Hf.
  destruct x; cbn [try_block endpoint] in *;
    unfold extract_counting_body, extract_rockets_body;
    fetch_goes Hapi Hcode Hiter Hf;
    match goal with
    | Hfc : faults ?wx = [] |- context [bind (upsert_counting _ ?t ?c _ _ _) _ ?wx] =>
        destruct (upsert_counting_stops t good bad rest e c 0 0 wx Hfc Hgood Hbad)
          as (w1 & Hloop)
    | Hfc : faults ?wx = [] |- context [bind (upsert_plain _ ?t ?c _) _ ?wx] =>
        destruct (upsert_plain_stops t good bad rest e c wx Hfc Hgood Hbad)
          as (w1 & Hloop)
    end;
    exists w1; rewrite (bind_eq_Raise _ _ _ _ _ Hloop); reflexivity.
Qed.

(** X15: the first record that cannot be stored decides the outcome.  With
    the API and the store in order, when the records before it have keys
    and it has none (no [id] field, a record that is no object, or an id
    the column refuses), the extraction raises exactly the error of that
    record, whatever follows it in the batch; the raw tables stay as they
    were and the ledger gains the [failed] entry with the text of that
    error. *)
Theorem first_bad_record_fails_the_batch :
  forall x ctx w code records good bad rest e,
    api w (endpoint x) = Response code (Some records) ->
    good_status code ->
    py_iter records = Ok (good ++ bad :: rest)%list ->
    Forall (keyed id_column) good ->
    record_key id_column bad = Raise e ->
    faults w = [] ->
    exists w',
      run_extraction id_column x ctx w = (Raise e, w')
      /\ same_raw (committed w') (committed w)
      /\ exists ts,
           pipeline_metadata (committed w')
           = (pipeline_metadata (committed w)
              ++ [outcome_entry ctx x (Raise e) ts])%list.
Proof.
  intros x ctx w code records good bad rest e Hapi Hcode Hiter Hgood Hbad Hf.
  destruct (try_block_bad_record x ctx w code records good bad rest e
              Hapi Hcode Hiter Hgood Hbad Hf) as (w1 & Hb).
  pose proof (try_block_Raise id_column x ctx _ _ _ Hb) as Hkeep.
  assert (Hf1 : faults w1 = []).
  { destruct (try_block_tame x ctx _ _ _ Hb) as (_ & _ & _ & _ & _ & _ & Hcalm).
    exact (Hcalm Hf). }
  destruct (extract_failed_precise (what_of x) (task_name x) ctx e w1)
    as (w' & Heq & Hraw & Hmeta & _).
  exists w'. rewrite (run_extraction_Raise x ctx w e w1 Hb).
  split; [exact Heq |].
  split; [rewrite <- Hkeep; exact Hraw |].
  rewrite Hf1, ledger_write_ok_nil, Hkeep in Hmeta.
  eexists. exact Hmeta.
Qed.

End ExtractionErrors.

(** ** The task graph *)

Lemma edges_climb_one_stage a b :
  In (a, b) Dag.edges -> Dag.stage b = S (Dag.stage a).
Proof.
  intros H. cbn in H.
  repeat (destruct H as [H | H]; [injection H as <- <-; reflexivity |]).
  destruct H.
Qed.

Lemma next_stage_is_downstream a b :
  Dag.stage b = S (Dag.stage a) -> In (a, b) Dag.edges.
Proof.
  destruct a, b; cbn; intros H; try discriminate H;
    repeat (try (left; reflexivity); right).
Qed.

Lemma stage_inhabited n : (n <= 8)%nat -> exists c, Dag.stage c = n.
Proof.
  intros H.
  do 9 (destruct n as [| n];
        [first [ exists Dag.test_db_connection; reflexivity
               | exists Dag.extract_launches; reflexivity
               | exists Dag.data_quality_checks; reflexivity
               | exists Dag.extraction_summary; reflexivity
               | exists Dag.silver_transformations; reflexivity
               | exists Dag.gold_analytics; reflexivity
               | exists Dag.dbt_tests; reflexivity
               | exists Dag.final_validation; reflexivity
               | exists Dag.completion_notification; reflexivity ] |]).
  lia.
Qed.

Lemma stage_le_8 t : (Dag.stage t <= 8)%nat.
Proof. destruct t; cbn; lia. Qed.

Lemma before_climbs a b : Dag.before a b -> (Dag.stage a < Dag.stage b)%nat.
Proof.
  induction 1 as [a b H | a b c _ IH1 _ IH2].
  - rewrite (edges_climb_one_stage a b H). lia.
  - lia.
Qed.

Lemma later_stage_is_after d : forall a b,
  Dag.stage b = (Dag.stage a + S d)%nat -> Dag.before a b.
Proof.
  induction d as [| d IH]; intros a b H.
  - apply Dag.before_edge, next_stage_is_downstream. lia.
  - pose proof (stage_le_8 b) as Hb.
    destruct (stage_inhabited (S (Dag.stage a))) as (c & Hc); [lia |].
    apply Dag.before_trans with c.
    + apply Dag.before_edge, next_stage_is_downstream. exact Hc.
    + apply IH. lia.
Qed.

(** X16: the dependency statements of the DAG order its tasks exactly by
    stage: a task runs before another, directly or through others, if and
    only if its stage is lower.  So the graph has no cycle, the connection
    test comes before everything, the three extractions are not ordered
    among themselves, and the quality checks wait for exactly these
    three. *)
Theorem dag_orders_tasks_by_stage :
  (forall a b, Dag.before a b <-> (Dag.stage a < Dag.stage b)%nat)
  /\ (forall t, ~ Dag.before t t)
  /\ Dag.upstream Dag.data_quality_checks
     = [Dag.extract_launches; Dag.extract_starlink; Dag.extract_rockets]
  /\ Dag.upstream Dag.extract_launches = [Dag.test_db_connection]
  /\ Dag.upstream Dag.extract_starlink = [Dag.test_db_connection]
  /\ Dag.upstream Dag.extract_rockets = [Dag.test_db_connection].
Proof.
  assert (Hiff : forall a b, Dag.before a b <-> (Dag.stage a < Dag.stage b)%nat).
  { intros a b. split; [apply before_climbs |].
    intros H. apply (later_stage_is_after (Dag.stage b - Dag.stage a - 1)). lia. }
  split; [exact Hiff |].
  split; [intros t H; apply Hiff in H; lia |].
  repeat split; reflexivity.
Qed.

(** ** Concrete runs of the rest of the code *)

Lemma launches_run_keeps_xcom :
  run_extraction text_id Extract_launches pipeline_context duplicate_run
  = (Ok 3, after_duplicate_run)
  /\ xcom after_duplicate_run = xcom duplicate_run.
Proof.
  split; [exact launches_run_returns |].
  exact (proj1 (core_never_writes_xcom text_id duplicate_run after_duplicate_run)
           _ _ _ launches_run_returns).
Defined.

Lemma boolean_flag_is_neither :
  arrow (arrow (Some (data (satellite "S9" (JBool false)))) "spaceTrack")
        "DECAYED"
  = Some (JBool false)
  /\ is_unknown (satellite "S9" (JBool false)) = true.
Proof.
  split; [reflexivity |].
  exact (proj1 (proj2 (proj2 (decay_flag_reading (satellite "S9" (JBool false)))))
           false eq_refl).
Defined.

Lemma launches_task_pushes_three :
  run_extraction_task text_id Extract_launches pipeline_context duplicate_run
  = (Ok "Extracted 3 launch records",
     snd (run_extraction_task text_id Extract_launches pipeline_context
            duplicate_run))
  /\ exists n w0,
       run_extraction text_id Extract_launches pipeline_context duplicate_run
       = (Ok n, w0)
       /\ xcom (snd (run_extraction_task text_id Extract_launches
                       pipeline_context duplicate_run))
          = [("launches_count", XInt n)].
Proof.
  assert (H : run_extraction_task text_id Extract_launches pipeline_context
                duplicate_run
              = (Ok "Extracted 3 launch records",
                 snd (run_extraction_task text_id Extract_launches
                        pipeline_context duplicate_run)))
    by (apply (run_result (run_extraction_task text_id Extract_launches
                             pipeline_context));
        vm_compute; reflexivity).
  split; [exact H |].
  destruct (extraction_task_pushes_count text_id _ _ _ _ _ H)
    as (n & w0 & Hrun & _ & Hx).
  exists n, w0. split; [exact Hrun | exact Hx].
Defined.

Lemma sixty_missing_published :
  run_data_quality_checks pipeline_context (gate_world sixty_missing)
  = (Raise (PlainException "Too many launches with missing data"),
     snd (run_data_quality_checks pipeline_context (gate_world sixty_missing)))
  /\ committed (snd (run_data_quality_checks pipeline_context
                       (gate_world sixty_missing)))
     = sixty_missing.
Proof.
  assert (H : run_data_quality_checks pipeline_context (gate_world sixty_missing)
              = (Raise (PlainException "Too many launches with missing data"),
                 snd (run_data_quality_checks pipeline_context
                        (gate_world sixty_missing))))
    by (apply (run_result (run_data_quality_checks pipeline_context));
        vm_compute; reflexivity).
  split; [exact H |].
  exact (proj1 (quality_task_publishes_then_decides _ _ _ _ H)).
Defined.

Lemma stored_falcon_v2_written :
  reachable text_id after_duplicate_run
  /\ In stored_falcon_v2 (get_table Launches (committed after_duplicate_run))
  /\ written_by_core text_id stored_falcon_v2.
Proof.
  assert (Hreach : reachable text_id after_duplicate_run)
    by (unfold after_duplicate_run; apply reachable_extract, reachable_init;
        reflexivity).
  assert (Hin : In stored_falcon_v2
                   (get_table Launches (committed after_duplicate_run)))
    by (vm_compute; left; reflexivity).
  split; [exact Hreach |]. split; [exact Hin |].
  exact (reachable_rows_written_by_core text_id _ Hreach _ _ Hin).
Defined.

Lemma rerun_keeps_other_tables :
  run_extraction text_id Extract_launches pipeline_context rerun_on_three_tables
  = (Ok 3,
     snd (run_extraction text_id Extract_launches pipeline_context
            rerun_on_three_tables))
  /\ get_table Starlink
       (committed (snd (run_extraction text_id Extract_launches pipeline_context
                          rerun_on_three_tables)))
     = starlink three_tables.
Proof.
  assert (H : run_extraction text_id Extract_launches pipeline_context
                rerun_on_three_tables
              = (Ok 3,
                 snd (run_extraction text_id Extract_launches pipeline_context
                        rerun_on_three_tables)))
    by (apply (run_result (run_extraction text_id Extract_launches
                             pipeline_context));
        vm_compute; reflexivity).
  split; [exact H |].
  exact (proj1 (proj2 (extraction_never_deletes text_id _ _ _ _ _ H Starlink))
           ltac:(discriminate)).
Defined.

Lemma mixed_constellation_bounded :
  check_data_quality pipeline_context (gate_world mixed_constellation)
  = (Ok mixed_constellation_checks,
     snd (check_data_quality pipeline_context (gate_world mixed_constellation)))
  /\ dict_get mixed_constellation_checks "starlink_active" 0
     + dict_get mixed_constellation_checks "starlink_inactive" 0
     <= dict_get mixed_constellation_checks "starlink_total" 0.
Proof.
  assert (H : check_data_quality pipeline_context (gate_world mixed_constellation)
              = (Ok mixed_constellation_checks,
                 snd (check_data_quality pipeline_context
                        (gate_world mixed_constellation))))
    by (apply (run_result (check_data_quality pipeline_context));
        vm_compute; reflexivity).
  split; [exact H |].
  exact (proj1 (proj2 (proj2 (proj2 (proj2 (proj2
           (quality_counts_bounded _ _ _ _ H))))))).
Defined.

Lemma summary_after_duplicate_run :
  run_extraction text_id Extract_launches pipeline_context duplicate_run
  = (Ok 3, after_duplicate_run)
  /\ exists s w3,
       get_extraction_summary
         (next_run (committed after_duplicate_run) second_answer)
       = (Ok s, w3)
       /\ assoc "starlink_count" s = Some (SCount 0).
Proof.
  split; [exact launches_run_returns |].
  assert (Hdb : committed (next_run (committed after_duplicate_run) second_answer)
                = committed after_duplicate_run)
    by (cbn [next_run committed]; reflexivity).
  assert (Hok : first_two_ok
                  (faults (next_run (committed after_duplicate_run) second_answer))
                = true)
    by (cbn [next_run faults first_two_ok]; reflexivity).
  destruct (summary_counts_follow_extraction text_id Extract_launches
              pipeline_context duplicate_run 3 after_duplicate_run
              (next_run (committed after_duplicate_run) second_answer)
              launches_run_returns Hdb Hok)
    as (s & w3 & code & records & items & entries & Hsum & _ & _ & _ & _ & Hother).
  exists s, w3. split; [exact Hsum |].
  exact (Hother Starlink ltac:(discriminate)).
Defined.

Lemma empty_answer_returns_zero :
  exists w',
    run_extraction text_id Extract_starlink pipeline_context empty_answer_run
    = (Ok 0, w')
    /\ same_raw (committed w') three_tables.
Proof.
  exact (empty_batch_returns_zero text_id Extract_starlink pipeline_context
           empty_answer_run 200 (JArr []) eq_refl eq_refl eq_refl eq_refl).
Defined.

Lemma bad_record_in_ledger :
  run_extraction text_id Extract_launches pipeline_context bad_record_run
  = (Raise (KeyError "id"),
     snd (run_extraction text_id Extract_launches pipeline_context bad_record_run))
  /\ exists ledger,
       pipeline_metadata
         (committed (snd (run_extraction text_id Extract_launches
                            pipeline_context bad_record_run)))
       = (pipeline_metadata (committed bad_record_run) ++ ledger)%list
       /\ (ledger = []
           \/ exists ts,
                ledger = [outcome_entry pipeline_context Extract_launches
                            (Raise (KeyError "id")) ts]).
Proof.
  assert (H : run_extraction text_id Extract_launches pipeline_context
                bad_record_run
              = (Raise (KeyError "id"),
                 snd (run_extraction text_id Extract_launches pipeline_context
                        bad_record_run)))
    by (apply (run_result (run_extraction text_id Extract_launches
                             pipeline_context));
        vm_compute; reflexivity).
  split; [exact H |].
  exact (extraction_ledger_entry text_id _ _ _ _ _ H).
Defined.

Lemma duplicate_run_releases :
  faults duplicate_run = []
  /\ run_extraction text_id Extract_launches pipeline_context duplicate_run
     = (Ok 3, after_duplicate_run)
  /\ open_connections after_duplicate_run = open_connections duplicate_run.
Proof.
  split; [reflexivity |]. split; [exact launches_run_returns |].
  exact (proj1 (fault_free_extraction_releases text_id Extract_launches
                  pipeline_context duplicate_run 3 after_duplicate_run eq_refl
                  launches_run_returns)).
Defined.

Lemma server_error_touches_no_table :
  fetch_error (api server_error_run (endpoint Extract_starlink))
  = Some (HTTPError 503)
  /\ exists w',
       run_extraction text_id Extract_starlink pipeline_context server_error_run
       = (Raise (HTTPError 503), w')
       /\ same_raw (committed w') three_tables.
Proof.
  split; [reflexivity |].
  destruct (fetch_failure_touches_no_table text_id Extract_starlink
              pipeline_context server_error_run (HTTPError 503) eq_refl)
    as (w' & Hrun & Hraw & _).
  exists w'. split; [exact Hrun | exact Hraw].
Defined.

Lemma record_without_id_fails_batch :
  Forall (keyed text_id) [sample_launch "L1" "Falcon Test"]
  /\ record_key text_id (JObj [("name", JStr "no id")]) = Raise (KeyError "id")
  /\ exists w',
       run_extraction text_id Extract_launches pipeline_context bad_record_run
       = (Raise (KeyError "id"), w')
       /\ same_raw (committed w') empty_database.
Proof.
  assert (Hgood : Forall (keyed text_id) [sample_launch "L1" "Falcon Test"])
    by (constructor; [exists "L1"; reflexivity | constructor]).
  split; [exact Hgood |]. split; [reflexivity |].
  destruct (first_bad_record_fails_the_batch text_id Extract_launches
              pipeline_context bad_record_run 200 batch_with_bad_record
              [sample_launch "L1" "Falcon Test"] (JObj [("name", JStr "no id")])
              [] (KeyError "id") eq_refl eq_refl eq_refl Hgood eq_refl eq_refl)
    as (w' & Hrun & Hraw & _).
  exists w'. split; [exact Hrun | exact Hraw].
Defined.
